(** * HealthCareBot: response parsing, plan persistence and turn handling

    A shallow embedding of [Health_care_bot.py].  Python strings are lists of
    code points, the Supabase tables are lists of rows, and the methods of
    [HealthCareBot] that talk to the outside world run in a small state and
    exception monad whose state records every remote call that was made. *)

From Stdlib Require Import String Ascii.
From Stdlib Require Import List NArith ZArith Bool Arith Lia.
Import ListNotations.
Local Open Scope list_scope.

(** ** Python [str] *)

Module PyStr.

(** A [str] is a sequence of Unicode code points. *)
Definition pystr := list N.

(** A literal written with ASCII characters. *)
Definition py (s : string) : pystr :=
  map N_of_ascii (list_ascii_of_string s).

Definition LF : N := 10.
Definition DQUOTE : N := 34.
Definition LBRACE : N := 123.
Definition RBRACE : N := 125.

Fixpoint eqb (a b : pystr) : bool :=
  match a, b with
  | [], [] => true
  | x :: a', y :: b' => N.eqb x y && eqb a' b'
  | _, _ => false
  end.

Definition between (lo hi c : N) : bool := N.leb lo c && N.leb c hi.

(** [str.isspace] for one code point; [\s] of [re] on [str] patterns agrees
    with it. *)
Definition isspace (c : N) : bool :=
  between 9 13 c || between 28 32 c || N.eqb c 133 || N.eqb c 160
  || N.eqb c 5760 || between 8192 8202 c || N.eqb c 8232 || N.eqb c 8233
  || N.eqb c 8239 || N.eqb c 8287 || N.eqb c 12288.

Fixpoint dropwhile (p : N -> bool) (s : pystr) : pystr :=
  match s with
  | [] => []
  | c :: s' => if p c then dropwhile p s' else s
  end.

Fixpoint takewhile (p : N -> bool) (s : pystr) : pystr :=
  match s with
  | [] => []
  | c :: s' => if p c then c :: takewhile p s' else []
  end.

Definition lstrip (s : pystr) : pystr := dropwhile isspace s.
Definition rstrip (s : pystr) : pystr := rev (dropwhile isspace (rev s)).

(** [s.strip()] *)
Definition strip (s : pystr) : pystr := rstrip (lstrip s).

(** [s.startswith(p)] *)
Fixpoint startswith (s p : pystr) {struct p} : bool :=
  match p, s with
  | [], _ => true
  | x :: p', c :: s' => N.eqb x c && startswith s' p'
  | _ :: _, [] => false
  end.

(** The rest of [s] after the prefix [p], when [s] starts with [p]. *)
Fixpoint strip_prefix (p s : pystr) : option pystr :=
  match p, s with
  | [], _ => Some s
  | x :: p', c :: s' => if N.eqb x c then strip_prefix p' s' else None
  | _ :: _, [] => None
  end.

(** [sub in s] *)
Fixpoint contains (sub s : pystr) : bool :=
  startswith s sub ||
  match s with
  | [] => false
  | _ :: s' => contains sub s'
  end.

(** [s.replace(old, new)] for a non-empty [old]: a scan from the left; at an
    occurrence of [old] emit [new] and skip the occurrence. [skip] counts the
    characters of the current occurrence that are still to be passed over. *)
Fixpoint replace_from (old new s : pystr) (skip : nat) : pystr :=
  match s with
  | [] => []
  | c :: s' =>
      match skip with
      | S k => replace_from old new s' k
      | O =>
          if startswith s old
          then new ++ replace_from old new s' (length old - 1)
          else c :: replace_from old new s' 0
      end
  end.

(** [s.replace(old, new)] *)
Definition replace (s old new : pystr) : pystr :=
  match old with
  | [] => new ++ flat_map (fun c => c :: new) s
  | _ :: _ => replace_from old new s 0
  end.

End PyStr.
Import PyStr.

(** ** The output-contract markers and the payload pattern *)

Definition END_OF_PLAN : pystr := py "[END_OF_PLAN]".
Definition USER_DATA_JSON : pystr := py "[USER_DATA_JSON]".

Module Re.

(** A match of [r"\[USER_DATA_JSON\]\s*(\{.*?\})"]. *)
Record re_match := { group0 : pystr; group1 : pystr }.

(** [.*?\}] with [re.DOTALL]: the shortest prefix that ends with a closing
    brace. *)
Fixpoint until_rbrace (s : pystr) : option pystr :=
  match s with
  | [] => None
  | c :: s' =>
      if N.eqb c RBRACE then Some [c]
      else option_map (cons c) (until_rbrace s')
  end.

(** The pattern anchored at the beginning of [s]. [\s*] is greedy and the
    next pattern character is a brace, so only the whole run of whitespace can
    be taken. *)
Definition match_here (s : pystr) : option re_match :=
  match strip_prefix USER_DATA_JSON s with
  | None => None
  | Some r =>
      match dropwhile isspace r with
      | c :: b =>
          if N.eqb c LBRACE then
            match until_rbrace b with
            | Some body =>
                Some {| group0 := USER_DATA_JSON ++ takewhile isspace r ++ c :: body;
                        group1 := c :: body |}
            | None => None
            end
          else None
      | [] => None
      end
  end.

(** [re.search(pattern, s, re.DOTALL)]: the match at the leftmost position
    that has one. *)
Fixpoint search (s : pystr) : option re_match :=
  match match_here s with
  | Some m => Some m
  | None =>
      match s with
      | [] => None
      | _ :: s' => search s'
      end
  end.

End Re.

(** ** [json.loads] *)

Module Json.

Set Warnings "-register-all".

(** A decoded JSON document.  An object is a Python [dict]: an association
    list without repeated keys, in insertion order.  A number with a fraction
    or an exponent (and [NaN], [Infinity]) is kept as the text it was written
    with; its binary value is not modelled. *)
Inductive json :=
| JNull
| JBool (b : bool)
| JInt (z : Z)
| JFloat (lexeme : pystr)
| JStr (s : pystr)
| JArr (items : list json)
| JObj (members : list (pystr * json)).

Definition dict := list (pystr * json).

(** [d.get(k)] *)
Fixpoint dict_get (d : dict) (k : pystr) : option json :=
  match d with
  | [] => None
  | (k', v) :: d' => if PyStr.eqb k' k then Some v else dict_get d' k
  end.

(** [d[k] = v]: an existing key keeps its place, a new one goes last. *)
Fixpoint dict_set (d : dict) (k : pystr) (v : json) : dict :=
  match d with
  | [] => [(k, v)]
  | (k', v') :: d' =>
      if PyStr.eqb k' k then (k', v) :: d' else (k', v') :: dict_set d' k v
  end.

(** [dict(pairs)] *)
Definition dict_of_pairs (pairs : list (pystr * json)) : dict :=
  fold_left (fun d kv => dict_set d (fst kv) (snd kv)) pairs [].

(** *** Lexical analysis *)

Inductive token :=
| TLBrace | TRBrace | TLBracket | TRBracket | TColon | TComma
| TVal (v : json).

(** Where the scan of a number stands: an optional minus sign; a zero, or a
    non-zero digit and more digits; optionally a dot and one or more digits;
    optionally [e] or [E], an optional sign and one or more digits. *)
Inductive numstage :=
| NMinus | NZero | NInt | NDot | NFrac | NE | NESign | NExp.

Inductive lexmode :=
| LIdle
| LStr (acc : pystr) (hi : option N)
| LEsc (acc : pystr) (hi : option N)
| LHex (acc : pystr) (hi : option N) (digits : list N)
| LNum (st : numstage) (lex : pystr)
| LWord (rest : pystr) (v : json).

Definition isdigit (c : N) : bool := between 48 57 c.

Definition hexval (c : N) : option N :=
  if between 48 57 c then Some (c - 48)%N
  else if between 97 102 c then Some (c - 87)%N
  else if between 65 70 c then Some (c - 55)%N
  else None.

(** The value of decimal digits given last digit first. *)
Fixpoint digits_value (rev_digits : pystr) : N :=
  match rev_digits with
  | [] => 0
  | c :: r => ((c - 48) + 10 * digits_value r)%N
  end.

(** [int(lexeme)] for a lexeme [-?digits] given last character first. *)
Definition int_of_lexeme (rev_lex : pystr) : Z :=
  match rev rev_lex with
  | 45%N :: _ => Z.opp (Z.of_N (digits_value (removelast rev_lex)))
  | _ => Z.of_N (digits_value rev_lex)
  end.

(** The token of a number whose scan stopped in stage [st]; a scan that
    stopped in the middle is not a number. *)
Definition number_token (st : numstage) (rev_lex : pystr) : option token :=
  match st with
  | NZero | NInt => Some (TVal (JInt (int_of_lexeme rev_lex)))
  | NFrac | NExp => Some (TVal (JFloat (rev rev_lex)))
  | NMinus | NDot | NE | NESign => None
  end.

Definition is_high_surrogate (u : N) : bool := between 55296 56319 u.
Definition is_low_surrogate (u : N) : bool := between 56320 57343 u.

Definition flush (acc : pystr) (hi : option N) : pystr :=
  match hi with
  | Some h => h :: acc
  | None => acc
  end.

(** The character denoted by a one-letter escape. *)
Definition escape_char (c : N) : option N :=
  match c with
  | 34 => Some 34 | 92 => Some 92 | 47 => Some 47
  | 98 => Some 8 | 102 => Some 12 | 110 => Some 10
  | 114 => Some 13 | 116 => Some 9
  | _ => None
  end%N.

(** A character met between two tokens. *)
Definition lex_idle (c : N) : option (list token * lexmode) :=
  match c with
  | 32 | 9 | 10 | 13 => Some ([], LIdle)
  | 123 => Some ([TLBrace], LIdle)
  | 125 => Some ([TRBrace], LIdle)
  | 91 => Some ([TLBracket], LIdle)
  | 93 => Some ([TRBracket], LIdle)
  | 58 => Some ([TColon], LIdle)
  | 44 => Some ([TComma], LIdle)
  | 34 => Some ([], LStr [] None)
  | 45 => Some ([], LNum NMinus [c])
  | 48 => Some ([], LNum NZero [c])
  | 110 => Some ([], LWord (py "ull") JNull)
  | 116 => Some ([], LWord (py "rue") (JBool true))
  | 102 => Some ([], LWord (py "alse") (JBool false))
  | 78 => Some ([], LWord (py "aN") (JFloat (py "NaN")))
  | 73 => Some ([], LWord (py "nfinity") (JFloat (py "Infinity")))
  | _ => if isdigit c then Some ([], LNum NInt [c]) else None
  end%N.

(** The number being scanned ends before [c]. *)
Definition lex_number_end (st : numstage) (lex : pystr) (c : N)
  : option (list token * lexmode) :=
  match number_token st lex, lex_idle c with
  | Some t, Some (ts, m) => Some (t :: ts, m)
  | _, _ => None
  end.

Definition lex_number (st : numstage) (lex : pystr) (c : N)
  : option (list token * lexmode) :=
  let is_e := N.eqb c 101 || N.eqb c 69 in
  let is_sign := N.eqb c 43 || N.eqb c 45 in
  match st with
  | NMinus =>
      if N.eqb c 48 then Some ([], LNum NZero (c :: lex))
      else if isdigit c then Some ([], LNum NInt (c :: lex))
      else if N.eqb c 73
      then Some ([], LWord (py "nfinity") (JFloat (py "-Infinity")))
      else None
  | NZero =>
      if N.eqb c 46 then Some ([], LNum NDot (c :: lex))
      else if is_e then Some ([], LNum NE (c :: lex))
      else lex_number_end st lex c
  | NInt =>
      if isdigit c then Some ([], LNum NInt (c :: lex))
      else if N.eqb c 46 then Some ([], LNum NDot (c :: lex))
      else if is_e then Some ([], LNum NE (c :: lex))
      else lex_number_end st lex c
  | NDot =>
      if isdigit c then Some ([], LNum NFrac (c :: lex)) else None
  | NFrac =>
      if isdigit c then Some ([], LNum NFrac (c :: lex))
      else if is_e then Some ([], LNum NE (c :: lex))
      else lex_number_end st lex c
  | NE =>
      if is_sign then Some ([], LNum NESign (c :: lex))
      else if isdigit c then Some ([], LNum NExp (c :: lex))
      else None
  | NESign =>
      if isdigit c then Some ([], LNum NExp (c :: lex)) else None
  | NExp =>
      if isdigit c then Some ([], LNum NExp (c :: lex))
      else lex_number_end st lex c
  end.

(** The fourth hex digit of a [\uXXXX] escape has been read: [u] is the
    code unit.  A high surrogate waits in [hi] for a low one that follows as
    an escape; the pair is one character. *)
Definition lex_unicode (acc : pystr) (hi : option N) (u : N) : lexmode :=
  match hi with
  | Some h =>
      if is_low_surrogate u
      then LStr ((65536 + ((h - 55296) * 1024 + (u - 56320)))%N :: acc) None
      else if is_high_surrogate u then LStr (h :: acc) (Some u)
      else LStr (u :: h :: acc) None
  | None =>
      if is_high_surrogate u then LStr acc (Some u) else LStr (u :: acc) None
  end.

(** One character of the text, in mode [m]: the tokens that end here and the
    next mode, or nothing when the text is not JSON. *)
Definition lex_char (m : lexmode) (c : N) : option (list token * lexmode) :=
  match m with
  | LIdle => lex_idle c
  | LStr acc hi =>
      if N.eqb c 34 then Some ([TVal (JStr (rev (flush acc hi)))], LIdle)
      else if N.eqb c 92 then Some ([], LEsc acc hi)
      else if N.ltb c 32 then None
      else Some ([], LStr (c :: flush acc hi) None)
  | LEsc acc hi =>
      if N.eqb c 117 then Some ([], LHex acc hi [])
      else
        match escape_char c with
        | Some e => Some ([], LStr (e :: flush acc hi) None)
        | None => None
        end
  | LHex acc hi ds =>
      match hexval c with
      | None => None
      | Some d =>
          match ds with
          | [d3; d2; d1] =>
              Some ([], lex_unicode acc hi (d + 16 * (d3 + 16 * (d2 + 16 * d1)))%N)
          | _ => Some ([], LHex acc hi (d :: ds))
          end
      end
  | LNum st lex => lex_number st lex c
  | LWord rest v =>
      match rest with
      | [] => None
      | x :: rest' =>
          if N.eqb x c then
            match rest' with
            | [] => Some ([TVal v], LIdle)
            | _ :: _ => Some ([], LWord rest' v)
            end
          else None
      end
  end.

(** The end of the text in mode [m]. *)
Definition lex_end (m : lexmode) : option (list token) :=
  match m with
  | LIdle => Some []
  | LNum st lex => option_map (fun t => [t]) (number_token st lex)
  | _ => None
  end.

(** *** Syntax analysis *)

(** A container that is still open: the elements read so far, last first,
    and for an object the key whose value is awaited. *)
Inductive frame :=
| FArr (items : list json)
| FObj (members : list (pystr * json)) (key : option pystr).

Inductive expect :=
| EValue | EValueOrEnd | EKeyOrEnd | EKey | EColon | ESep
| EDone (v : json).

Definition pstate := (list frame * expect)%type.

(** A complete value goes to the innermost open container, or is the
    document. *)
Definition put (st : list frame) (v : json) : option pstate :=
  match st with
  | [] => Some ([], EDone v)
  | FArr items :: st' => Some (FArr (v :: items) :: st', ESep)
  | FObj ms (Some k) :: st' => Some (FObj ((k, v) :: ms) None :: st', ESep)
  | FObj _ None :: _ => None
  end.

Definition close_array (st : list frame) : option pstate :=
  match st with
  | FArr items :: st' => put st' (JArr (rev items))
  | _ => None
  end.

Definition close_object (st : list frame) : option pstate :=
  match st with
  | FObj ms None :: st' => put st' (JObj (dict_of_pairs (rev ms)))
  | _ => None
  end.

Definition set_key (st : list frame) (k : pystr) : option pstate :=
  match st with
  | FObj ms None :: st' => Some (FObj ms (Some k) :: st', EColon)
  | _ => None
  end.

Definition parse_value (st : list frame) (t : token) : option pstate :=
  match t with
  | TVal v => put st v
  | TLBrace => Some (FObj [] None :: st, EKeyOrEnd)
  | TLBracket => Some (FArr [] :: st, EValueOrEnd)
  | _ => None
  end.

Definition parse_token (ps : pstate) (t : token) : option pstate :=
  let (st, e) := ps in
  match e, t with
  | EValue, _ => parse_value st t
  | EValueOrEnd, TRBracket => close_array st
  | EValueOrEnd, _ => parse_value st t
  | EKeyOrEnd, TRBrace => close_object st
  | EKeyOrEnd, TVal (JStr k) => set_key st k
  | EKey, TVal (JStr k) => set_key st k
  | EColon, TColon => Some (st, EValue)
  | ESep, TComma =>
      match st with
      | FArr _ :: _ => Some (st, EValue)
      | FObj _ _ :: _ => Some (st, EKey)
      | [] => None
      end
  | ESep, TRBracket => close_array st
  | ESep, TRBrace => close_object st
  | _, _ => None
  end.

(** *** Limits of the interpreter *)

(** What the running interpreter allows to [json.loads].  An integer literal
    with more digits than [int_max_str_digits] is refused by [int] with a
    [ValueError]; zero stands for no limit, as in [sys.set_int_max_str_digits].
    Each array or object that is entered takes one level of the interpreter's
    recursion, and a [RecursionError] is raised when none is left;
    [recursion_room] is the number of containers that can still be entered
    inside the outermost one, which is taken to fit always. *)
Record interpreter := {
  int_max_str_digits : N;
  recursion_room : nat
}.

(** The exceptions of [json.loads] on a [str]. *)
Inductive loads_exn := JSONDecodeError | ValueError | RecursionError.

Inductive decoded :=
| Decoded (v : json)
| Fails (e : loads_exn).

(** The number of digits of a number lexeme. *)
Definition int_digits (rev_lex : pystr) : N :=
  N.of_nat (length (filter isdigit rev_lex)).

Definition too_long (it : interpreter) (digits : N) : bool :=
  negb (N.eqb (int_max_str_digits it) 0)
  && N.ltb (int_max_str_digits it) digits.

(** The digits of the number that is being scanned in mode [m]. *)
Definition mode_digits (m : lexmode) : N :=
  match m with
  | LNum _ lex => int_digits lex
  | _ => 0%N
  end.

(** The decoder is at a place where a value may begin. *)
Definition accepts_value (ps : pstate) : bool :=
  match parse_token ps (TVal JNull) with
  | Some _ => true
  | None => false
  end.

(** The scan of a number stopped in stage [st] on a character that cannot
    go on: what was scanned up to there is an integer (not a number with a
    fraction), which the decoder converts before it looks at the rest. *)
Definition is_int_prefix (st : numstage) (rev_lex : pystr) : bool :=
  match st with
  | NZero | NInt | NDot => true
  | NE | NESign => negb (existsb (N.eqb 46) rev_lex)
  | NMinus | NFrac | NExp => false
  end.

(** The exception for a text that the scan cannot go on with in mode [m]:
    the integer scanned so far, if there is one where a value may stand, is
    converted first. *)
Definition lex_failure (it : interpreter) (m : lexmode) (ps : pstate)
  : loads_exn :=
  match m with
  | LNum st lex =>
      if is_int_prefix st lex && accepts_value ps
         && too_long it (int_digits lex)
      then ValueError else JSONDecodeError
  | _ => JSONDecodeError
  end.

(** The tokens that end at one character go to the syntax analysis in
    order.  A token that cannot stand where it is met is a decoding error;
    one that can is then checked against the limits: an integer is converted
    (it is the first token, and [m] is the mode in which its digits were
    scanned), an opening bracket or brace enters a container. *)
Fixpoint feed (it : interpreter) (m : lexmode) (ps : pstate) (ts : list token)
  : pstate + loads_exn :=
  match ts with
  | [] => inl ps
  | t :: ts' =>
      match parse_token ps t with
      | None => inr JSONDecodeError
      | Some ps' =>
          match t with
          | TVal (JInt _) =>
              if too_long it (mode_digits m) then inr ValueError
              else feed it LIdle ps' ts'
          | TLBrace | TLBracket =>
              if Nat.ltb (recursion_room it) (length (fst ps))
              then inr RecursionError
              else feed it LIdle ps' ts'
          | _ => feed it LIdle ps' ts'
          end
      end
  end.

(** The end of the text. *)
Definition finish (it : interpreter) (m : lexmode) (ps : pstate) : decoded :=
  match lex_end m with
  | None => Fails (lex_failure it m ps)
  | Some ts =>
      match feed it m ps ts with
      | inl ([], EDone v) => Decoded v
      | inl _ => Fails JSONDecodeError
      | inr e => Fails e
      end
  end.

(** The text is read once, from left to right; the first failure decides. *)
Fixpoint scan (it : interpreter) (m : lexmode) (ps : pstate) (s : pystr)
  : decoded :=
  match s with
  | [] => finish it m ps
  | c :: s' =>
      match lex_char m c with
      | None => Fails (lex_failure it m ps)
      | Some (ts, m') =>
          match feed it m ps ts with
          | inl ps' => scan it m' ps' s'
          | inr e => Fails e
          end
      end
  end.

(** [json.loads(s)] under the limits of the interpreter. *)
Definition loads (it : interpreter) (s : pystr) : decoded :=
  scan it LIdle ([], EValue) s.

End Json.
Import Json.

(** ** The remote store *)

Module Store.

(** A point in time: what [datetime.datetime.now().isoformat()] denotes. *)
Definition timestamp := Z.

(** A row of [plan_history]. *)
Record plan_row := {
  user_id : Z;
  plan_text : pystr;
  profile_json : dict;
  start_date : timestamp;
  end_date : option timestamp
}.

(** A row of [conversation_history]. *)
Record conversation_row := {
  conv_user_id : Z;
  sender : pystr;
  message_text : pystr
}.

(** The three tables.  A row of [users] is the JSON object the REST
    interface exchanges for it. *)
Record tables := {
  users : list dict;
  plan_history : list plan_row;
  conversation_history : list conversation_row
}.

Definition row_user_id (r : dict) : option Z :=
  match dict_get r (py "user_id") with
  | Some (JInt z) => Some z
  | _ => None
  end.

Definition has_user_id (uid : Z) (r : dict) : bool :=
  match row_user_id r with
  | Some z => Z.eqb z uid
  | None => false
  end.

Definition is_null (d : option timestamp) : bool :=
  match d with
  | None => true
  | Some _ => false
  end.

(** [.eq("user_id", uid).is_("end_date", None)] *)
Definition is_open (uid : Z) (r : plan_row) : bool :=
  Z.eqb (user_id r) uid && is_null (end_date r).

Definition open_rows (uid : Z) (t : tables) : list plan_row :=
  filter (is_open uid) (plan_history t).

(** [table("users").select("*").eq("user_id", uid)] *)
Definition select_user (uid : Z) (t : tables) : list dict :=
  filter (has_user_id uid) (users t).

(** [.order("start_date", desc=True).limit(1)]; of the rows with the
    latest [start_date] the first in the table is taken. *)
Fixpoint latest (rows : list plan_row) : option plan_row :=
  match rows with
  | [] => None
  | r :: rs =>
      match latest rs with
      | Some r' => if Z.ltb (start_date r) (start_date r') then Some r' else Some r
      | None => Some r
      end
  end.

Definition select_open_plan (uid : Z) (t : tables) : list plan_row :=
  match latest (open_rows uid t) with
  | Some r => [r]
  | None => []
  end.

Definition insert_conversation (r : conversation_row) (t : tables) : tables :=
  {| users := users t;
     plan_history := plan_history t;
     conversation_history := conversation_history t ++ [r] |}.

(** The columns of the payload overwrite those of the stored row. *)
Definition merge_row (row payload : dict) : dict :=
  fold_left (fun d kv => dict_set d (fst kv) (snd kv)) payload row.

Fixpoint upsert_rows (uid : Z) (payload : dict) (rows : list dict) : list dict :=
  match rows with
  | [] => [payload]
  | r :: rs =>
      if has_user_id uid r then merge_row r payload :: rs
      else r :: upsert_rows uid payload rs
  end.

(** [table("users").upsert(payload)], on the primary key [user_id]; a
    payload without one is refused. *)
Definition upsert_user (payload : dict) (t : tables) : option tables :=
  match row_user_id payload with
  | Some uid =>
      Some {| users := upsert_rows uid payload (users t);
              plan_history := plan_history t;
              conversation_history := conversation_history t |}
  | None => None
  end.

Definition close_row (uid : Z) (now : timestamp) (r : plan_row) : plan_row :=
  if is_open uid r then
    {| user_id := user_id r; plan_text := plan_text r;
       profile_json := profile_json r; start_date := start_date r;
       end_date := Some now |}
  else r.

(** [table("plan_history").update({"end_date": now}).eq("user_id", uid)
    .is_("end_date", None)] *)
Definition close_plans (uid : Z) (now : timestamp) (t : tables) : tables :=
  {| users := users t;
     plan_history := map (close_row uid now) (plan_history t);
     conversation_history := conversation_history t |}.

(** [table("plan_history").insert(row)] *)
Definition insert_plan (r : plan_row) (t : tables) : tables :=
  {| users := users t;
     plan_history := plan_history t ++ [r];
     conversation_history := conversation_history t |}.

End Store.
Import Store.

(** ** Effects *)

Module Effects.

(** Everything the handlers catch with [except Exception]. *)
Inductive exn :=
| DBError | NetworkError | EngineError
| JsonError (e : loads_exn).

Inductive outcome (A : Type) :=
| Ok (a : A)
| Raise (e : exn).
Arguments Ok {A} a.
Arguments Raise {A} e.

(** The calls made to the three collaborators: the store, the chat platform
    and the model engine. *)
Inductive call :=
| SelectUser (uid : Z)
| SelectOpenPlan (uid : Z)
| InsertConversation (r : conversation_row)
| UpsertUser (payload : dict)
| ClosePlans (uid : Z) (now : timestamp)
| InsertPlan (r : plan_row)
| SendChatAction
| StartChat
| SendMessage (text : pystr)
| ReplyText (text : pystr).

(** The places that write to the log. *)
Inductive log_site :=
| AtLoadProfile | AtLogConversation | AtExtractProfileJson
| AtSavePlan | AtChatHandler.

Inductive log_record :=
| LogError (site : log_site)
| LogInfo (site : log_site).

(** The dialogue a chat session holds: what was sent and what came back. *)
Definition chat := list (pystr * pystr).

(** The model engine: the answer to a message in a dialogue, or a failure. *)
Definition engine := chat -> pystr -> option pystr.

(** The state a turn runs in.  [heap] holds the [dict] objects that are
    passed by reference, at their addresses; [user_data] is the
    ["chat_session"] entry of [context.user_data]; [trace] lists the remote
    calls made, [outbox] the replies delivered and [log] the log records, all
    oldest first.  [db_faults] and [net_faults] say, call after call, whether
    the store (respectively the chat platform or the engine start-up) fails;
    [times] is what the clock will show at each reading; [interp] holds the
    limits of the interpreter the process runs in. *)
Record world := {
  db : tables;
  heap : list dict;
  user_data : option chat;
  trace : list call;
  outbox : list pystr;
  log : list log_record;
  db_faults : list bool;
  net_faults : list bool;
  times : list timestamp;
  interp : interpreter
}.

Definition M (A : Type) := world -> outcome A * world.

Definition ret {A} (a : A) : M A := fun w => (Ok a, w).

Definition raise {A} (e : exn) : M A := fun w => (Raise e, w).

Definition bind {A B} (m : M A) (k : A -> M B) : M B :=
  fun w =>
    match m w with
    | (Ok a, w') => k a w'
    | (Raise e, w') => (Raise e, w')
    end.

(** [try: m except Exception as e: h e] *)
Definition try_except {A} (m : M A) (h : exn -> M A) : M A :=
  fun w =>
    match m w with
    | (Ok a, w') => (Ok a, w')
    | (Raise e, w') => h e w'
    end.

Definition with_db (t : tables) (w : world) : world :=
  {| db := t; heap := heap w; user_data := user_data w; trace := trace w;
     outbox := outbox w; log := log w; db_faults := db_faults w;
     net_faults := net_faults w; times := times w;
     interp := interp w |}.

Definition with_heap (h : list dict) (w : world) : world :=
  {| db := db w; heap := h; user_data := user_data w; trace := trace w;
     outbox := outbox w; log := log w; db_faults := db_faults w;
     net_faults := net_faults w; times := times w;
     interp := interp w |}.

Definition with_user_data (u : option chat) (w : world) : world :=
  {| db := db w; heap := heap w; user_data := u; trace := trace w;
     outbox := outbox w; log := log w; db_faults := db_faults w;
     net_faults := net_faults w; times := times w;
     interp := interp w |}.

Definition with_trace (tr : list call) (w : world) : world :=
  {| db := db w; heap := heap w; user_data := user_data w; trace := tr;
     outbox := outbox w; log := log w; db_faults := db_faults w;
     net_faults := net_faults w; times := times w;
     interp := interp w |}.

Definition with_outbox (o : list pystr) (w : world) : world :=
  {| db := db w; heap := heap w; user_data := user_data w; trace := trace w;
     outbox := o; log := log w; db_faults := db_faults w;
     net_faults := net_faults w; times := times w;
     interp := interp w |}.

Definition with_log (l : list log_record) (w : world) : world :=
  {| db := db w; heap := heap w; user_data := user_data w; trace := trace w;
     outbox := outbox w; log := l; db_faults := db_faults w;
     net_faults := net_faults w; times := times w;
     interp := interp w |}.

Definition with_db_faults (f : list bool) (w : world) : world :=
  {| db := db w; heap := heap w; user_data := user_data w; trace := trace w;
     outbox := outbox w; log := log w; db_faults := f;
     net_faults := net_faults w; times := times w;
     interp := interp w |}.

Definition with_net_faults (f : list bool) (w : world) : world :=
  {| db := db w; heap := heap w; user_data := user_data w; trace := trace w;
     outbox := outbox w; log := log w; db_faults := db_faults w;
     net_faults := f; times := times w;
     interp := interp w |}.

Definition with_times (ts : list timestamp) (w : world) : world :=
  {| db := db w; heap := heap w; user_data := user_data w; trace := trace w;
     outbox := outbox w; log := log w; db_faults := db_faults w;
     net_faults := net_faults w; times := ts;
     interp := interp w |}.

(** The next entry of a fault schedule; a schedule that has run out holds
    no more faults. *)
Definition next_fault (f : list bool) : bool * list bool :=
  match f with
  | [] => (false, [])
  | b :: f' => (b, f')
  end.

(** A request to the store: it is recorded, then it fails if the schedule
    says so or if the store refuses it, and is carried out otherwise. *)
Definition db_call {A} (c : call) (op : tables -> option (A * tables)) : M A :=
  fun w =>
    let w1 := with_trace (trace w ++ [c]) w in
    let (fault, rest) := next_fault (db_faults w) in
    let w2 := with_db_faults rest w1 in
    if fault then (Raise DBError, w2)
    else
      match op (db w) with
      | Some (a, t) => (Ok a, with_db t w2)
      | None => (Raise DBError, w2)
      end.

(** A request to the chat platform or to the engine's start-up. *)
Definition net_call (c : call) : M unit :=
  fun w =>
    let w1 := with_trace (trace w ++ [c]) w in
    let (fault, rest) := next_fault (net_faults w) in
    let w2 := with_net_faults rest w1 in
    if fault then (Raise NetworkError, w2) else (Ok tt, w2).

Definition logger_error (site : log_site) : M unit :=
  fun w => (Ok tt, with_log (log w ++ [LogError site]) w).

Definition logger_info (site : log_site) : M unit :=
  fun w => (Ok tt, with_log (log w ++ [LogInfo site]) w).

(** [datetime.datetime.now()] *)
Definition datetime_now : M timestamp :=
  fun w => (Ok (hd 0%Z (times w)), with_times (tl (times w)) w).

(** A new [dict] object with the given content; its address. *)
Definition alloc (d : dict) : M nat :=
  fun w => (Ok (length (heap w)), with_heap (heap w ++ [d]) w).

(** [obj.copy()] for the [dict] at address [l]: a new object with the same
    content. *)
Definition copy (l : nat) : M nat :=
  fun w => (Ok (length (heap w)), with_heap (heap w ++ [nth l (heap w) []]) w).

(** The content of the [dict] at an address. *)
Definition deref (l : nat) : M dict :=
  fun w => (Ok (nth l (heap w) []), w).

Fixpoint update_nth {A} (n : nat) (x : A) (l : list A) : list A :=
  match l, n with
  | [], _ => []
  | _ :: l', O => x :: l'
  | y :: l', S n' => y :: update_nth n' x l'
  end.

(** [obj[k] = v] on the [dict] at address [l]. *)
Definition setitem (l : nat) (k : pystr) (v : json) : M unit :=
  fun w =>
    (Ok tt, with_heap (update_nth l (dict_set (nth l (heap w) []) k v) (heap w)) w).

Definition get_chat_session : M (option chat) :=
  fun w => (Ok (user_data w), w).

(** The limits in force when a call is made. *)
Definition get_interpreter : M interpreter :=
  fun w => (Ok (interp w), w).

End Effects.
Import Effects.

Declare Scope py_scope.
Delimit Scope py_scope with py_scope.
Notation "x <- m ;; k" := (bind m (fun x => k))
  (at level 61, m at next level, right associativity) : py_scope.
Notation "m ;; k" := (bind m (fun _ => k))
  (at level 61, right associativity) : py_scope.
Local Open Scope py_scope.

(** ** The bot *)

Module HealthCareBot.

(** [self]: whether the Supabase client was created, and the configured
    model if there is one. *)
Record bot := {
  supabase : bool;
  model : option engine
}.

(** What [_load_profile] hands back for a known user. *)
Record loaded := {
  profile : dict;
  last_plan : pystr
}.

Definition is_empty {A} (l : list A) : bool :=
  match l with
  | [] => true
  | _ :: _ => false
  end.

(** *** Requests to the store *)

Definition users_select (uid : Z) : M (list dict) :=
  db_call (SelectUser uid) (fun t => Some (select_user uid t, t)).

Definition plan_history_select_open (uid : Z) : M (list plan_row) :=
  db_call (SelectOpenPlan uid) (fun t => Some (select_open_plan uid t, t)).

Definition conversation_history_insert (r : conversation_row) : M unit :=
  db_call (InsertConversation r) (fun t => Some (tt, insert_conversation r t)).

Definition users_upsert (payload : dict) : M unit :=
  db_call (UpsertUser payload)
    (fun t => option_map (pair tt) (upsert_user payload t)).

Definition plan_history_close (uid : Z) (now : timestamp) : M unit :=
  db_call (ClosePlans uid now) (fun t => Some (tt, close_plans uid now t)).

Definition plan_history_insert (r : plan_row) : M unit :=
  db_call (InsertPlan r) (fun t => Some (tt, insert_plan r t)).

(** *** Helpers for Supabase *)

Definition _load_profile (self : bot) (uid : Z) : M (option loaded) :=
  if negb (supabase self) then ret None
  else
    try_except
      (profile_res <- users_select uid ;;
       match profile_res with
       | [] => ret None
       | row :: _ =>
           plan_res <- plan_history_select_open uid ;;
           let last :=
             match plan_res with
             | r :: _ => plan_text r
             | [] => py "No previous plan found."
             end in
           ret (Some {| profile := row; last_plan := last |})
       end)
      (fun _ => logger_error AtLoadProfile ;; ret None).

Definition _log_conversation (self : bot) (uid : Z) (who message : pystr)
  : M unit :=
  if negb (supabase self) then ret tt
  else
    try_except
      (conversation_history_insert
         {| conv_user_id := uid; sender := who; message_text := message |})
      (fun _ => logger_error AtLogConversation).

(** The value [json.loads] returns for a matched span.  The span begins
    with an opening brace, so a value that is returned is a [dict]. *)
Definition as_dict (v : json) : option dict :=
  match v with
  | JObj d => Some d
  | _ => None
  end.

(** Only [json.JSONDecodeError] is caught; a [ValueError] or a
    [RecursionError] of [json.loads] goes on to the caller. *)
Definition _extract_profile_json (text : pystr) : M (option dict) :=
  match Re.search text with
  | Some m =>
      it <- get_interpreter ;;
      match loads it (Re.group1 m) with
      | Decoded v => ret (as_dict v)
      | Fails JSONDecodeError => logger_error AtExtractProfileJson ;; ret None
      | Fails e => raise (JsonError e)
      end
  | None => ret None
  end.

(** The string operations cannot raise on a [str], so the [except] branch of
    the source is never taken. *)
Definition _extract_plan_text (text : pystr) : pystr :=
  let plan_text := strip (replace text END_OF_PLAN []) in
  let plan_text :=
    match Re.search plan_text with
    | Some json_match => strip (replace plan_text (Re.group0 json_match) [])
    | None => plan_text
    end in
  strip plan_text.

(** [profile] is the address of the caller's [dict]. *)
Definition save_new_plan_and_profile
    (self : bot) (uid : Z) (profile : nat) (plan : pystr) : M unit :=
  p <- deref profile ;;
  if negb (supabase self) || is_empty p then ret tt
  else
    now_iso <- datetime_now ;;
    profile_to_save <- copy profile ;;
    setitem profile_to_save (py "user_id") (JInt uid) ;;
    try_except
      (payload <- deref profile_to_save ;;
       users_upsert payload ;;
       plan_history_close uid now_iso ;;
       snapshot <- deref profile ;;
       plan_history_insert
         {| user_id := uid; plan_text := plan; profile_json := snapshot;
            start_date := now_iso; end_date := None |} ;;
       logger_info AtSavePlan)
      (fun _ => logger_error AtSavePlan).

(** *** The chat platform and the engine *)

Definition send_chat_action : M unit := net_call SendChatAction.

(** [update.message.reply_text(text)]: the text is in the chat once the call
    has returned. *)
Definition reply_text (text : pystr) : M unit :=
  net_call (ReplyText text) ;;
  fun w => (Ok tt, with_outbox (outbox w ++ [text]) w).

(** [self.model.start_chat()] and the assignment to
    [context.user_data["chat_session"]]. *)
Definition start_chat : M unit :=
  fun w => (Ok tt, with_user_data (Some []) (with_trace (trace w ++ [StartChat]) w)).

Definition history (w : world) : chat :=
  match user_data w with
  | Some h => h
  | None => []
  end.

(** [chat_session.send_message_async(text)]; the session stored in
    [context.user_data] is the one that grows. *)
Definition send_message_async (e : engine) (text : pystr) : M pystr :=
  fun w =>
    let w1 := with_trace (trace w ++ [SendMessage text]) w in
    match e (history w) text with
    | Some answer =>
        (Ok answer, with_user_data (Some (history w ++ [(text, answer)])) w1)
    | None => (Raise EngineError, w1)
    end.

(** *** The texts sent along with a message *)

Definition reminder_first_turn : pystr :=
  [LF; LF] ++
  py "REMINDER: If generating a full wellness plan, you MUST follow RULE A: Start with [USER_DATA_JSON] {...} then 10 numbered points, then [END_OF_PLAN].".

Definition reminder : pystr :=
  [LF; LF] ++
  py "REMINDER: If the user is asking for a new or updated wellness PLAN, you MUST follow RULE A and include [USER_DATA_JSON] on the first line and [END_OF_PLAN] as the last token of the message.".

Section InitialPrompt.

(** [json.dumps] and the conversion of a value inside an f-string. *)
Variable json_dumps : dict -> pystr.
Variable format : json -> pystr.

(** The value assigned to [initial_prompt] in either branch of
    [if user_data]. *)
Definition initial_prompt (user_data : option loaded) (user_message : pystr)
  : pystr :=
  match user_data with
  | Some ud =>
      let name :=
        match dict_get (profile ud) (py "name") with
        | Some v => v
        | None => JStr (py "friend")
        end in
      py "SYSTEM_NOTE: Returning user. Profile: " ++ json_dumps (profile ud)
      ++ py ". Last plan: '" ++ last_plan ud
      ++ py "'. Greet them by name (" ++ format name
      ++ py ") and ask what they need. Their first message: '" ++ user_message
      ++ py "'." ++ [LF; LF]
      ++ py "REMINDER: If you generate a new wellness PLAN, you MUST follow RULE A and include [USER_DATA_JSON] on the first line and [END_OF_PLAN] as the last token."
  | None =>
      py "SYSTEM_NOTE: Brand new user. Start the health profile questions. Their first message: '"
      ++ user_message ++ py "'." ++ [LF; LF]
      ++ py "REMINDER: When you later generate a full wellness PLAN, you MUST follow RULE A and include [USER_DATA_JSON] on the first line and [END_OF_PLAN] as the last token."
  end.

End InitialPrompt.

(** *** Main chat handler *)

(** The last statement of the [try] block of [main_chat_handler], from
    [if "[END_OF_PLAN]" in ai_message] on.  The decoded payload is a [dict]
    object when it is handed over to [save_new_plan_and_profile]. *)
Definition deliver (self : bot) (uid : Z) (ai_message : pystr) : M unit :=
  if contains END_OF_PLAN ai_message then
    profile_json <- _extract_profile_json ai_message ;;
    match profile_json with
    | Some ((_ :: _) as d) =>
        let plan_text := _extract_plan_text ai_message in
        obj <- alloc d ;;
        save_new_plan_and_profile self uid obj plan_text ;;
        reply_text (strip plan_text)
    | _ =>
        let clean := strip (replace ai_message END_OF_PLAN []) in
        reply_text clean
    end
  else reply_text ai_message.

(** The [except Exception] branch of [main_chat_handler]. *)
Definition on_error : M unit :=
  logger_error AtChatHandler ;;
  reply_text (py "Sorry, I had a problem. Please try again in a moment.").

(** In the first branch the source also assigns [initial_prompt]; the
    variable is not read afterwards, the call sends [user_message] followed
    by a reminder. *)
Definition main_chat_handler (self : bot) (uid : Z) (user_message : pystr)
  : M unit :=
  match model self with
  | None => reply_text (py "AI brain not configured. Contact admin.")
  | Some e =>
      logger_info AtChatHandler ;;
      _log_conversation self uid (py "user") user_message ;;
      try_except
        (send_chat_action ;;
         chat_session <- get_chat_session ;;
         ai_message <-
           match chat_session with
           | None =>
               start_chat ;;
               _ <- _load_profile self uid ;;
               send_message_async e (user_message ++ reminder_first_turn)
           | Some _ =>
               send_message_async e (user_message ++ reminder)
           end ;;
         _log_conversation self uid (py "ai") ai_message ;;
         deliver self uid ai_message)
        (fun _ => on_error)
  end.

(** *** Reset command *)

Definition reset_chat : M unit :=
  (fun w => (Ok tt, with_user_data None w)) ;;
  reply_text (py "I've cleared our conversation. We can start fresh!").

End HealthCareBot.
Import HealthCareBot.

(** ** Vocabulary of the properties *)

Module Observe.

(** A text with no closing brace. *)
Definition no_rbrace (body : pystr) : bool :=
  forallb (fun c => negb (N.eqb c RBRACE)) body.

(** The shape of a matched span: the marker, blanks, and a brace-delimited
    text with no closing brace inside. *)
Definition span_shape (m : Re.re_match) (ws body : pystr) : Prop :=
  Re.group0 m = USER_DATA_JSON ++ ws ++ LBRACE :: body ++ [RBRACE] /\
  Re.group1 m = LBRACE :: body ++ [RBRACE] /\
  forallb isspace ws = true /\ no_rbrace body = true.

(** No match begins inside [pre]. *)
Definition no_match_inside (pre rest : pystr) : Prop :=
  forall p1 p2, pre = p1 ++ p2 -> p2 <> [] -> Re.match_here (p2 ++ rest) = None.

(** The outermost open container is an object. *)
Fixpoint obj_rooted (st : list frame) : bool :=
  match st with
  | [] => false
  | f :: st' =>
      match st' with
      | [] => match f with FObj _ _ => true | FArr _ => false end
      | _ :: _ => obj_rooted st'
      end
  end.

Definition rooted (ps : pstate) : Prop :=
  obj_rooted (fst ps) = true \/ exists d, ps = ([], EDone (JObj d)).

(** [m] returns [a] in every state, without raising. *)
Definition returns {A} (m : M A) (a : A) : Prop :=
  forall w, fst (m w) = Ok a.

(** What [_extract_profile_json] comes to for a text under given limits:
    the payload it returns, or the exception it lets through. *)
Definition extracted (it : interpreter) (text : pystr) : outcome (option dict) :=
  match Re.search text with
  | None => Ok None
  | Some m =>
      match loads it (Re.group1 m) with
      | Decoded v => Ok (as_dict v)
      | Fails JSONDecodeError => Ok None
      | Fails e => Raise (JsonError e)
      end
  end.

(** The texts forwarded to the model engine. *)
Definition sent_in (tr : list call) : list pystr :=
  flat_map (fun c => match c with SendMessage t => [t] | _ => [] end) tr.

Definition sent (w : world) : list pystr := sent_in (trace w).

(** The calls that write a profile or a plan: profile upsert, plan close,
    plan insert. *)
Definition persistence_call (c : call) : bool :=
  match c with
  | UpsertUser _ | ClosePlans _ _ | InsertPlan _ => true
  | _ => false
  end.

Definition persistence_calls (w : world) : list call :=
  filter persistence_call (trace w).

(** What is stored of profiles and plans, and the calls that wrote it. *)
Definition plan_side (w : world) : list dict * list plan_row * list call :=
  (users (db w), plan_history (db w), persistence_calls w).

(** A step that at most reads the store, appends to the conversation log
    and writes log records. *)
Definition quiet (w w' : world) : Prop :=
  heap w' = heap w /\ user_data w' = user_data w /\ outbox w' = outbox w /\
  net_faults w' = net_faults w /\ times w' = times w /\
  plan_side w' = plan_side w /\ sent w' = sent w.

(** An answer whose delivery is a single reply, after quiet steps only. *)
Definition replies_with (self : bot) (uid : Z) (ai reply : pystr) : Prop :=
  forall w, exists w',
    quiet w w' /\ deliver self uid ai w = reply_text reply w'.

(** The next [n] requests to the chat platform go through. *)
Definition net_up (n : nat) (w : world) : Prop :=
  forallb negb (firstn n (net_faults w)) = true.

(** The reminder that goes with a message in state [w]. *)
Definition reminder_for (w : world) : pystr :=
  match user_data w with
  | None => reminder_first_turn
  | Some _ => reminder
  end.

(** The next [n] requests to the store go through. *)
Definition store_up (n : nat) (w : world) : Prop :=
  forallb negb (firstn n (db_faults w)) = true.

(** At most one plan of the user is open. *)
Definition at_most_one_open (uid : Z) (t : tables) : Prop :=
  length (open_rows uid t) <= 1.

(** A sequence of calls of [save_new_plan_and_profile], each with its user,
    the address of its profile and its plan text. *)
Fixpoint saves (self : bot) (calls : list (Z * nat * pystr)) : M unit :=
  match calls with
  | [] => ret tt
  | (uid, l, plan) :: calls' =>
      save_new_plan_and_profile self uid l plan ;; saves self calls'
  end.

(** The plan row a call of [save_new_plan_and_profile] inserts in state [w]. *)
Definition new_row (uid : Z) (l : nat) (plan : pystr) (w : world) : plan_row :=
  {| user_id := uid; plan_text := plan; profile_json := nth l (heap w) [];
     start_date := hd 0%Z (times w); end_date := None |}.

End Observe.
Import Observe.

(** ** Scenarios *)

Module Scenario.

(** A text between double quotes. *)
Definition quoted (s : pystr) : pystr := DQUOTE :: s ++ [DQUOTE].

Definition no_tables : tables :=
  {| users := []; plan_history := []; conversation_history := [] |}.

(** The limits of a CPython 3.11 as it is installed: integers of up to 4300
    digits, and a recursion limit of 1000 of which the frames of the running
    handler have taken a part. *)
Definition cpython : interpreter :=
  {| int_max_str_digits := 4300; recursion_room := 900 |}.

(** A fresh process in front of the given store: no [dict] allocated, no
    chat session, nothing called, sent or logged yet, and no fault ahead. *)
Definition fresh (t : tables) : world :=
  {| db := t; heap := []; user_data := None; trace := []; outbox := [];
     log := []; db_faults := []; net_faults := []; times := [];
     interp := cpython |}.

(** A bot with its store client and no model. *)
Definition store_only : bot := {| supabase := true; model := None |}.

(** A bot whose model answers every message with [answer]. *)
Definition bot_answering (answer : pystr) : bot :=
  {| supabase := true; model := Some (fun _ _ => Some answer) |}.

(** The profile of the user Alex, as a [dict] and as a stored row. *)
Definition alex : dict := [(py "name", JStr (py "Alex")); (py "age", JInt 30)].
Definition alex_row : dict := alex ++ [(py "user_id", JInt 7)].

(** The store of a known user. *)
Definition alex_stored : tables :=
  {| users := [alex_row]; plan_history := []; conversation_history := [] |}.

(** Answers of the engine: a plain one, a plan with an empty payload, a
    plan whose payload is not JSON, and a plan whose payload holds an object
    inside the object. *)
Definition plain_answer : pystr := py "Drink about two litres a day.".

Definition empty_payload_answer : pystr :=
  USER_DATA_JSON ++ py " {}" ++ [LF] ++ py "1. Sleep well." ++ END_OF_PLAN.

Definition broken_payload_answer : pystr :=
  USER_DATA_JSON ++ py " {oops} Stay hydrated. " ++ END_OF_PLAN.







(** Two profile objects in memory and the clock at 100, then 200. *)
Definition two_profiles : world :=
  with_times [100%Z; 200%Z]
    (with_heap [alex; [(py "name", JStr (py "Alex")); (py "age", JInt 31)]]
       (fresh no_tables)).

End Scenario.
Import Scenario.

(** ** Start-up *)

Module Startup.

(** The four settings read with [os.environ.get]; [None] for a variable
    that is not set. *)
Record environ := {
  TELEGRAM_TOKEN : option pystr;
  GEMINI_API_KEY : option pystr;
  SUPABASE_URL : option pystr;
  SUPABASE_SERVICE_KEY : option pystr
}.

(** [not v] for the value of a setting: unset, or the empty text. *)
Definition unset (v : option pystr) : bool :=
  match v with
  | None => true
  | Some s => is_empty s
  end.

(** What the two client libraries do at start-up: whether [create_client]
    returns a client, and the model that [genai] hands out, if it does. *)
Record libraries := {
  create_client : bool;
  generative_model : option engine
}.

(** The lines written to the log at start-up. *)
Inductive startup_record :=
| StoreSettingsMissing | StoreConnected | StoreConnectionFailed
| ModelConfigured | ModelFailed
| KeysMissing | KeysLoaded | CannotRun | Running.

Definition __init__ (env : environ) (lib : libraries)
  : bot * list startup_record :=
  let store :=
    if unset (SUPABASE_URL env) || unset (SUPABASE_SERVICE_KEY env)
    then (false, [StoreSettingsMissing])
    else if create_client lib then (true, [StoreConnected])
    else (false, [StoreConnectionFailed]) in
  let configured :=
    match generative_model lib with
    | Some e => (Some e, [ModelConfigured])
    | None => (None, [ModelFailed])
    end in
  ({| supabase := fst store; model := fst configured |},
   snd store ++ snd configured).

(** [run]: whether the bot gets as far as polling for updates.  Building
    the application and registering the handlers belong to the chat platform
    library and are not modelled. *)
Definition run (self : bot) : bool * list startup_record :=
  match model self with
  | None => (false, [CannotRun])
  | Some _ => (true, [Running])
  end.

(** The script body under [if __name__ == "__main__"]: the bot that polls,
    if any. *)
Definition main (env : environ) (lib : libraries)
  : option bot * list startup_record :=
  if unset (TELEGRAM_TOKEN env) || unset (GEMINI_API_KEY env)
  then (None, [KeysMissing])
  else
    let created := __init__ env lib in
    let started := run (fst created) in
    (if fst started then Some (fst created) else None,
     KeysLoaded :: snd created ++ snd started).

End Startup.

(** ** More vocabulary *)

Module Further.

(** The requests made to the store. *)
Definition store_call (c : call) : bool :=
  match c with
  | SelectUser _ | SelectOpenPlan _ | InsertConversation _
  | UpsertUser _ | ClosePlans _ _ | InsertPlan _ => true
  | _ => false
  end.

Definition store_calls (w : world) : list call :=
  filter store_call (trace w).

(** The plan rows of one user. *)
Definition rows_of (u : Z) (ph : list plan_row) : list plan_row :=
  filter (fun r => Z.eqb (user_id r) u) ph.

(** Every step of [m] relates the state before it to the state after it by
    [R], whatever the outcome. *)
Definition always (R : world -> world -> Prop) {A} (m : M A) : Prop :=
  forall w, R w (snd (m w)).

(** The conversation log grew, by rows of user [uid] only. *)
Definition log_grew (uid : Z) (w w' : world) : Prop :=
  exists rows,
    conversation_history (db w') = conversation_history (db w) ++ rows /\
    Forall (fun r => conv_user_id r = uid) rows.

(** Nothing was asked of the store and its tables are as they were. *)
Definition store_untouched (w w' : world) : Prop :=
  db w' = db w /\ store_calls w' = store_calls w.

(** The text of the apology. *)
Definition apology : pystr :=
  py "Sorry, I had a problem. Please try again in a moment.".

(** An answer of the engine that carries a plan with the profile of Alex. *)
Definition alex_object : pystr :=
  LBRACE :: (quoted (py "name") ++ py ": " ++ quoted (py "Alex") ++ py ", "
             ++ quoted (py "age") ++ py ": 30") ++ [RBRACE].

Definition alex_plan_answer : pystr :=
  USER_DATA_JSON ++ py " " ++ alex_object ++ [LF] ++ py "1. Sleep well."
  ++ [LF] ++ END_OF_PLAN.

(** The chat session is as it was. *)
Definition session_kept (w w' : world) : Prop := user_data w' = user_data w.

(** The text of the reply to the reset command. *)
Definition cleared : pystr :=
  py "I've cleared our conversation. We can start fresh!".

(** A step does not give user [u] a second open plan. *)
Definition keeps_one_open (u : Z) (w w' : world) : Prop :=
  at_most_one_open u (db w) -> at_most_one_open u (db w').

(** The conversation log is as it was. *)
Definition conversation_kept (w w' : world) : Prop :=
  conversation_history (db w') = conversation_history (db w).

(** The keys of a [dict] are distinct. *)
Definition distinct_keys (d : dict) : Prop := NoDup (map fst d).

(** The outermost open container is an object, or the document is an object
    built by [dict]. *)
Definition rooted_dict (ps : pstate) : Prop :=
  obj_rooted (fst ps) = true \/
  exists ms, ps = ([], EDone (JObj (dict_of_pairs ms))).

(** The profile rows and the plan rows of every user but [uid] are as they
    were. *)
Definition others_kept (uid : Z) (w w' : world) : Prop :=
  forall u, u <> uid ->
    select_user u (db w') = select_user u (db w) /\
    rows_of u (plan_history (db w')) = rows_of u (plan_history (db w)).

(** What a turn of user [uid] may do to the store. *)
Definition turn_of (uid : Z) (w w' : world) : Prop :=
  log_grew uid w w' /\ others_kept uid w w'.

End Further.
Import Further.

(** * Properties *)

Arguments py : simpl never.

(** Projections of a state that is given by its updates. *)
Ltac wsimpl :=
  cbn [db heap user_data trace outbox log db_faults net_faults times interp
       with_db with_heap with_user_data with_trace with_outbox with_log
       with_db_faults with_net_faults with_times fst snd
       users plan_history conversation_history
       close_plans insert_plan insert_conversation] in *.

(** Case analysis on the fault schedule, as far as the run consults it. *)
Ltac split_faults :=
  repeat first
    [ progress (cbn [next_fault option_map]; wsimpl)
    | match goal with
      | |- context [next_fault ?f] => is_var f; destruct f as [|[|] ?]
      end ].

(** ** Strings *)

Section PyStrFacts.

Lemma eqb_eq (a b : pystr) : PyStr.eqb a b = true <-> a = b.
Proof.
  revert b; induction a as [|x a IH]; intros [|y b]; simpl;
    try (split; [discriminate | congruence]); try tauto.
  rewrite andb_true_iff, N.eqb_eq, IH.
  split; [intros [-> ->]; reflexivity | intros H; injection H; auto].
Qed.

Lemma eqb_refl (a : pystr) : PyStr.eqb a a = true.
Proof. apply eqb_eq; reflexivity. Qed.

Lemma strip_prefix_app (p s : pystr) : strip_prefix p (p ++ s) = Some s.
Proof.
  induction p as [|x p IH]; simpl; [reflexivity|].
  rewrite N.eqb_refl; exact IH.
Qed.

Lemma strip_prefix_Some (p s r : pystr) :
  strip_prefix p s = Some r -> s = p ++ r.
Proof.
  revert s; induction p as [|x p IH]; intros s; simpl.
  - intros H; injection H; auto.
  - destruct s as [|c s]; [discriminate|].
    destruct (N.eqb x c) eqn:E; [|discriminate].
    apply N.eqb_eq in E; subst c.
    intros H; rewrite (IH _ H); reflexivity.
Qed.

Lemma startswith_app (p s : pystr) : startswith (p ++ s) p = true.
Proof.
  induction p as [|x p IH]; simpl; [reflexivity|].
  rewrite N.eqb_refl; exact IH.
Qed.

Lemma startswith_true (s p : pystr) :
  startswith s p = true -> exists r, s = p ++ r.
Proof.
  revert s; induction p as [|x p IH]; intros s; simpl.
  - exists s; reflexivity.
  - destruct s as [|c s]; [discriminate|].
    rewrite andb_true_iff, N.eqb_eq; intros [-> H].
    destruct (IH _ H) as [r ->]; exists r; reflexivity.
Qed.

Lemma strip_prefix_None (p s : pystr) :
  startswith s p = false -> strip_prefix p s = None.
Proof.
  intros H; destruct (strip_prefix p s) as [r|] eqn:E; [|reflexivity].
  apply strip_prefix_Some in E; subst s.
  rewrite startswith_app in H; discriminate.
Qed.

(** A prefix agrees with the text position by position. *)
Lemma startswith_nth_error (s p : pystr) (k : nat) :
  startswith s p = true -> k < length p -> nth_error s k = nth_error p k.
Proof.
  intros H Hk; destruct (startswith_true _ _ H) as [r ->].
  apply nth_error_app1; exact Hk.
Qed.

Lemma startswith_app_long (a b p : pystr) :
  length p <= length a -> startswith (a ++ b) p = startswith a p.
Proof.
  revert a; induction p as [|x p IH]; intros a Hl; [reflexivity|].
  destruct a as [|c a]; simpl in Hl; [lia|].
  simpl; rewrite IH by lia; reflexivity.
Qed.

Lemma contains_startswith (sub s : pystr) :
  startswith s sub = true -> contains sub s = true.
Proof. intros H; destruct s; simpl in *; rewrite H; reflexivity. Qed.

Lemma contains_cons (sub : pystr) (c : N) (s : pystr) :
  contains sub s = true -> contains sub (c :: s) = true.
Proof. intros H; simpl; rewrite H; apply orb_true_r. Qed.

Lemma contains_app_r (sub a b : pystr) :
  contains sub b = true -> contains sub (a ++ b) = true.
Proof.
  intros H; induction a as [|c a IH]; [exact H|].
  simpl app; apply contains_cons; exact IH.
Qed.

Lemma contains_app_l (sub a b : pystr) :
  contains sub a = true -> contains sub (a ++ b) = true.
Proof.
  induction a as [|c a IH]; simpl.
  - rewrite orb_false_r; intros H.
    destruct sub; [|destruct sub; discriminate].
    destruct b; reflexivity.
  - rewrite !orb_true_iff; intros [H|H].
    + left; destruct (startswith_true _ _ H) as [r E].
      change (c :: a ++ b) with ((c :: a) ++ b); rewrite E, <- app_assoc.
      apply startswith_app.
    + right; exact (IH H).
Qed.

Lemma contains_false_suffix (sub a b : pystr) :
  contains sub (a ++ b) = false -> startswith b sub = false.
Proof.
  intros H; destruct (startswith b sub) eqn:E; [|reflexivity].
  rewrite (contains_app_r sub a b (contains_startswith sub b E)) in H.
  discriminate.
Qed.

Lemma takewhile_dropwhile (p : N -> bool) (s : pystr) :
  takewhile p s ++ dropwhile p s = s.
Proof.
  induction s as [|c s IH]; simpl; [reflexivity|].
  destruct (p c); simpl; [rewrite IH|]; reflexivity.
Qed.

Lemma takewhile_forallb (p : N -> bool) (s : pystr) :
  forallb p (takewhile p s) = true.
Proof.
  induction s as [|c s IH]; simpl; [reflexivity|].
  destruct (p c) eqn:E; simpl; [rewrite E; exact IH | reflexivity].
Qed.

Lemma dropwhile_app_stop (p : N -> bool) (ws : pystr) (c : N) (s : pystr) :
  forallb p ws = true -> p c = false -> dropwhile p (ws ++ c :: s) = c :: s.
Proof.
  intros Hws Hc; induction ws as [|x ws IH]; simpl in *.
  - rewrite Hc; reflexivity.
  - apply andb_true_iff in Hws; destruct Hws as [Hx Hws].
    rewrite Hx; exact (IH Hws).
Qed.

Lemma takewhile_app_stop (p : N -> bool) (ws : pystr) (c : N) (s : pystr) :
  forallb p ws = true -> p c = false -> takewhile p (ws ++ c :: s) = ws.
Proof.
  intros Hws Hc; induction ws as [|x ws IH]; simpl in *.
  - rewrite Hc; reflexivity.
  - apply andb_true_iff in Hws; destruct Hws as [Hx Hws].
    rewrite Hx, (IH Hws); reflexivity.
Qed.

Lemma dropwhile_head (p : N -> bool) (s : pystr) (c : N) (r : pystr) :
  dropwhile p s = c :: r -> p c = false.
Proof.
  induction s as [|x s IH]; simpl; [discriminate|].
  destruct (p x) eqn:E; [exact IH|].
  intros H; injection H as -> _; exact E.
Qed.

Lemma dropwhile_fix (p : N -> bool) (s : pystr) :
  match s with [] => True | c :: _ => p c = false end -> dropwhile p s = s.
Proof. destruct s as [|c s]; simpl; [reflexivity|]. intros ->; reflexivity. Qed.

Lemma dropwhile_idem (p : N -> bool) (s : pystr) :
  dropwhile p (dropwhile p s) = dropwhile p s.
Proof.
  apply dropwhile_fix.
  destruct (dropwhile p s) as [|c r] eqn:E; [exact I|].
  exact (dropwhile_head _ _ _ _ E).
Qed.

Lemma dropwhile_snoc_stop (p : N -> bool) (l : pystr) (c : N) :
  p c = false -> exists x, dropwhile p (l ++ [c]) = x ++ [c].
Proof.
  intros Hc; induction l as [|y l IH]; simpl.
  - rewrite Hc; exists []; reflexivity.
  - destruct (p y); [exact IH|].
    exists (y :: l); reflexivity.
Qed.

(** Trimming the right end keeps a first character that is not blank. *)
Lemma rstrip_head (c : N) (s : pystr) :
  isspace c = false -> exists r, rstrip (c :: s) = c :: r.
Proof.
  intros Hc; unfold rstrip; simpl rev.
  destruct (dropwhile_snoc_stop isspace (rev s) c Hc) as [x ->].
  rewrite rev_app_distr; simpl; eauto.
Qed.

Lemma rstrip_idem (s : pystr) : rstrip (rstrip s) = rstrip s.
Proof.
  unfold rstrip; rewrite rev_involutive, dropwhile_idem; reflexivity.
Qed.

Lemma lstrip_rstrip_lstrip (s : pystr) :
  lstrip (rstrip (lstrip s)) = rstrip (lstrip s).
Proof.
  unfold lstrip at 1; apply dropwhile_fix.
  destruct (lstrip s) as [|c r] eqn:E.
  - reflexivity.
  - pose proof (dropwhile_head _ _ _ _ E) as Hc.
    destruct (rstrip_head c r Hc) as [r' ->]; exact Hc.
Qed.

(** A trimmed text is not changed by trimming. *)
Lemma strip_idem (s : pystr) : strip (strip s) = strip s.
Proof.
  unfold strip; rewrite lstrip_rstrip_lstrip; apply rstrip_idem.
Qed.

(** [replace_from] with characters left to pass over resumes after them. *)
Lemma replace_from_skip (old new s : pystr) (k : nat) :
  replace_from old new s k = replace_from old new (skipn k s) 0.
Proof.
  revert k; induction s as [|c s IH]; intros [|k]; try reflexivity.
  simpl skipn; rewrite <- IH; reflexivity.
Qed.

Lemma replace_from_hit (old new s : pystr) :
  old <> [] ->
  replace_from old new (old ++ s) 0 = new ++ replace_from old new s 0.
Proof.
  destruct old as [|x o]; [congruence|]; intros _.
  change ((x :: o) ++ s) with (x :: o ++ s).
  cbn [replace_from].
  change (x :: o ++ s) with ((x :: o) ++ s); rewrite startswith_app.
  rewrite replace_from_skip.
  replace (length (x :: o) - 1) with (length o) by (simpl; lia).
  rewrite skipn_app, skipn_all, Nat.sub_diag; reflexivity.
Qed.

Lemma replace_from_miss (old new : pystr) (c : N) (s : pystr) :
  startswith (c :: s) old = false ->
  replace_from old new (c :: s) 0 = c :: replace_from old new s 0.
Proof. intros H; cbn [replace_from]; rewrite H; reflexivity. Qed.

(** No occurrence of [old] begins inside [pre]: the scan copies [pre]. *)
Lemma replace_from_pre (old new pre rest : pystr) :
  (forall p1 p2, pre = p1 ++ p2 -> p2 <> [] ->
                 startswith (p2 ++ rest) old = false) ->
  replace_from old new (pre ++ rest) 0 = pre ++ replace_from old new rest 0.
Proof.
  induction pre as [|c pre IH]; intros H; [reflexivity|].
  simpl app; rewrite replace_from_miss.
  - rewrite IH; [reflexivity|].
    intros p1 p2 E Hp2; apply (H (c :: p1) p2); [rewrite E; reflexivity | exact Hp2].
  - apply (H [] (c :: pre)); [reflexivity | discriminate].
Qed.

(** The string operations on a few texts. *)
Example replace_all_occurrences :
  replace (py "a[END_OF_PLAN]b[END_OF_PLAN]") END_OF_PLAN [] = py "ab".
Proof. reflexivity. Qed.

Example replace_single_pass :
  replace (py "[END_OF_[END_OF_PLAN]PLAN]") END_OF_PLAN [] = END_OF_PLAN.
Proof. reflexivity. Qed.

Example strip_both_ends :
  strip ([LF; 32; 9] ++ py "a b" ++ [32; LF])%N = py "a b".
Proof. reflexivity. Qed.

End PyStrFacts.

(** ** The payload pattern *)

Section ReFacts.

Lemma until_rbrace_app (body rest : pystr) :
  no_rbrace body = true ->
  Re.until_rbrace (body ++ RBRACE :: rest) = Some (body ++ [RBRACE]).
Proof.
  intros H; induction body as [|c body IH]; simpl in *.
  - reflexivity.
  - apply andb_true_iff in H; destruct H as [Hc H].
    apply negb_true_iff in Hc; rewrite Hc, (IH H); reflexivity.
Qed.

Lemma until_rbrace_Some (s b : pystr) :
  Re.until_rbrace s = Some b ->
  exists body rest,
    s = body ++ RBRACE :: rest /\ b = body ++ [RBRACE] /\ no_rbrace body = true.
Proof.
  revert b; induction s as [|c s IH]; intros b; simpl; [discriminate|].
  destruct (N.eqb c RBRACE) eqn:E.
  - apply N.eqb_eq in E; subst c; intros H; injection H as <-.
    exists [], s; repeat split.
  - destruct (Re.until_rbrace s) as [b'|]; [|discriminate].
    simpl; intros H; injection H as <-.
    destruct (IH b' eq_refl) as (body & rest & -> & -> & Hb).
    exists (c :: body), rest; repeat split.
    simpl; rewrite E, Hb; reflexivity.
Qed.

Lemma isspace_lbrace : isspace LBRACE = false.
Proof. reflexivity. Qed.

(** The pattern matches a text that begins with a span of that shape. *)
Lemma match_here_span (ws body post : pystr) :
  forallb isspace ws = true -> no_rbrace body = true ->
  Re.match_here (USER_DATA_JSON ++ ws ++ LBRACE :: body ++ RBRACE :: post) =
  Some {| Re.group0 := USER_DATA_JSON ++ ws ++ LBRACE :: body ++ [RBRACE];
          Re.group1 := LBRACE :: body ++ [RBRACE] |}.
Proof.
  intros Hws Hb; unfold Re.match_here.
  rewrite strip_prefix_app.
  rewrite (dropwhile_app_stop isspace ws LBRACE _ Hws isspace_lbrace).
  rewrite (takewhile_app_stop isspace ws LBRACE _ Hws isspace_lbrace).
  rewrite N.eqb_refl, (until_rbrace_app body post Hb); reflexivity.
Qed.

(** A match at the beginning of a text is a span of that shape, and the
    text begins with it. *)
Lemma match_here_Some (s : pystr) (m : Re.re_match) :
  Re.match_here s = Some m ->
  exists ws body post, s = Re.group0 m ++ post /\ span_shape m ws body.
Proof.
  unfold Re.match_here.
  destruct (strip_prefix USER_DATA_JSON s) as [r|] eqn:Ep; [|discriminate].
  apply strip_prefix_Some in Ep.
  destruct (dropwhile isspace r) as [|c b] eqn:Ed; [discriminate|].
  destruct (N.eqb c LBRACE) eqn:Ec; [|discriminate].
  apply N.eqb_eq in Ec; subst c.
  destruct (Re.until_rbrace b) as [b'|] eqn:Eu; [|discriminate].
  intros H; injection H as <-.
  destruct (until_rbrace_Some b b' Eu) as (body & post & -> & -> & Hb).
  exists (takewhile isspace r), body, post; simpl.
  split; [|repeat split; auto using takewhile_forallb].
  rewrite Ep, <- (takewhile_dropwhile isspace r) at 1.
  rewrite Ed, <- !app_assoc; simpl; rewrite <- app_assoc; reflexivity.
Qed.

(** A text that begins with a matched span has a match at its beginning. *)
Lemma match_here_of_span (m : Re.re_match) (ws body s : pystr) :
  span_shape m ws body -> startswith s (Re.group0 m) = true ->
  Re.match_here s <> None.
Proof.
  intros (E0 & _ & Hws & Hb) H.
  destruct (startswith_true _ _ H) as [r ->].
  replace (Re.group0 m ++ r)
    with (USER_DATA_JSON ++ ws ++ LBRACE :: body ++ RBRACE :: r).
  - rewrite (match_here_span ws body r Hws Hb); discriminate.
  - rewrite E0, <- !app_assoc; simpl; rewrite <- app_assoc; reflexivity.
Qed.

Lemma search_skip (pre rest : pystr) :
  no_match_inside pre rest -> Re.search (pre ++ rest) = Re.search rest.
Proof.
  induction pre as [|c pre IH]; intros H; [reflexivity|].
  simpl app; cbn [Re.search].
  change (c :: pre ++ rest) with ((c :: pre) ++ rest).
  rewrite (H [] (c :: pre) eq_refl) by discriminate.
  apply IH; intros p1 p2 E Hp2.
  apply (H (c :: p1) p2); [rewrite E; reflexivity | exact Hp2].
Qed.

Lemma search_here (s : pystr) (m : Re.re_match) :
  Re.match_here s = Some m -> Re.search s = Some m.
Proof. intros H; destruct s; cbn [Re.search]; rewrite H; reflexivity. Qed.

(** The match found by [search] is the leftmost one. *)
Lemma search_Some (s : pystr) (m : Re.re_match) :
  Re.search s = Some m ->
  exists pre post,
    s = pre ++ post /\ Re.match_here post = Some m /\ no_match_inside pre post.
Proof.
  induction s as [|c s IH]; cbn [Re.search].
  - destruct (Re.match_here []) eqn:E; [|discriminate].
    intros H; injection H as ->.
    exists [], []; repeat split; auto.
    intros p1 p2 Hp Hp2; destruct p1, p2; try discriminate; congruence.
  - destruct (Re.match_here (c :: s)) eqn:E.
    + intros H; injection H as ->.
      exists [], (c :: s); repeat split; auto.
      intros p1 p2 Hp Hp2; destruct p1, p2; try discriminate; congruence.
    + intros H; destruct (IH H) as (pre & post & -> & Hm & Hn).
      exists (c :: pre), post; repeat split; auto.
      intros p1 p2 Hp Hp2; destruct p1 as [|x p1]; simpl in Hp.
      * subst p2; exact E.
      * injection Hp as _ ->; exact (Hn p1 p2 eq_refl Hp2).
Qed.


(** The opening bracket of the payload marker occurs at its beginning only,
    so an occurrence of the marker cannot run into another one. *)
Lemma marker_bracket :
  forallb (fun c => negb (N.eqb c 91)) (tl USER_DATA_JSON) = true.
Proof. reflexivity. Qed.

Lemma marker_no_overlap (p2 rest : pystr) :
  p2 <> [] -> length p2 < length USER_DATA_JSON ->
  startswith (p2 ++ USER_DATA_JSON ++ rest) USER_DATA_JSON = false.
Proof.
  intros Hne Hlen.
  destruct (startswith _ _) eqn:E; [exfalso|reflexivity].
  pose proof (startswith_nth_error _ _ (length p2) E Hlen) as Hn.
  rewrite nth_error_app2, Nat.sub_diag in Hn by lia.
  destruct p2 as [|c p2]; [congruence|].
  change (nth_error (USER_DATA_JSON ++ rest) 0) with (Some 91%N) in Hn.
  change (nth_error USER_DATA_JSON (length (c :: p2)))
    with (nth_error (tl USER_DATA_JSON) (length p2)) in Hn.
  symmetry in Hn; apply nth_error_In in Hn.
  pose proof marker_bracket as Hb; rewrite forallb_forall in Hb.
  specialize (Hb _ Hn); rewrite N.eqb_refl in Hb; discriminate.
Qed.

(** Before the first occurrence of the payload marker there is no match. *)
Lemma no_match_before_marker (pre rest : pystr) :
  contains USER_DATA_JSON pre = false ->
  no_match_inside pre (USER_DATA_JSON ++ rest).
Proof.
  intros Hc p1 p2 -> Hne.
  unfold Re.match_here; rewrite strip_prefix_None; [reflexivity|].
  destruct (Nat.lt_ge_cases (length p2) (length USER_DATA_JSON)) as [Hl|Hl].
  - apply marker_no_overlap; assumption.
  - rewrite startswith_app_long by exact Hl.
    exact (contains_false_suffix _ p1 p2 Hc).
Qed.

(** The search finds the span that follows the first payload marker. *)
Lemma search_first_marker (pre ws body post : pystr) :
  contains USER_DATA_JSON pre = false ->
  forallb isspace ws = true -> no_rbrace body = true ->
  Re.search (pre ++ USER_DATA_JSON ++ ws ++ LBRACE :: body ++ RBRACE :: post) =
  Some {| Re.group0 := USER_DATA_JSON ++ ws ++ LBRACE :: body ++ [RBRACE];
          Re.group1 := LBRACE :: body ++ [RBRACE] |}.
Proof.
  intros Hc Hws Hb.
  rewrite search_skip by (apply no_match_before_marker; exact Hc).
  apply search_here, match_here_span; assumption.
Qed.

(** The search on a few texts. *)
Example search_lazy_span :
  Re.search (py "x [USER_DATA_JSON]  {a {b} c} [END_OF_PLAN]") =
  Some {| Re.group0 := py "[USER_DATA_JSON]  {a {b}";
          Re.group1 := py "{a {b}" |}.
Proof. reflexivity. Qed.

Example search_second_marker :
  Re.search (py "[USER_DATA_JSON] none [USER_DATA_JSON]{}") =
  Some {| Re.group0 := py "[USER_DATA_JSON]{}"; Re.group1 := py "{}" |}.
Proof. reflexivity. Qed.

Example search_unclosed : Re.search (py "[USER_DATA_JSON] {a") = None.
Proof. reflexivity. Qed.

End ReFacts.

(** ** Decoding *)

Section JsonFacts.

Lemma put_rooted (st : list frame) (v : json) (ps : pstate) :
  obj_rooted st = true -> put st v = Some ps -> rooted ps.
Proof.
  destruct st as [|[items|ms [k|]] st']; simpl; try discriminate;
    intros H E; injection E as <-; left; simpl; exact H.
Qed.

Lemma close_array_rooted (st : list frame) (ps : pstate) :
  obj_rooted st = true -> close_array st = Some ps -> rooted ps.
Proof.
  destruct st as [|[items|ms k] st']; simpl; try discriminate.
  destruct st' as [|f st']; [discriminate|].
  intros H; apply put_rooted; exact H.
Qed.

Lemma close_object_rooted (st : list frame) (ps : pstate) :
  obj_rooted st = true -> close_object st = Some ps -> rooted ps.
Proof.
  destruct st as [|[items|ms [k|]] st']; simpl; try discriminate.
  destruct st' as [|f st'].
  - intros _ E; injection E as <-; right; eauto.
  - intros H; apply put_rooted; exact H.
Qed.

Lemma set_key_rooted (st : list frame) (k : pystr) (ps : pstate) :
  obj_rooted st = true -> set_key st k = Some ps -> rooted ps.
Proof.
  destruct st as [|[items|ms [k'|]] st']; simpl; try discriminate.
  intros H E; injection E as <-; left; exact H.
Qed.

Lemma parse_value_rooted (st : list frame) (t : token) (ps : pstate) :
  obj_rooted st = true -> parse_value st t = Some ps -> rooted ps.
Proof.
  intros H; destruct t; simpl; try discriminate.
  - intros E; injection E as <-; left; destruct st; [discriminate | exact H].
  - intros E; injection E as <-; left; destruct st; [discriminate | exact H].
  - apply put_rooted; exact H.
Qed.

Lemma parse_token_rooted (ps : pstate) (t : token) (ps' : pstate) :
  rooted ps -> parse_token ps t = Some ps' -> rooted ps'.
Proof.
  intros [H | [d ->]].
  - destruct ps as [st e]; simpl in H.
    destruct e; simpl; destruct t as [| | | | | |tv]; try discriminate;
      eauto using parse_value_rooted, close_array_rooted,
        close_object_rooted, set_key_rooted.
    + destruct tv; try discriminate; eauto using set_key_rooted.
    + destruct tv; try discriminate; eauto using set_key_rooted.
    + intros E; injection E as <-; left; exact H.
    + destruct st as [|[|] ?]; try discriminate;
        intros E; injection E as <-; left; exact H.
  - destruct t as [| | | | | |v]; simpl; try discriminate.
Qed.

Lemma feed_rooted (it : interpreter) (ts : list token) (n : lexmode)
    (ps ps' : pstate) :
  rooted ps -> feed it n ps ts = inl ps' -> rooted ps'.
Proof.
  revert n ps; induction ts as [|t ts IH]; intros n ps Hr; cbn [feed].
  - intros E; injection E as <-; exact Hr.
  - destruct (parse_token ps t) as [q|] eqn:E; [|discriminate].
    pose proof (parse_token_rooted ps t q Hr E) as Hq.
    destruct t as [| | | | | |[]];
      repeat match goal with
             | |- context [if ?b then _ else _] => destruct b
             end;
      try discriminate; apply IH; exact Hq.
Qed.

Lemma scan_rooted (it : interpreter) (s : pystr) (m : lexmode) (ps : pstate)
    (v : json) :
  rooted ps -> scan it m ps s = Decoded v -> exists d, v = JObj d.
Proof.
  revert m ps; induction s as [|c s IH]; intros m ps Hr; cbn [scan].
  - unfold finish.
    destruct (lex_end m) as [ts|]; [|discriminate].
    destruct (feed it m ps ts) as [q|e] eqn:E; [|discriminate].
    pose proof (feed_rooted it ts _ ps q Hr E) as Hq.
    destruct q as [[|f st] e]; try discriminate.
    destruct e; try discriminate.
    intros H; injection H as <-.
    destruct Hq as [H | [d H]]; [discriminate H|].
    injection H as ->; eauto.
  - destruct (lex_char m c) as [[ts m']|]; [|discriminate].
    destruct (feed it m ps ts) as [q|e] eqn:E; [|discriminate].
    apply IH; exact (feed_rooted it ts _ ps q Hr E).
Qed.

(** The scan of a text that begins with an opening brace: the outermost
    object always fits. *)
Lemma loads_brace (it : interpreter) (s : pystr) :
  loads it (LBRACE :: s) = scan it LIdle ([FObj [] None], EKeyOrEnd) s.
Proof. reflexivity. Qed.

(** A text that begins with an opening brace decodes to an object, if it
    decodes at all: nothing is lost when [as_dict] keeps objects only. *)
Lemma loads_brace_object (it : interpreter) (s : pystr) (v : json) :
  loads it (LBRACE :: s) = Decoded v -> exists d, v = JObj d.
Proof. rewrite loads_brace; apply scan_rooted; left; reflexivity. Qed.

(** The decoder on a few texts. *)
Example loads_flat_object (it : interpreter) :
  too_long it 2 = false ->
  loads it (py "{" ++ quoted (py "name") ++ py ": " ++ quoted (py "Alex")
            ++ py ", " ++ quoted (py "age") ++ py ": 30}") = Decoded (JObj alex).
Proof. intros H; vm_compute; vm_compute in H; rewrite H; reflexivity. Qed.

Example loads_values :
  loads cpython (py "[1, -20, 2.5e3, true, false, null, [], {}]") =
  Decoded (JArr [JInt 1; JInt (-20); JFloat (py "2.5e3"); JBool true;
                 JBool false; JNull; JArr []; JObj []]).
Proof. reflexivity. Qed.

Example loads_escapes :
  loads cpython (quoted (py "a\nA\ud83d\ude00")) =
  Decoded (JStr [97; 10; 65; 128512]%N).
Proof. reflexivity. Qed.

Example loads_repeated_key :
  loads cpython (py "{" ++ quoted (py "a") ++ py ": 1, " ++ quoted (py "b")
                 ++ py ": 2, " ++ quoted (py "a") ++ py ": 3}") =
  Decoded (JObj [(py "a", JInt 3); (py "b", JInt 2)]).
Proof. reflexivity. Qed.

Example loads_rejects :
  loads cpython (py "{" ++ quoted (py "a") ++ py ": 1,}")
    = Fails JSONDecodeError /\
  loads cpython
    (py "{" ++ quoted (py "a") ++ py ": {" ++ quoted (py "b") ++ py ": 1}")
    = Fails JSONDecodeError /\
  loads cpython (py "01") = Fails JSONDecodeError /\
  loads cpython (py "1.") = Fails JSONDecodeError /\
  loads cpython (py "{} x") = Fails JSONDecodeError /\
  loads cpython (py "{oops}") = Fails JSONDecodeError /\
  loads cpython (py "") = Fails JSONDecodeError.
Proof. repeat split. Qed.

(** An integer of five digits where four are allowed, and four containers
    where three fit; the first failure in the text decides. *)
Example loads_limits :
  let it := {| int_max_str_digits := 4; recursion_room := 2 |} in
  loads it (py "[1234, -1234, 12345.5]")
    = Decoded (JArr [JInt 1234; JInt (-1234); JFloat (py "12345.5")]) /\
  loads it (py "[12345]") = Fails ValueError /\
  loads it (py "[12345 oops") = Fails ValueError /\
  loads it (py "[12345.x]") = Fails ValueError /\
  loads it (py "[1 12345]") = Fails JSONDecodeError /\
  loads it (py "[oops, 12345]") = Fails JSONDecodeError /\
  loads it (py "[[[]]]") = Decoded (JArr [JArr [JArr []]]) /\
  loads it (py "[[[[]]]]") = Fails RecursionError /\
  loads it (py "[[[[ oops") = Fails RecursionError /\
  loads it (py "[1 [[[[]]]]]") = Fails JSONDecodeError.
Proof. repeat split. Qed.

End JsonFacts.

(** ** Running the effects *)

Section EffectFacts.

Lemma bind_ok {A B} (m : M A) (k : A -> M B) (w w' : world) (a : A) :
  m w = (Ok a, w') -> bind m k w = k a w'.
Proof. unfold bind; intros ->; reflexivity. Qed.

Lemma bind_raise {A B} (m : M A) (k : A -> M B) (w w' : world) (e : exn) :
  m w = (Raise e, w') -> bind m k w = (Raise e, w').
Proof. unfold bind; intros ->; reflexivity. Qed.

Lemma try_ok {A} (m : M A) (h : exn -> M A) (w w' : world) (a : A) :
  m w = (Ok a, w') -> try_except m h w = (Ok a, w').
Proof. unfold try_except; intros ->; reflexivity. Qed.

Lemma try_raise {A} (m : M A) (h : exn -> M A) (w w' : world) (e : exn) :
  m w = (Raise e, w') -> try_except m h w = h e w'.
Proof. unfold try_except; intros ->; reflexivity. Qed.

Lemma update_nth_last {A} (h : list A) (x y : A) :
  update_nth (length h) x (h ++ [y]) = h ++ [x].
Proof. induction h as [|z h IH]; simpl; [|rewrite IH]; reflexivity. Qed.

Lemma nth_nonempty_lt (h : list dict) (l : nat) :
  nth l h [] <> [] -> l < length h.
Proof.
  intros H; destruct (Nat.lt_ge_cases l (length h)) as [Hl|Hl]; [exact Hl|].
  rewrite nth_overflow in H by exact Hl; congruence.
Qed.

Lemma dict_get_set (d : dict) (k : pystr) (v : json) :
  dict_get (dict_set d k v) k = Some v.
Proof.
  induction d as [|[k' v'] d IH]; simpl.
  - rewrite eqb_refl; reflexivity.
  - destruct (PyStr.eqb k' k) eqn:E; simpl; rewrite E; [reflexivity | exact IH].
Qed.

Lemma is_empty_false {A} (l : list A) : is_empty l = false <-> l <> [].
Proof. destruct l; simpl; split; congruence. Qed.

End EffectFacts.

(** ** Saving a plan *)

Section SaveFacts.

(** Unfolds a save that runs, on a state given by its fields. *)
Ltac run_save Hs Hp :=
  unfold save_new_plan_and_profile, bind at 1, deref at 1;
  cbv beta iota;
  apply is_empty_false in Hp; rewrite Hs, Hp; cbn [negb orb];
  unfold bind, datetime_now, copy, setitem, try_except, deref, users_upsert,
    plan_history_close, plan_history_insert, db_call, logger_info,
    logger_error, upsert_user;
  match goal with
  | w : world |- _ => destruct w as [t h ud tr ob lg dbf nf ts]
  end;
  wsimpl;
  rewrite update_nth_last, !nth_middle;
  unfold row_user_id; rewrite dict_get_set.

Lemma row_user_id_set (p : dict) (uid : Z) :
  row_user_id (dict_set p (py "user_id") (JInt uid)) = Some uid.
Proof. unfold row_user_id; rewrite dict_get_set; reflexivity. Qed.

(** Without a client, or for an empty profile, nothing happens. *)
Lemma save_skip (self : bot) (uid : Z) (l : nat) (plan : pystr) (w : world) :
  negb (supabase self) || is_empty (nth l (heap w) []) = true ->
  save_new_plan_and_profile self uid l plan w = (Ok tt, w).
Proof.
  intros H; unfold save_new_plan_and_profile, bind at 1, deref at 1.
  cbv beta iota; rewrite H; reflexivity.
Qed.

(** The three requests of a save that runs, and how far they got. *)
Lemma save_run (self : bot) (uid : Z) (l : nat) (plan : pystr) (w : world) :
  supabase self = true -> nth l (heap w) [] <> [] ->
  let p := nth l (heap w) [] in
  let payload := dict_set p (py "user_id") (JInt uid) in
  let now := hd 0%Z (times w) in
  let row := {| user_id := uid; plan_text := plan; profile_json := p;
                start_date := now; end_date := None |} in
  let w' := snd (save_new_plan_and_profile self uid l plan w) in
  fst (save_new_plan_and_profile self uid l plan w) = Ok tt /\
  heap w' = heap w ++ [payload] /\
  (user_data w' = user_data w /\ outbox w' = outbox w /\
   net_faults w' = net_faults w) /\
  ((plan_history (db w') = plan_history (db w) /\
    (trace w' = trace w ++ [UpsertUser payload] \/
     trace w' = trace w ++ [UpsertUser payload; ClosePlans uid now]) /\
    log w' = log w ++ [LogError AtSavePlan])
   \/
   (plan_history (db w') = map (close_row uid now) (plan_history (db w)) /\
    trace w' = trace w ++ [UpsertUser payload; ClosePlans uid now; InsertPlan row] /\
    log w' = log w ++ [LogError AtSavePlan])
   \/
   (plan_history (db w') = map (close_row uid now) (plan_history (db w)) ++ [row] /\
    trace w' = trace w ++ [UpsertUser payload; ClosePlans uid now; InsertPlan row] /\
    log w' = log w ++ [LogInfo AtSavePlan])).
Proof.
  intros Hs Hp; cbv zeta.
  pose proof (nth_nonempty_lt _ _ Hp) as Hl.
  remember (save_new_plan_and_profile self uid l plan w) as r eqn:E.
  revert E; run_save Hs Hp.
  split_faults; intros ->; wsimpl; rewrite ?app_nth1 by exact Hl;
    rewrite <- ?app_assoc; cbn [app]; repeat split; auto 6.
Qed.

(** When the store answers the three requests, they all take effect. *)
Lemma save_complete (self : bot) (uid : Z) (l : nat) (plan : pystr) (w : world) :
  supabase self = true -> nth l (heap w) [] <> [] -> store_up 3 w ->
  let p := nth l (heap w) [] in
  let now := hd 0%Z (times w) in
  let row := {| user_id := uid; plan_text := plan; profile_json := p;
                start_date := now; end_date := None |} in
  let w' := snd (save_new_plan_and_profile self uid l plan w) in
  plan_history (db w') = map (close_row uid now) (plan_history (db w)) ++ [row] /\
  users (db w') =
    upsert_rows uid (dict_set p (py "user_id") (JInt uid)) (users (db w)) /\
  db_faults w' = skipn 3 (db_faults w).
Proof.
  intros Hs Hp Hup; cbv zeta.
  pose proof (nth_nonempty_lt _ _ Hp) as Hl.
  remember (save_new_plan_and_profile self uid l plan w) as r eqn:E.
  unfold store_up in Hup.
  revert E; run_save Hs Hp.
  split_faults; try discriminate Hup; intros ->; wsimpl;
    rewrite ?app_nth1 by exact Hl; repeat split; auto.
Qed.

End SaveFacts.

(** ** One open plan for a user *)

Section OpenPlan.

Lemma is_open_close_row (u uid : Z) (now : timestamp) (r : plan_row) :
  is_open u (close_row uid now r) = is_open u r && negb (Z.eqb u uid).
Proof.
  unfold close_row; destruct (is_open uid r) eqn:E.
  - unfold is_open in *; simpl.
    apply andb_true_iff in E; destruct E as [E1 E2].
    apply Z.eqb_eq in E1; rewrite E1, E2, andb_false_r.
    destruct (Z.eqb uid u) eqn:Eu; simpl.
    + apply Z.eqb_eq in Eu; subst u; rewrite Z.eqb_refl; reflexivity.
    + reflexivity.
  - destruct (Z.eqb u uid) eqn:Eu; simpl.
    + apply Z.eqb_eq in Eu; subst u; rewrite E; reflexivity.
    + rewrite andb_true_r; reflexivity.
Qed.

Lemma filter_open_closed (u uid : Z) (now : timestamp) (ph : list plan_row) :
  filter (is_open u) (map (close_row uid now) ph) =
  if Z.eqb u uid then [] else filter (is_open u) ph.
Proof.
  induction ph as [|r ph IH]; simpl.
  - destruct (Z.eqb u uid); reflexivity.
  - rewrite is_open_close_row, IH.
    destruct (Z.eqb u uid) eqn:Eu; simpl.
    + rewrite andb_false_r; reflexivity.
    + rewrite andb_true_r.
      destruct (is_open u r) eqn:Eo; [|reflexivity].
      unfold close_row; destruct (is_open uid r) eqn:Eo'; [|reflexivity].
      unfold is_open in Eo, Eo'.
      apply andb_true_iff in Eo, Eo'.
      destruct Eo as [Eo _], Eo' as [Eo' _].
      apply Z.eqb_eq in Eo, Eo'; rewrite <- Eo, <- Eo', Z.eqb_refl in Eu.
      discriminate.
Qed.

Lemma closed_rows (uid : Z) (now : timestamp) (ph : list plan_row) :
  Forall (fun r => user_id r = uid -> end_date r <> None)
         (map (close_row uid now) ph).
Proof.
  apply Forall_forall; intros r' Hin.
  apply in_map_iff in Hin; destruct Hin as (r & <- & _).
  unfold close_row; destruct (is_open uid r) eqn:E; simpl.
  - discriminate.
  - intros Hu; unfold is_open in E; rewrite Hu, Z.eqb_refl in E.
    destruct (end_date r); [discriminate | discriminate E].
Qed.

Lemma is_open_new_row (u uid : Z) (l : nat) (plan : pystr) (w : world) :
  is_open u (new_row uid l plan w) = Z.eqb uid u.
Proof. unfold is_open; simpl; apply andb_true_r. Qed.

(** One call keeps the number of open plans of any user at one or less. *)
Lemma save_at_most_one_open
    (self : bot) (uid : Z) (l : nat) (plan : pystr) (w : world) (u : Z) :
  at_most_one_open u (db w) ->
  at_most_one_open u (db (snd (save_new_plan_and_profile self uid l plan w))).
Proof.
  intros H.
  destruct (negb (supabase self) || is_empty (nth l (heap w) [])) eqn:E.
  - rewrite save_skip by exact E; exact H.
  - apply orb_false_iff in E; destruct E as [Es Ep].
    apply negb_false_iff in Es; apply is_empty_false in Ep.
    destruct (save_run self uid l plan w Es Ep)
      as (_ & _ & _ & [(Hph & _) | [(Hph & _) | (Hph & _)]]);
      unfold at_most_one_open, open_rows in *; rewrite Hph.
    + exact H.
    + rewrite filter_open_closed; destruct (Z.eqb u uid); simpl; lia.
    + rewrite filter_app, filter_open_closed; simpl.
      fold (new_row uid l plan w); rewrite is_open_new_row.
      destruct (Z.eqb u uid) eqn:Eu.
      * apply Z.eqb_eq in Eu; subst u; rewrite Z.eqb_refl; simpl; lia.
      * rewrite Z.eqb_sym, Eu, app_nil_r; exact H.
Qed.

(** A call that completes leaves its own row as the open one and every
    earlier row of the user closed. *)
Lemma save_exactly_one_open
    (self : bot) (uid : Z) (l : nat) (plan : pystr) (w : world) :
  supabase self = true -> nth l (heap w) [] <> [] -> store_up 3 w ->
  let w' := snd (save_new_plan_and_profile self uid l plan w) in
  exists prior,
    plan_history (db w') = prior ++ [new_row uid l plan w] /\
    length prior = length (plan_history (db w)) /\
    Forall (fun r => user_id r = uid -> end_date r <> None) prior /\
    open_rows uid (db w') = [new_row uid l plan w].
Proof.
  intros Hs Hp Hup w'.
  destruct (save_complete self uid l plan w Hs Hp Hup) as (Hph & _ & _).
  fold (new_row uid l plan w) in Hph; fold w' in Hph.
  exists (map (close_row uid (hd 0%Z (times w))) (plan_history (db w))).
  repeat split.
  - exact Hph.
  - apply length_map.
  - apply closed_rows.
  - unfold open_rows; rewrite Hph, filter_app, filter_open_closed.
    simpl; rewrite is_open_new_row, !Z.eqb_refl; reflexivity.
Qed.

End OpenPlan.

(** ** Claims about [save_new_plan_and_profile] *)

Section SaveClaims.

Lemma save_ok (self : bot) (uid : Z) (l : nat) (plan : pystr) (w : world) :
  fst (save_new_plan_and_profile self uid l plan w) = Ok tt.
Proof.
  destruct (negb (supabase self) || is_empty (nth l (heap w) [])) eqn:E.
  - rewrite save_skip by exact E; reflexivity.
  - apply orb_false_iff in E; destruct E as [Es Ep].
    apply negb_false_iff in Es; apply is_empty_false in Ep.
    exact (proj1 (save_run self uid l plan w Es Ep)).
Qed.

Lemma run_pair {A} (m : M A) (w : world) (a : A) :
  fst (m w) = Ok a -> m w = (Ok a, snd (m w)).
Proof. destruct (m w); simpl; intros ->; reflexivity. Qed.

Lemma saves_at_most_one_open
    (self : bot) (calls : list (Z * nat * pystr)) (w : world) (u : Z) :
  at_most_one_open u (db w) ->
  at_most_one_open u (db (snd (saves self calls w))).
Proof.
  revert w; induction calls as [|[[uid l] plan] calls IH]; intros w H.
  - exact H.
  - cbn [saves].
    rewrite (bind_ok _ _ w _ tt (run_pair _ w tt (save_ok self uid l plan w))).
    apply IH, save_at_most_one_open; exact H.
Qed.

(** C3, as stated, fails.  Two calls in succession for a stored user, each
    with an empty profile, are both skipped by the guard of the operation:
    no row is inserted and the user has no open plan afterwards, not exactly
    one. *)
Lemma skipped_saves_open_no_plan :
  nth 0 (heap (with_heap [[]] (fresh alex_stored))) [] = [] /\
  open_rows 7%Z
    (db (snd (saves store_only [(7%Z, 0, py "Walk."); (7%Z, 0, py "Rest.")]
                (with_heap [[]] (fresh alex_stored))))) = [] /\
  plan_history
    (db (snd (saves store_only [(7%Z, 0, py "Walk."); (7%Z, 0, py "Rest.")]
                (with_heap [[]] (fresh alex_stored))))) = [].
Proof. repeat split. Qed.

(** C3, amended.  After any sequence of calls of
    [save_new_plan_and_profile], made from a state where a user has at most
    one plan row with a null [end_date], that user still has at most one such
    row, whatever was skipped or failed.  When the operation is called twice
    in succession for a user and the second call is carried out (there is a
    store client, the profile is not empty and the store takes the three
    requests), exactly one row of the user is open afterwards: the row
    inserted by the second call, the last of the table; every row before it
    that belongs to the user has an [end_date].  A call without a store
    client or with an empty profile changes nothing. *)
Theorem one_open_plan_per_user
    (self : bot) (calls : list (Z * nat * pystr)) (w : world) (u : Z)
    (uid : Z) (l1 l2 : nat) (plan1 plan2 : pystr) (w0 : world) :
  let w1 := snd (save_new_plan_and_profile self uid l1 plan1 w0) in
  let w2 := snd (save_new_plan_and_profile self uid l2 plan2 w1) in
  (at_most_one_open u (db w) ->
   at_most_one_open u (db (snd (saves self calls w)))) /\
  (supabase self = true -> nth l2 (heap w1) [] <> [] -> store_up 3 w1 ->
   open_rows uid (db w2) = [new_row uid l2 plan2 w1] /\
   exists prior,
     plan_history (db w2) = prior ++ [new_row uid l2 plan2 w1] /\
     length prior = length (plan_history (db w1)) /\
     Forall (fun r => user_id r = uid -> end_date r <> None) prior) /\
  (negb (supabase self) || is_empty (nth l1 (heap w0) []) = true ->
   save_new_plan_and_profile self uid l1 plan1 w0 = (Ok tt, w0)).
Proof.
  intros w1 w2; split; [|split].
  - apply saves_at_most_one_open.
  - intros Hs Hp Hup.
    destruct (save_exactly_one_open self uid l2 plan2 w1 Hs Hp Hup)
      as (prior & Hph & Hlen & Hclosed & Ho).
    split; [exact Ho|].
    exists prior; repeat split; assumption.
  - apply save_skip.
Qed.

Lemma one_open_plan_per_user_witness :
  at_most_one_open 7%Z
    (db (snd (saves store_only [(7%Z, 0, py "Walk."); (7%Z, 1, py "Rest.")]
                two_profiles))) /\
  open_rows 7%Z
    (db (snd (save_new_plan_and_profile store_only 7%Z 1 (py "Rest.")
                (snd (save_new_plan_and_profile store_only 7%Z 0 (py "Walk.")
                        two_profiles))))) =
  [{| user_id := 7%Z; plan_text := py "Rest.";
      profile_json := [(py "name", JStr (py "Alex")); (py "age", JInt 31)];
      start_date := 200%Z; end_date := None |}].
Proof.
  pose proof (one_open_plan_per_user store_only
                [(7%Z, 0, py "Walk."); (7%Z, 1, py "Rest.")] two_profiles 7%Z
                7%Z 0 1 (py "Walk.") (py "Rest.") two_profiles) as H.
  cbv zeta in H; destruct H as (H1 & H2 & _).
  split.
  - apply H1; unfold at_most_one_open; simpl; lia.
  - refine (proj1 (H2 eq_refl _ eq_refl)); discriminate.
Defined.

(** C10. The payload that [save_new_plan_and_profile] upserts into [users]
    is the caller's profile with [user_id] set to the [user_id] argument,
    whatever [user_id] the profile itself carried; the caller's [dict] is
    left as it was, and the inserted plan row carries it, without the
    injected key, as [profile_json]. *)
Theorem save_keys_profile_by_user_id
    (self : bot) (uid : Z) (l : nat) (plan : pystr) (w : world) (d : dict) :
  nth_error (heap w) l = Some d ->
  let w' := snd (save_new_plan_and_profile self uid l plan w) in
  let payload := dict_set d (py "user_id") (JInt uid) in
  nth_error (heap w') l = Some d /\
  dict_get payload (py "user_id") = Some (JInt uid) /\
  (exists calls,
     trace w' = trace w ++ calls /\
     forall c, In c calls ->
       match c with
       | UpsertUser p => p = payload
       | ClosePlans u _ => u = uid
       | InsertPlan r => user_id r = uid /\ profile_json r = d
       | _ => False
       end) /\
  (supabase self = true -> d <> [] -> In (UpsertUser payload) (trace w')) /\
  (supabase self = true -> d <> [] -> store_up 3 w ->
   users (db w') = upsert_rows uid payload (users (db w)) /\
   In (InsertPlan (new_row uid l plan w)) (trace w') /\
   profile_json (new_row uid l plan w) = d).
Proof.
  intros Hl w' payload.
  assert (Hd : nth l (heap w) [] = d) by (apply nth_error_nth; exact Hl).
  split; [|split; [apply dict_get_set|]].
  - destruct (negb (supabase self) || is_empty (nth l (heap w) [])) eqn:E.
    + unfold w'; rewrite save_skip by exact E; exact Hl.
    + apply orb_false_iff in E; destruct E as [Es Ep].
      apply negb_false_iff in Es; apply is_empty_false in Ep.
      destruct (save_run self uid l plan w Es Ep) as (_ & Hh & _).
      unfold w'; rewrite Hh, nth_error_app1; [exact Hl|].
      apply nth_error_Some; congruence.
  - destruct (negb (supabase self) || is_empty (nth l (heap w) [])) eqn:E.
    + unfold w'; rewrite save_skip by exact E; simpl.
      apply orb_true_iff in E.
      split; [exists []; split; [symmetry; apply app_nil_r | intros c []]|].
      split; intros Hs Hne; exfalso; destruct E as [E|E].
      * rewrite Hs in E; discriminate.
      * rewrite Hd in E; destruct d; [congruence | discriminate].
      * rewrite Hs in E; discriminate.
      * rewrite Hd in E; destruct d; [congruence | discriminate].
    + apply orb_false_iff in E; destruct E as [Es Ep].
      apply negb_false_iff in Es; apply is_empty_false in Ep.
      pose proof (save_run self uid l plan w Es Ep) as H.
      cbv zeta in H; rewrite Hd in H; fold payload in H; fold w' in H.
      destruct H as (_ & _ & _ & H).
      assert (Hcalls : exists calls,
                 trace w' = trace w ++ UpsertUser payload :: calls /\
                 forall c, In c calls ->
                   match c with
                   | ClosePlans u _ => u = uid
                   | InsertPlan r => user_id r = uid /\ profile_json r = d
                   | _ => False
                   end).
      { destruct H as [(_ & [Ht|Ht] & _) | [(_ & Ht & _) | (_ & Ht & _)]];
          rewrite Ht; eexists; (split; [reflexivity|]);
          intros c Hc; simpl in Hc;
          repeat (destruct Hc as [<-|Hc]; [simpl; auto|]); destruct Hc. }
      destruct Hcalls as (calls & Ht & Hc).
      split; [|split].
      * exists (UpsertUser payload :: calls); split; [exact Ht|].
        intros c [<-|Hin]; [reflexivity|].
        specialize (Hc c Hin); destruct c; try contradiction; exact Hc.
      * intros _ _; rewrite Ht; apply in_or_app; right; left; reflexivity.
      * intros _ _ Hup.
        destruct (save_complete self uid l plan w Es Ep Hup) as (Hph & Hus & _).
        split; [rewrite Hd in Hus; exact Hus|].
        split; [|simpl; exact Hd].
        destruct H as [(Hph' & _) | [(Hph' & _) | (_ & Ht' & _)]].
        -- fold w' in Hph; rewrite Hph' in Hph.
           apply (f_equal (@length _)) in Hph.
           rewrite length_app, length_map in Hph; simpl in Hph; lia.
        -- fold w' in Hph; rewrite Hph' in Hph.
           apply (f_equal (@length _)) in Hph.
           rewrite length_app in Hph; simpl in Hph; lia.
        -- rewrite Ht'; apply in_or_app; right.
           unfold new_row; rewrite Hd; simpl; auto.
Qed.

Lemma save_keys_profile_by_user_id_witness :
  nth_error (heap (snd (save_new_plan_and_profile store_only 7%Z 0 (py "Walk.")
                          (with_heap [alex_row] (fresh no_tables))))) 0 =
    Some alex_row /\
  In (UpsertUser (dict_set alex_row (py "user_id") (JInt 7)))
     (trace (snd (save_new_plan_and_profile store_only 7%Z 0 (py "Walk.")
                    (with_heap [alex_row] (fresh no_tables))))).
Proof.
  pose proof (save_keys_profile_by_user_id store_only 7%Z 0 (py "Walk.")
                (with_heap [alex_row] (fresh no_tables)) alex_row eq_refl) as H.
  cbv zeta in H; destruct H as (H1 & _ & _ & H2 & _).
  split; [exact H1 | apply H2; [reflexivity | discriminate]].
Defined.

End SaveClaims.

(** ** Steps that leave the chat and the plans alone *)

Section QuietSteps.

Ltac solve_quiet :=
  unfold quiet, plan_side, persistence_calls, sent, sent_in; wsimpl;
  rewrite ?filter_app, ?flat_map_app; cbn [filter flat_map persistence_call app];
  rewrite ?app_nil_r; repeat split; reflexivity.

Lemma quiet_refl (w : world) : quiet w w.
Proof. unfold quiet; repeat split; reflexivity. Qed.

Lemma quiet_trans (w1 w2 w3 : world) : quiet w1 w2 -> quiet w2 w3 -> quiet w1 w3.
Proof.
  unfold quiet; intros (A1 & A2 & A3 & A4 & A5 & A6 & A7)
                       (B1 & B2 & B3 & B4 & B5 & B6 & B7).
  repeat split; congruence.
Qed.

Lemma logger_info_quiet (site : log_site) (w : world) :
  exists w', logger_info site w = (Ok tt, w') /\ quiet w w'.
Proof. eexists; split; [reflexivity|]. destruct w; solve_quiet. Qed.

Lemma logger_error_quiet (site : log_site) (w : world) :
  exists w', logger_error site w = (Ok tt, w') /\ quiet w w'.
Proof. eexists; split; [reflexivity|]. destruct w; solve_quiet. Qed.

Lemma log_conversation_quiet
    (self : bot) (uid : Z) (who message : pystr) (w : world) :
  exists w', _log_conversation self uid who message w = (Ok tt, w') /\
             quiet w w'.
Proof.
  unfold _log_conversation.
  destruct (supabase self); cbn [negb].
  - unfold try_except, conversation_history_insert, db_call, logger_error.
    destruct w as [t h ud tr ob lg dbf nf ts].
    destruct dbf as [|[|] dbf]; cbn [next_fault]; wsimpl;
      (eexists; split; [reflexivity | solve_quiet]).
  - exists w; split; [reflexivity | apply quiet_refl].
Qed.

(** What [_load_profile] does, request by request. *)
Lemma load_profile_cases (self : bot) (uid : Z) (w : world) :
  let r := _load_profile self uid w in
  let fault1 := fst (next_fault (db_faults w)) in
  let fault2 := fst (next_fault (snd (next_fault (db_faults w)))) in
  quiet w (snd r) /\
  ((supabase self = false /\ r = (Ok None, w)) \/
   (supabase self = true /\ fault1 = true /\
    fst r = Ok None /\ log (snd r) = log w ++ [LogError AtLoadProfile]) \/
   (supabase self = true /\ fault1 = false /\ select_user uid (db w) = [] /\
    fst r = Ok None /\ log (snd r) = log w) \/
   (supabase self = true /\ fault1 = false /\ select_user uid (db w) <> [] /\
    fault2 = true /\
    fst r = Ok None /\ log (snd r) = log w ++ [LogError AtLoadProfile]) \/
   (exists row rest,
      supabase self = true /\ fault1 = false /\
      select_user uid (db w) = row :: rest /\ fault2 = false /\
      fst r =
        Ok (Some {| profile := row;
                    last_plan :=
                      match select_open_plan uid (db w) with
                      | p :: _ => plan_text p
                      | [] => py "No previous plan found."
                      end |}) /\
      log (snd r) = log w)).
Proof.
  unfold _load_profile.
  destruct (supabase self); cbn [negb].
  - unfold try_except, bind, users_select, plan_history_select_open, db_call,
      logger_error, ret.
    destruct w as [t h ud tr ob lg dbf nf ts]; cbv zeta; wsimpl.
    destruct (select_user uid t) as [|row rest] eqn:E;
      split_faults; (split; [solve_quiet|]);
      first
        [ right; left; repeat split; reflexivity
        | right; right; left; repeat split; reflexivity
        | right; right; right; left; repeat split;
          first [reflexivity | discriminate]
        | right; right; right; right; exists row, rest;
          repeat split; reflexivity ].
  - cbv zeta; split; [apply quiet_refl | left; auto].
Qed.

Lemma load_profile_quiet (self : bot) (uid : Z) (w : world) :
  exists r w', _load_profile self uid w = (Ok r, w') /\ quiet w w'.
Proof.
  pose proof (load_profile_cases self uid w) as H; cbv zeta in H.
  destruct H as [Hq H].
  destruct (_load_profile self uid w) as [o w'] eqn:E; simpl in *.
  destruct H as [(_ & H) | [(_ & _ & H & _) | [(_ & _ & _ & H & _) |
                [(_ & _ & _ & _ & H & _) | (row & rest & _ & _ & _ & _ & H & _)]]]].
  - injection H as -> ->; eauto.
  - subst o; eauto.
  - subst o; eauto.
  - subst o; eauto.
  - subst o; eauto.
Qed.

(** [_extract_profile_json], whatever it comes to, is a quiet step that
    depends on the state through the limits of the interpreter only. *)
Lemma extract_profile_json_quiet (text : pystr) (w : world) :
  exists w',
    _extract_profile_json text w = (extracted (interp w) text, w') /\
    quiet w w' /\ interp w' = interp w.
Proof.
  unfold _extract_profile_json, extracted.
  destruct (Re.search text) as [m|].
  - unfold bind at 1, get_interpreter; cbv beta iota.
    destruct (loads (interp w) (Re.group1 m)) as [v|[]].
    + exists w; split; [reflexivity | split; [apply quiet_refl | reflexivity]].
    + unfold bind, logger_error, ret; eexists; split; [reflexivity|].
      split; [destruct w; solve_quiet | reflexivity].
    + exists w; split; [reflexivity | split; [apply quiet_refl | reflexivity]].
    + exists w; split; [reflexivity | split; [apply quiet_refl | reflexivity]].
  - exists w; split; [reflexivity | split; [apply quiet_refl | reflexivity]].
Qed.

(** The steps before the delivery leave the limits alone. *)
Lemma logger_info_interp (site : log_site) (w : world) :
  interp (snd (logger_info site w)) = interp w.
Proof. reflexivity. Qed.

Lemma log_conversation_interp
    (self : bot) (uid : Z) (who message : pystr) (w : world) :
  interp (snd (_log_conversation self uid who message w)) = interp w.
Proof.
  unfold _log_conversation.
  destruct (supabase self); cbn [negb]; [|reflexivity].
  unfold try_except, conversation_history_insert, db_call, logger_error.
  destruct (next_fault (db_faults w)) as [[|] rest]; reflexivity.
Qed.

Lemma load_profile_interp (self : bot) (uid : Z) (w : world) :
  interp (snd (_load_profile self uid w)) = interp w.
Proof.
  unfold _load_profile.
  destruct (supabase self); cbn [negb]; [|reflexivity].
  unfold try_except, bind, users_select, plan_history_select_open, db_call,
    logger_error, ret.
  destruct w as [t h ud tr ob lg dbf nf ts it]; wsimpl.
  destruct (select_user uid t) as [|row rest]; split_faults; reflexivity.
Qed.

Lemma net_call_interp (c : call) (w : world) :
  interp (snd (net_call c w)) = interp w.
Proof.
  unfold net_call; destruct (next_fault (net_faults w)) as [[|] rest];
    reflexivity.
Qed.

Lemma send_message_interp (e : engine) (text : pystr) (w : world) :
  interp (snd (send_message_async e text w)) = interp w.
Proof.
  unfold send_message_async; destruct (e (history w) text); reflexivity.
Qed.

Lemma step_interp {A} (m : M A) (w w' : world) (o : outcome A) :
  interp (snd (m w)) = interp w -> m w = (o, w') -> interp w' = interp w.
Proof. intros H E; rewrite E in H; exact H. Qed.

End QuietSteps.

(** ** Claim about [_load_profile] *)

Section LoadProfileClaim.

(** C7, as stated, fails.  For a user without a row the result is "no
    profile"; for a stored user whose lookup meets a transport error the
    result is the very same "no profile": the caller cannot tell the failure
    from not-found. *)
Lemma load_profile_failure_not_distinct :
  fst (_load_profile store_only 7%Z (fresh no_tables)) = Ok None /\
  fst (_load_profile store_only 7%Z (with_db_faults [true] (fresh alex_stored)))
    = Ok None /\
  fst (_load_profile store_only 7%Z (fresh alex_stored))
    = Ok (Some {| profile := alex_row;
                  last_plan := py "No previous plan found." |}).
Proof. repeat split. Qed.

(** C7, amended.  [_load_profile] never raises.  When the profile row is
    absent it returns "no profile" and logs nothing.  When a request to the
    store fails it returns the same "no profile", and the failure shows in
    the error log only.  Without a store client it returns "no profile" and
    does nothing. *)
Theorem load_profile_never_raises (self : bot) (uid : Z) (w : world) :
  let r := _load_profile self uid w in
  (exists res, fst r = Ok res) /\
  (supabase self = false -> r = (Ok None, w)) /\
  (supabase self = true -> fst (next_fault (db_faults w)) = false ->
   select_user uid (db w) = [] ->
   fst r = Ok None /\ log (snd r) = log w) /\
  (supabase self = true -> fst (next_fault (db_faults w)) = true ->
   fst r = Ok None /\ log (snd r) = log w ++ [LogError AtLoadProfile]) /\
  (supabase self = true -> fst (next_fault (db_faults w)) = false ->
   select_user uid (db w) <> [] ->
   fst (next_fault (snd (next_fault (db_faults w)))) = true ->
   fst r = Ok None /\ log (snd r) = log w ++ [LogError AtLoadProfile]).
Proof.
  intros r.
  destruct (load_profile_quiet self uid w) as (res & w' & E & _).
  pose proof (load_profile_cases self uid w) as H; cbv zeta in H.
  fold r in H; destruct H as [_ H].
  split; [exists res; unfold r; rewrite E; reflexivity|].
  repeat split; intros;
    destruct H as [(Ks & K) | [(Ks & Kf & K1 & K2) | [(Ks & Kf & Kr & K1 & K2) |
                  [(Ks & Kf & Kr & Kf2 & K1 & K2) |
                   (row & rest & Ks & Kf & Kr & Kf2 & K1 & K2)]]]];
    try congruence; try (rewrite K; reflexivity).
Qed.

Lemma load_profile_never_raises_witness :
  fst (_load_profile store_only 7%Z (with_db_faults [true] (fresh alex_stored)))
    = Ok None /\
  log (snd (_load_profile store_only 7%Z
              (with_db_faults [true] (fresh alex_stored))))
    = [LogError AtLoadProfile].
Proof.
  pose proof (load_profile_never_raises store_only 7%Z
                (with_db_faults [true] (fresh alex_stored))) as H.
  cbv zeta in H; destruct H as (_ & _ & _ & H & _).
  exact (H eq_refl eq_refl).
Defined.

End LoadProfileClaim.

(** ** The steps of a turn *)

Section TurnSteps.

Ltac obs :=
  unfold plan_side, persistence_calls, sent, sent_in; wsimpl;
  rewrite ?filter_app, ?flat_map_app; cbn [filter flat_map persistence_call app];
  rewrite ?app_nil_r.

Lemma try_bind_ok {A B} (m : M A) (k : A -> M B) (h : exn -> M B)
    (w w' : world) (a : A) :
  m w = (Ok a, w') -> try_except (bind m k) h w = try_except (k a) h w'.
Proof. unfold try_except, bind; intros ->; reflexivity. Qed.

Lemma try_bind_raise {A B} (m : M A) (k : A -> M B) (h : exn -> M B)
    (w w' : world) (e : exn) :
  m w = (Raise e, w') -> try_except (bind m k) h w = h e w'.
Proof. unfold try_except, bind; intros ->; reflexivity. Qed.

(** A request to the chat platform other than a reply. *)
Lemma net_call_step (c : call) (w : world) :
  persistence_call c = false ->
  match c with SendMessage _ => False | _ => True end ->
  exists w',
    net_call c w =
      (if fst (next_fault (net_faults w)) then Raise NetworkError else Ok tt, w') /\
    plan_side w' = plan_side w /\ sent w' = sent w /\
    outbox w' = outbox w /\ user_data w' = user_data w /\
    net_faults w' = snd (next_fault (net_faults w)).
Proof.
  intros Hp Hc; unfold net_call.
  destruct (next_fault (net_faults w)) as [fault rest] eqn:E; cbn [fst snd].
  eexists; split; [destruct fault; reflexivity|].
  obs; rewrite Hp; destruct c; try contradiction; obs; repeat split.
Qed.

(** A reply: delivered when the platform does not fail. *)
Lemma reply_text_step (text : pystr) (w : world) :
  exists w',
    plan_side w' = plan_side w /\ sent w' = sent w /\
    user_data w' = user_data w /\
    net_faults w' = snd (next_fault (net_faults w)) /\
    ((fst (next_fault (net_faults w)) = true /\
      reply_text text w = (Raise NetworkError, w') /\ outbox w' = outbox w) \/
     (fst (next_fault (net_faults w)) = false /\
      reply_text text w = (Ok tt, w') /\ outbox w' = outbox w ++ [text])).
Proof.
  unfold reply_text, bind, net_call.
  destruct (next_fault (net_faults w)) as [[|] rest] eqn:E; cbn [fst snd];
    eexists; (split; [|split; [|split; [|split]]]);
    [ | | | | left; repeat split | | | | | right; repeat split ];
    obs; reflexivity.
Qed.

Lemma on_error_step (w : world) :
  plan_side (snd (on_error w)) = plan_side w /\
  sent (snd (on_error w)) = sent w /\
  (fst (next_fault (net_faults w)) = false ->
   outbox (snd (on_error w)) =
     outbox w ++ [py "Sorry, I had a problem. Please try again in a moment."]).
Proof.
  unfold on_error.
  destruct (logger_error_quiet AtChatHandler w)
    as (w1 & E1 & (Qh & Qu & Qo & Qn & Qt & Qp & Qs)).
  rewrite (bind_ok _ _ w w1 tt E1).
  destruct (reply_text_step
              (py "Sorry, I had a problem. Please try again in a moment.") w1)
    as (w2 & Hp & Hs & _ & _ & [(Hf & -> & Ho) | (Hf & -> & Ho)]);
    cbn [snd]; rewrite Qn in Hf; repeat split; try congruence.
Qed.

Lemma start_chat_step (w : world) :
  exists w',
    start_chat w = (Ok tt, w') /\
    plan_side w' = plan_side w /\ sent w' = sent w /\
    outbox w' = outbox w /\ net_faults w' = net_faults w /\
    user_data w' = Some [].
Proof.
  unfold start_chat; eexists; split; [reflexivity|].
  obs; repeat split.
Qed.

Lemma send_message_step (e : engine) (text : pystr) (w : world) :
  exists w',
    send_message_async e text w =
      (match e (history w) text with
       | Some answer => Ok answer
       | None => Raise EngineError
       end, w') /\
    plan_side w' = plan_side w /\ sent w' = sent w ++ [text] /\
    outbox w' = outbox w /\ net_faults w' = net_faults w.
Proof.
  unfold send_message_async.
  destruct (e (history w) text) as [answer|];
    (eexists; split; [reflexivity|]); obs; repeat split.
Qed.

(** A save sends nothing to the engine. *)
Lemma save_no_send (self : bot) (uid : Z) (l : nat) (plan : pystr) (w : world) :
  sent (snd (save_new_plan_and_profile self uid l plan w)) = sent w.
Proof.
  destruct (negb (supabase self) || is_empty (nth l (heap w) [])) eqn:E.
  - rewrite save_skip by exact E; reflexivity.
  - apply orb_false_iff in E; destruct E as [Es Ep].
    apply negb_false_iff in Es; apply is_empty_false in Ep.
    destruct (save_run self uid l plan w Es Ep)
      as (_ & _ & _ & [(_ & [Ht|Ht] & _) | [(_ & Ht & _) | (_ & Ht & _)]]);
      unfold sent, sent_in; rewrite Ht, flat_map_app; simpl;
      apply app_nil_r.
Qed.

(** Delivering an answer sends nothing to the engine. *)
Lemma deliver_no_send (self : bot) (uid : Z) (ai_message : pystr) (w : world) :
  sent (snd (deliver self uid ai_message w)) = sent w.
Proof.
  unfold deliver.
  destruct (contains END_OF_PLAN ai_message).
  - destruct (extract_profile_json_quiet ai_message w)
      as (w1 & E1 & (_ & _ & _ & _ & _ & _ & Qs) & _).
    destruct (extracted (interp w) ai_message) as [[[|kv d]|]|e];
      [rewrite (bind_ok _ _ w w1 _ E1) ..
      | rewrite (bind_raise _ _ w w1 _ E1); exact Qs].
    + destruct (reply_text_step (strip (replace ai_message END_OF_PLAN [])) w1)
        as (w2 & _ & Hs & _ & _ & [(_ & -> & _) | (_ & -> & _)]);
        cbn [snd]; congruence.
    + unfold bind at 1, alloc; cbv beta iota.
      set (w2 := with_heap _ w1).
      assert (Hs2 : sent w2 = sent w1) by reflexivity.
      pose proof (save_ok self uid (length (heap w1))
                    (_extract_plan_text ai_message) w2) as Hok.
      pose proof (save_no_send self uid (length (heap w1))
                    (_extract_plan_text ai_message) w2) as Hs3.
      rewrite (bind_ok _ _ w2 _ tt (run_pair _ w2 tt Hok)).
      destruct (reply_text_step (strip (_extract_plan_text ai_message))
                  (snd (save_new_plan_and_profile self uid (length (heap w1))
                          (_extract_plan_text ai_message) w2)))
        as (w4 & _ & Hs & _ & _ & [(_ & -> & _) | (_ & -> & _)]);
        cbn [snd]; congruence.
    + destruct (reply_text_step (strip (replace ai_message END_OF_PLAN [])) w1)
        as (w2 & _ & Hs & _ & _ & [(_ & -> & _) | (_ & -> & _)]);
        cbn [snd]; congruence.
  - destruct (reply_text_step ai_message w)
      as (w2 & _ & Hs & _ & _ & [(_ & -> & _) | (_ & -> & _)]);
      cbn [snd]; congruence.
Qed.

End TurnSteps.

(** ** A turn, up to the answer of the engine *)

Section TurnRun.

(** [main_chat_handler] with a configured model: either the typing indicator
    fails, or the message goes to the engine with its reminder and the engine
    fails, or the engine answers and the answer is delivered.  Up to there
    nothing is written about profiles or plans and nothing is replied. *)
Lemma handler_run (self : bot) (e : engine) (uid : Z) (msg : pystr) (w : world) :
  model self = Some e ->
  let text := msg ++ reminder_for w in
  let fault := fst (next_fault (net_faults w)) in
  exists w1,
    plan_side w1 = plan_side w /\ outbox w1 = outbox w /\
    net_faults w1 = snd (next_fault (net_faults w)) /\
    interp w1 = interp w /\
    ((fault = true /\ sent w1 = sent w /\
      main_chat_handler self uid msg w = on_error w1) \/
     (fault = false /\ sent w1 = sent w ++ [text] /\
      e (history w) text = None /\
      main_chat_handler self uid msg w = on_error w1) \/
     (exists ai,
        fault = false /\ sent w1 = sent w ++ [text] /\
        e (history w) text = Some ai /\
        main_chat_handler self uid msg w =
          try_except (deliver self uid ai) (fun _ => on_error) w1)).
Proof.
  intros Hm text fault; unfold main_chat_handler; rewrite Hm.
  destruct (logger_info_quiet AtChatHandler w)
    as (wa & Ea & (_ & Au & Ao & An & _ & Ap & As)).
  rewrite (bind_ok _ _ w wa tt Ea).
  pose proof (step_interp _ _ _ _ (logger_info_interp AtChatHandler w) Ea) as Ia.
  destruct (log_conversation_quiet self uid (py "user") msg wa)
    as (wb & Eb & (_ & Bu & Bo & Bn & _ & Bp & Bs)).
  rewrite (bind_ok _ _ wa wb tt Eb).
  pose proof (step_interp _ _ _ _
                (log_conversation_interp self uid (py "user") msg wa) Eb) as Ib.
  destruct (net_call_step SendChatAction wb eq_refl I)
    as (wc & Ec & Cp & Cs & Co & Cu & Cn).
  pose proof (step_interp _ _ _ _ (net_call_interp SendChatAction wb) Ec) as Ic.
  fold send_chat_action in Ec.
  assert (Hf : fst (next_fault (net_faults wb)) = fault)
    by (unfold fault; congruence).
  rewrite Hf in Ec.
  assert (Hn : snd (next_fault (net_faults wb)) = snd (next_fault (net_faults w)))
    by congruence.
  destruct fault eqn:Efault.
  { exists wc; repeat split; try congruence.
    left; repeat split; [congruence|].
    exact (try_bind_raise _ _ (fun _ => on_error) wb wc NetworkError Ec). }
  rewrite (try_bind_ok _ _ _ wb wc tt Ec).
  rewrite (try_bind_ok get_chat_session _ _ wc wc (user_data wc) eq_refl).
  assert (Hu : user_data wc = user_data w) by congruence.
  rewrite Hu; destruct (user_data w) as [h|] eqn:Eu.
  - (* a session exists *)
    destruct (send_message_step e (msg ++ reminder) wc)
      as (wd & Ed & Dp & Ds & Do & Dn).
    pose proof (step_interp _ _ _ _
                  (send_message_interp e (msg ++ reminder) wc) Ed) as Id.
    assert (Hh : history wc = history w)
      by (unfold history; rewrite Hu, Eu; reflexivity).
    assert (Htext : text = msg ++ reminder)
      by (unfold text, reminder_for; rewrite Eu; reflexivity).
    rewrite Hh in Ed; rewrite <- Htext in Ed, Ds; rewrite <- Htext.
    destruct (e (history w) text) as [ai|] eqn:Ee.
    + rewrite (try_bind_ok _ _ _ wc wd ai Ed).
      destruct (log_conversation_quiet self uid (py "ai") ai wd)
        as (we & Ee' & (_ & Eu' & Eo & En & _ & Ep & Es)).
      pose proof (step_interp _ _ _ _
                    (log_conversation_interp self uid (py "ai") ai wd) Ee')
        as Ie.
      rewrite (try_bind_ok _ _ _ wd we tt Ee').
      exists we; repeat split; try congruence.
      right; right; exists ai; repeat split;
        first [reflexivity | assumption
              | rewrite Es, Ds, Cs, Bs, As; reflexivity].
    + exists wd; repeat split; try congruence.
      right; left; repeat split;
        try first [reflexivity | assumption
                  | rewrite Ds, Cs, Bs, As; reflexivity].
      exact (try_bind_raise _ _ (fun _ => on_error) wc wd EngineError Ed).
  - (* the first message of a session *)
    destruct (start_chat_step wc) as (wd & Ed & Dp & Ds & Do & Dn & Du).
    pose proof (step_interp start_chat wc wd _ eq_refl Ed) as Id.
    destruct (load_profile_quiet self uid wd)
      as (r & we & Ee' & (_ & Eu' & Eo & En & _ & Ep & Es)).
    pose proof (step_interp _ _ _ _ (load_profile_interp self uid wd) Ee')
      as Ie.
    destruct (send_message_step e (msg ++ reminder_first_turn) we)
      as (wf & Ef & Fp & Fs & Fo & Fn).
    pose proof (step_interp _ _ _ _
                  (send_message_interp e (msg ++ reminder_first_turn) we) Ef)
      as If.
    assert (Hh : history we = history w).
    { unfold history; rewrite Eu', Du, Eu; reflexivity. }
    assert (Htext : text = msg ++ reminder_first_turn)
      by (unfold text, reminder_for; rewrite Eu; reflexivity).
    rewrite Hh in Ef; rewrite <- Htext in Ef, Fs.
    assert (Hfirst :
      bind start_chat
        (fun _ => bind (_load_profile self uid)
           (fun _ => send_message_async e text)) wc =
      send_message_async e text we).
    { rewrite (bind_ok _ _ wc wd tt Ed), (bind_ok _ _ wd we r Ee');
        reflexivity. }
    rewrite <- Htext.
    destruct (e (history w) text) as [ai|] eqn:Ee.
    + rewrite Ef in Hfirst.
      rewrite (try_bind_ok _ _ _ wc wf ai Hfirst).
      destruct (log_conversation_quiet self uid (py "ai") ai wf)
        as (wg & Eg & (_ & Gu & Go & Gn & _ & Gp & Gs)).
      pose proof (step_interp _ _ _ _
                    (log_conversation_interp self uid (py "ai") ai wf) Eg)
        as Ig.
      rewrite (try_bind_ok _ _ _ wf wg tt Eg).
      exists wg; repeat split; try congruence.
      right; right; exists ai; repeat split;
        first [reflexivity | assumption
              | rewrite Gs, Fs, Es, Ds, Cs, Bs, As; reflexivity].
    + rewrite Ef in Hfirst.
      exists wf; repeat split; try congruence.
      right; left; repeat split;
        try first [reflexivity | assumption
                  | rewrite Fs, Es, Ds, Cs, Bs, As; reflexivity].
      exact (try_bind_raise _ _ (fun _ => on_error) wc wf EngineError Hfirst).
Qed.

End TurnRun.

(** ** Turns that end in a plain reply *)

Section PlainReply.

(** The span handed to [json.loads] begins with a brace: keeping objects
    only loses no result. *)
Lemma matched_span_decodes (it : interpreter) (text : pystr) (m : Re.re_match)
    (v : json) :
  Re.search text = Some m -> loads it (Re.group1 m) = Decoded v ->
  exists d, v = JObj d.
Proof.
  intros Hs.
  destruct (search_Some text m Hs) as (pre & rest & _ & Hm & _).
  destruct (match_here_Some rest m Hm) as (ws & body & post & _ & _ & E1 & _).
  rewrite E1; apply loads_brace_object.
Qed.

(** What [_extract_profile_json] comes to in a state. *)
Lemma extract_profile_json_fst (text : pystr) (w : world) :
  fst (_extract_profile_json text w) = extracted (interp w) text.
Proof.
  destruct (extract_profile_json_quiet text w) as (w' & -> & _); reflexivity.
Qed.

(** The payload [_extract_profile_json] returns for a text, whatever the
    limits. *)
Lemma extract_profile_json_returns (text : pystr) (r : option dict) :
  returns (_extract_profile_json text) r <->
  forall it, extracted it text = Ok r.
Proof.
  split.
  - intros H it.
    specialize (H {| db := no_tables; heap := []; user_data := None;
                     trace := []; outbox := []; log := []; db_faults := [];
                     net_faults := []; times := []; interp := it |}).
    rewrite extract_profile_json_fst in H; exact H.
  - intros H w; rewrite extract_profile_json_fst; apply H.
Qed.

Lemma net_up_two (w : world) :
  net_up 2 w ->
  fst (next_fault (net_faults w)) = false /\
  fst (next_fault (snd (next_fault (net_faults w)))) = false.
Proof.
  unfold net_up; destruct (net_faults w) as [|[|] [|[|] f]]; simpl;
    intros H; try discriminate H; auto.
Qed.

Lemma deliver_reply (self : bot) (uid : Z) (ai reply : pystr) (w : world) :
  replies_with self uid ai reply ->
  let w' := snd (try_except (deliver self uid ai) (fun _ => on_error) w) in
  plan_side w' = plan_side w /\
  (fst (next_fault (net_faults w)) = false -> outbox w' = outbox w ++ [reply]).
Proof.
  intros H; destruct (H w) as (w1 & (_ & _ & Qo & Qn & _ & Qp & _) & E).
  cbv zeta; unfold try_except; rewrite E.
  destruct (reply_text_step reply w1)
    as (w2 & Hp & _ & _ & _ & [(Hf & -> & Ho) | (Hf & -> & Ho)]).
  - destruct (on_error_step w2) as (Hp' & _ & _).
    split; [congruence|].
    intros Hf'; rewrite <- Qn, Hf in Hf'; discriminate.
  - cbn [snd]; split; [congruence|].
    intros _; rewrite Ho, Qo; reflexivity.
Qed.

(** A turn whose answer ends in a single reply writes neither profile nor
    plan, and the reply is what the user receives. *)
Lemma handler_reply
    (self : bot) (e : engine) (uid : Z) (msg : pystr) (w : world)
    (ai reply : pystr) :
  model self = Some e ->
  e (history w) (msg ++ reminder_for w) = Some ai ->
  replies_with self uid ai reply ->
  let w' := snd (main_chat_handler self uid msg w) in
  plan_side w' = plan_side w /\
  (net_up 2 w -> outbox w' = outbox w ++ [reply]).
Proof.
  intros Hm He Hr; cbv zeta.
  destruct (handler_run self e uid msg w Hm)
    as (w1 & Hp & Ho & Hn & _ &
        [(Hf & _ & ->) | [(_ & _ & Hnone & _) | (ai' & Hf & _ & Hai & ->)]]).
  - destruct (on_error_step w1) as (Hp' & _ & _).
    split; [congruence|].
    intros Hup; apply net_up_two in Hup; destruct Hup as [Hup _].
    rewrite Hup in Hf; discriminate.
  - rewrite He in Hnone; discriminate.
  - rewrite He in Hai; injection Hai as <-.
    destruct (deliver_reply self uid ai reply w1 Hr) as (Hp' & Ho').
    split; [congruence|].
    intros Hup; apply net_up_two in Hup; destruct Hup as [_ Hup].
    rewrite <- Hn in Hup; rewrite (Ho' Hup), Ho; reflexivity.
Qed.

Lemma replies_plain (self : bot) (uid : Z) (ai : pystr) :
  contains END_OF_PLAN ai = false -> replies_with self uid ai ai.
Proof.
  intros H w; exists w; split; [apply quiet_refl|].
  unfold deliver; rewrite H; reflexivity.
Qed.

Lemma replies_fallback (self : bot) (uid : Z) (ai : pystr) :
  contains END_OF_PLAN ai = true ->
  (returns (_extract_profile_json ai) None \/
   returns (_extract_profile_json ai) (Some [])) ->
  replies_with self uid ai (strip (replace ai END_OF_PLAN [])).
Proof.
  intros H Hr w.
  destruct (extract_profile_json_quiet ai w) as (w' & E & Q & _).
  exists w'; split; [exact Q|].
  unfold deliver; rewrite H.
  destruct Hr as [Hr|Hr];
    rewrite (proj1 (extract_profile_json_returns ai _) Hr (interp w)) in E;
    rewrite (bind_ok _ _ w w' _ E); reflexivity.
Qed.






End PlainReply.

(** ** Claims about [main_chat_handler] *)

Section HandlerClaims.

(** C5. When the answer of the model does not contain [END_OF_PLAN], the
    turn upserts no profile and closes or inserts no plan, whatever fails on
    the way, and, when the chat platform takes the calls, the reply delivered
    to the user is the answer itself, unchanged. *)
Theorem answer_without_marker_replied_verbatim
    (self : bot) (e : engine) (uid : Z) (msg : pystr) (w : world) (ai : pystr) :
  model self = Some e ->
  e (history w) (msg ++ reminder_for w) = Some ai ->
  contains END_OF_PLAN ai = false ->
  let w' := snd (main_chat_handler self uid msg w) in
  users (db w') = users (db w) /\
  plan_history (db w') = plan_history (db w) /\
  persistence_calls w' = persistence_calls w /\
  (net_up 2 w -> outbox w' = outbox w ++ [ai]).
Proof.
  intros Hm He Hc.
  destruct (handler_reply self e uid msg w ai ai Hm He
              (replies_plain self uid ai Hc)) as (Hp & Ho).
  unfold plan_side in Hp; injection Hp as H1 H2 H3; auto.
Qed.

Lemma answer_without_marker_replied_verbatim_witness :
  outbox (snd (main_chat_handler (bot_answering plain_answer) 7%Z (py "hi")
                 (fresh alex_stored))) = [plain_answer].
Proof.
  pose proof (answer_without_marker_replied_verbatim
                (bot_answering plain_answer) (fun _ _ => Some plain_answer)
                7%Z (py "hi") (fresh alex_stored) plain_answer
                eq_refl eq_refl eq_refl) as H.
  cbv zeta in H; destruct H as (_ & _ & _ & H).
  exact (H eq_refl).
Defined.




(** C9. When the answer of the model contains [END_OF_PLAN] and the first
    payload marker is followed by the empty object, [_extract_profile_json]
    returns the empty [dict] and the turn goes the way of a missing payload:
    no profile is upserted, no plan closed or inserted, and the reply is the
    answer with the terminal marker removed, trimmed.  Besides,
    [save_new_plan_and_profile] does nothing for an empty profile. *)
Theorem empty_payload_takes_fallback
    (self : bot) (e : engine) (uid : Z) (msg : pystr) (w : world)
    (pre ws post : pystr) :
  let ai := pre ++ USER_DATA_JSON ++ ws ++ LBRACE :: RBRACE :: post in
  model self = Some e ->
  e (history w) (msg ++ reminder_for w) = Some ai ->
  contains END_OF_PLAN ai = true ->
  contains USER_DATA_JSON pre = false ->
  forallb isspace ws = true ->
  let w' := snd (main_chat_handler self uid msg w) in
  returns (_extract_profile_json ai) (Some []) /\
  users (db w') = users (db w) /\
  plan_history (db w') = plan_history (db w) /\
  persistence_calls w' = persistence_calls w /\
  (net_up 2 w ->
   outbox w' = outbox w ++ [strip (replace ai END_OF_PLAN [])]) /\
  (forall l plan w0,
     nth l (heap w0) [] = [] ->
     save_new_plan_and_profile self uid l plan w0 = (Ok tt, w0)).
Proof.
  intros ai Hm He Hc Hpre Hws.
  assert (Hr : returns (_extract_profile_json ai) (Some [])).
  { apply extract_profile_json_returns; intros it; unfold ai, extracted.
    pose proof (search_first_marker pre ws [] post Hpre Hws eq_refl) as Hs.
    change ([] ++ RBRACE :: post) with (RBRACE :: post) in Hs.
    rewrite Hs; reflexivity. }
  destruct (handler_reply self e uid msg w ai _ Hm He
              (replies_fallback self uid ai Hc (or_intror Hr))) as (Hp & Ho).
  unfold plan_side in Hp; injection Hp as H1 H2 H3.
  repeat split; auto.
  intros l plan w0 Hl; apply save_skip.
  rewrite Hl; apply orb_true_r.
Qed.

Lemma empty_payload_takes_fallback_witness :
  outbox (snd (main_chat_handler (bot_answering empty_payload_answer) 7%Z
                 (py "plan please") (fresh no_tables))) =
    [USER_DATA_JSON ++ py " {}" ++ [LF] ++ py "1. Sleep well."] /\
  persistence_calls
    (snd (main_chat_handler (bot_answering empty_payload_answer) 7%Z
            (py "plan please") (fresh no_tables))) = [].
Proof.
  pose proof (empty_payload_takes_fallback
                (bot_answering empty_payload_answer)
                (fun _ _ => Some empty_payload_answer)
                7%Z (py "plan please") (fresh no_tables)
                [] (py " ") ([LF] ++ py "1. Sleep well." ++ END_OF_PLAN)
                eq_refl eq_refl eq_refl eq_refl eq_refl) as H.
  cbv zeta in H; destruct H as (_ & _ & _ & Hc & Ho & _).
  split; [exact (Ho eq_refl) | exact Hc].
Defined.

End HandlerClaims.

(** ** What is forwarded to the model engine *)

Section Forwarded.

Lemma try_no_send {A} (m : M A) (h : exn -> M A) (w : world) :
  (forall w0, sent (snd (m w0)) = sent w0) ->
  (forall x w0, sent (snd (h x w0)) = sent w0) ->
  sent (snd (try_except m h w)) = sent w.
Proof.
  intros Hm Hh; unfold try_except.
  specialize (Hm w); destruct (m w) as [[a|x] w']; cbn [snd] in *.
  - exact Hm.
  - rewrite Hh; exact Hm.
Qed.

Lemma reminders_name_markers (w : world) :
  contains USER_DATA_JSON (reminder_for w) = true /\
  contains END_OF_PLAN (reminder_for w) = true.
Proof. unfold reminder_for; destruct (user_data w); split; reflexivity. Qed.

(** What a turn forwards: nothing, or the message with its reminder. *)
Lemma handler_sent (self : bot) (e : engine) (uid : Z) (msg : pystr) (w : world) :
  model self = Some e ->
  let w' := snd (main_chat_handler self uid msg w) in
  (fst (next_fault (net_faults w)) = true /\ sent w' = sent w) \/
  (fst (next_fault (net_faults w)) = false /\
   sent w' = sent w ++ [msg ++ reminder_for w]).
Proof.
  intros Hm; cbv zeta.
  destruct (handler_run self e uid msg w Hm)
    as (w1 & _ & _ & _ & _ &
        [(Hf & Hs & ->) | [(Hf & Hs & _ & ->) | (ai & Hf & Hs & _ & ->)]]).
  - left; split; [exact Hf|].
    rewrite (proj1 (proj2 (on_error_step w1))); exact Hs.
  - right; split; [exact Hf|].
    rewrite (proj1 (proj2 (on_error_step w1))); exact Hs.
  - right; split; [exact Hf|].
    rewrite try_no_send; [exact Hs | apply deliver_no_send |].
    intros _ w0; exact (proj1 (proj2 (on_error_step w0))).
Qed.

(** C8. In every turn, on the first message of a session as on the later
    ones, what [main_chat_handler] forwards to the model engine is the user's
    message followed by a reminder of the output contract, which names both
    markers; nothing else is ever forwarded, and the message is forwarded
    whenever the typing indicator could be sent. *)
Theorem message_forwarded_with_reminder
    (self : bot) (e : engine) (uid : Z) (msg : pystr) (w : world) :
  model self = Some e ->
  let w' := snd (main_chat_handler self uid msg w) in
  (sent w' = sent w \/ sent w' = sent w ++ [msg ++ reminder_for w]) /\
  (fst (next_fault (net_faults w)) = false ->
   sent w' = sent w ++ [msg ++ reminder_for w]) /\
  contains USER_DATA_JSON (reminder_for w) = true /\
  contains END_OF_PLAN (reminder_for w) = true.
Proof.
  intros Hm w'.
  destruct (handler_sent self e uid msg w Hm) as [(Hf & Hs) | (Hf & Hs)];
    fold w' in Hs.
  - split; [left; exact Hs|].
    split; [intros Hf'; congruence | apply reminders_name_markers].
  - split; [right; exact Hs|].
    split; [intros _; exact Hs | apply reminders_name_markers].
Qed.

Lemma message_forwarded_with_reminder_witness :
  sent (snd (main_chat_handler (bot_answering plain_answer) 7%Z (py "hi")
               (with_user_data (Some []) (fresh no_tables)))) =
  [py "hi" ++ reminder].
Proof.
  pose proof (message_forwarded_with_reminder
                (bot_answering plain_answer) (fun _ _ => Some plain_answer)
                7%Z (py "hi") (with_user_data (Some []) (fresh no_tables))
                eq_refl) as H.
  cbv zeta in H; destruct H as (_ & H & _).
  exact (H eq_refl).
Defined.

Lemma last_two (a b : pystr) (x y x' y' : N) :
  a ++ [x; y] = b ++ [x'; y'] -> x = x' /\ y = y'.
Proof.
  intros H.
  change (a ++ [x; y]) with (a ++ [x] ++ [y]) in H.
  change (b ++ [x'; y']) with (b ++ [x'] ++ [y']) in H.
  rewrite !app_assoc in H.
  apply app_inj_tail in H; destruct H as [H ->].
  apply app_inj_tail in H; destruct H as [_ ->]; auto.
Qed.

(** The text of [initial_prompt] is not what the first turn sends, whatever
    the profile and the rendering of its fields. *)
Lemma initial_prompt_not_sent
    (json_dumps : dict -> pystr) (format : json -> pystr)
    (ud : option loaded) (msg : pystr) :
  msg ++ reminder_first_turn <> initial_prompt json_dumps format ud msg.
Proof.
  assert (Hr : exists r, reminder_first_turn = r ++ [93; 46]%N).
  { eexists (removelast (removelast reminder_first_turn)); reflexivity. }
  destruct Hr as [r Hr]; rewrite Hr, app_assoc.
  assert (Hi : exists i,
             initial_prompt json_dumps format ud msg = i ++ [110; 46]%N).
  { unfold initial_prompt; destruct ud as [ud|].
    - match goal with
      | |- exists i, ?a ++ ?b ++ ?c ++ ?d ++ ?e ++ ?f ++ ?g ++ ?h ++ ?k ++ ?l ++ ?z = _ =>
          exists (a ++ b ++ c ++ d ++ e ++ f ++ g ++ h ++ k ++ l
                    ++ removelast (removelast z));
          replace z with (removelast (removelast z) ++ [110; 46]%N) at 1
            by reflexivity
      end.
      rewrite <- !app_assoc; reflexivity.
    - match goal with
      | |- exists i, ?a ++ ?b ++ ?c ++ ?d ++ ?z = _ =>
          exists (a ++ b ++ c ++ d ++ removelast (removelast z));
          replace z with (removelast (removelast z) ++ [110; 46]%N) at 1
            by reflexivity
      end.
      rewrite <- !app_assoc; reflexivity. }
  destruct Hi as [i ->]; intros H.
  apply last_two in H; destruct H as [H _]; discriminate H.
Qed.

(** C1, on the code.  On the first message of a session the text forwarded
    to the model engine is the user's message followed by the first-turn
    reminder: it is the same whether or not a profile is stored, and it is
    never the priming text assigned to [initial_prompt]. *)
Theorem first_turn_forwards_message_not_priming
    (self : bot) (e : engine) (uid : Z) (msg : pystr) (w : world) :
  model self = Some e ->
  user_data w = None ->
  fst (next_fault (net_faults w)) = false ->
  sent (snd (main_chat_handler self uid msg w)) =
    sent w ++ [msg ++ reminder_first_turn] /\
  forall json_dumps format ud,
    msg ++ reminder_first_turn <> initial_prompt json_dumps format ud msg.
Proof.
  intros Hm Hu Hf; split.
  - destruct (handler_sent self e uid msg w Hm) as [(Hf' & _) | (_ & Hs)];
      [congruence|].
    unfold reminder_for in Hs; rewrite Hu in Hs; exact Hs.
  - intros; apply initial_prompt_not_sent.
Qed.

Lemma first_turn_forwards_message_not_priming_witness :
  sent (snd (main_chat_handler (bot_answering plain_answer) 7%Z (py "hi")
               (fresh alex_stored))) = [py "hi" ++ reminder_first_turn] /\
  sent (snd (main_chat_handler (bot_answering plain_answer) 7%Z (py "hi")
               (fresh no_tables))) = [py "hi" ++ reminder_first_turn].
Proof.
  split.
  - exact (proj1 (first_turn_forwards_message_not_priming
                    (bot_answering plain_answer) (fun _ _ => Some plain_answer)
                    7%Z (py "hi") (fresh alex_stored)
                    eq_refl eq_refl eq_refl)).
  - exact (proj1 (first_turn_forwards_message_not_priming
                    (bot_answering plain_answer) (fun _ _ => Some plain_answer)
                    7%Z (py "hi") (fresh no_tables)
                    eq_refl eq_refl eq_refl)).
Defined.

End Forwarded.

(** ** Claims about the response parser *)

Section ParserClaims.




Lemma replace_from_absent (old new s : pystr) :
  contains old s = false -> replace_from old new s 0 = s.
Proof.
  induction s as [|c s IH]; [reflexivity|].
  cbn [contains]; intros H; apply orb_false_iff in H; destruct H as [H1 H2].
  rewrite replace_from_miss by exact H1; rewrite IH by exact H2; reflexivity.
Qed.

Lemma extract_plan_text_eq (text : pystr) :
  _extract_plan_text text =
  match Re.search (strip (replace text END_OF_PLAN [])) with
  | Some m =>
      strip (replace (strip (replace text END_OF_PLAN [])) (Re.group0 m) [])
  | None => strip (replace text END_OF_PLAN [])
  end.
Proof.
  unfold _extract_plan_text.
  destruct (Re.search (strip (replace text END_OF_PLAN [])));
    apply strip_idem.
Qed.

(** Removing the matched span: the text before it is kept as it is. *)
Lemma replace_matched_span (t : pystr) (m : Re.re_match) :
  Re.search t = Some m ->
  exists pre post,
    t = pre ++ Re.group0 m ++ post /\
    no_match_inside pre (Re.group0 m ++ post) /\
    replace t (Re.group0 m) [] = pre ++ replace post (Re.group0 m) [].
Proof.
  intros Hs.
  destruct (search_Some t m Hs) as (pre & rest & -> & Hm & Hn).
  destruct (match_here_Some rest m Hm) as (ws & body & post & -> & Hshape).
  exists pre, post; split; [reflexivity|]; split; [exact Hn|].
  assert (Hg : Re.group0 m <> []).
  { destruct Hshape as (-> & _); discriminate. }
  unfold replace; destruct (Re.group0 m) as [|c g] eqn:Eg; [congruence|].
  rewrite <- Eg in *.
  rewrite replace_from_pre.
  - rewrite replace_from_hit by exact Hg; reflexivity.
  - intros p1 p2 Hp Hp2.
    destruct (startswith (p2 ++ Re.group0 m ++ post) (Re.group0 m)) eqn:E;
      [exfalso|reflexivity].
    apply (match_here_of_span m ws body _ Hshape E).
    exact (Hn p1 p2 Hp Hp2).
Qed.

(** C6, as stated, fails.  For the first answer payload extraction fails
    (the span after the payload marker is not JSON), yet [_extract_plan_text]
    does not fall back to stripping the terminal marker only: it removes the
    span as well.  In the second text the matched span is written twice, and
    both copies go, not the matched one alone. *)
Lemma extract_plan_text_removes_unparsed_span :
  returns (_extract_profile_json broken_payload_answer) None /\
  strip (replace broken_payload_answer END_OF_PLAN []) =
    py "[USER_DATA_JSON] {oops} Stay hydrated." /\
  _extract_plan_text broken_payload_answer = py "Stay hydrated." /\
  _extract_plan_text
    (py "[USER_DATA_JSON] {} Tip. [USER_DATA_JSON] {} More. [END_OF_PLAN]") =
    py "Tip.  More.".
Proof.
  split; [apply extract_profile_json_returns; reflexivity|].
  repeat split; reflexivity.
Qed.

(** C6, amended.  [_extract_plan_text] is defined on every text.  It removes
    the occurrences of the terminal marker and trims; where the payload
    pattern has no match in what is left, that is the result; where it has
    one, whether or not the span decodes, the matched span is cut out, along
    with any later repetition of the same span, and the rest is trimmed
    again.  The result has no whitespace at either end. *)
Theorem extract_plan_text_cuts_matched_span (text : pystr) :
  let t := strip (replace text END_OF_PLAN []) in
  (Re.search t = None -> _extract_plan_text text = t) /\
  (forall m, Re.search t = Some m ->
     exists pre post,
       t = pre ++ Re.group0 m ++ post /\
       no_match_inside pre (Re.group0 m ++ post) /\
       _extract_plan_text text =
         strip (pre ++ replace post (Re.group0 m) []) /\
       (contains (Re.group0 m) post = false ->
        _extract_plan_text text = strip (pre ++ post))) /\
  strip (_extract_plan_text text) = _extract_plan_text text.
Proof.
  intros t; rewrite extract_plan_text_eq; fold t.
  split; [intros ->; reflexivity|].
  split.
  - intros m Hs; rewrite Hs.
    destruct (replace_matched_span t m Hs) as (pre & post & Ht & Hn & Hr).
    exists pre, post; repeat split; auto.
    + rewrite Hr; reflexivity.
    + intros Hc; rewrite Hr; unfold replace.
      destruct (Re.group0 m); [destruct post; discriminate Hc|].
      rewrite replace_from_absent by exact Hc; reflexivity.
  - destruct (Re.search t); [apply strip_idem | unfold t; apply strip_idem].
Qed.

Lemma extract_plan_text_cuts_matched_span_witness :
  _extract_plan_text (py "  Eat more greens. [END_OF_PLAN] ") =
  py "Eat more greens.".
Proof.
  exact (proj1 (extract_plan_text_cuts_matched_span
                  (py "  Eat more greens. [END_OF_PLAN] ")) eq_refl).
Defined.

End ParserClaims.

(** * Further properties of the code *)

(** ** What a save does to the plan history *)

Section SaveHistory.

Lemma close_row_user (uid : Z) (now : timestamp) (r : plan_row) :
  user_id (close_row uid now r) = user_id r.
Proof. unfold close_row; destruct (is_open uid r); reflexivity. Qed.

Lemma close_row_other (uid : Z) (now : timestamp) (r : plan_row) :
  is_open uid r = false -> close_row uid now r = r.
Proof. unfold close_row; intros ->; reflexivity. Qed.

Lemma is_open_other (u uid : Z) (r : plan_row) :
  u <> uid -> Z.eqb (user_id r) u = true -> is_open uid r = false.
Proof.
  intros Hne Hu; apply Z.eqb_eq in Hu; unfold is_open.
  destruct (Z.eqb (user_id r) uid) eqn:E; [|reflexivity].
  apply Z.eqb_eq in E; congruence.
Qed.

Lemma rows_of_closed (u uid : Z) (now : timestamp) (ph : list plan_row) :
  u <> uid -> rows_of u (map (close_row uid now) ph) = rows_of u ph.
Proof.
  intros Hne; unfold rows_of; induction ph as [|r ph IH]; [reflexivity|].
  cbn [map filter]; rewrite close_row_user, IH.
  destruct (Z.eqb (user_id r) u) eqn:E; [|reflexivity].
  rewrite (close_row_other uid now r (is_open_other u uid r Hne E)).
  reflexivity.
Qed.

Lemma closed_row_kept (uid : Z) (now : timestamp) (ph : list plan_row)
    (r : plan_row) :
  In r ph -> end_date r <> None -> In r (map (close_row uid now) ph).
Proof.
  intros Hin Hend; apply in_map_iff; exists r; split; [|exact Hin].
  apply close_row_other; unfold is_open.
  destruct (end_date r); [apply andb_false_r | congruence].
Qed.

Lemma closed_row_origin (uid : Z) (now : timestamp) (ph : list plan_row)
    (r' : plan_row) :
  In r' (map (close_row uid now) ph) ->
  In r' ph \/
  exists r, In r ph /\ is_open uid r = true /\ r' = close_row uid now r.
Proof.
  intros Hin; apply in_map_iff in Hin; destruct Hin as (r & <- & Hin).
  destruct (is_open uid r) eqn:E.
  - right; exists r; auto.
  - left; rewrite close_row_other by exact E; exact Hin.
Qed.

(** The plan history after a call, in terms of the one before: it is left
    as it is, or the open rows of the user are closed, or they are closed
    and the new row is added. *)
Lemma save_history (self : bot) (uid : Z) (l : nat) (plan : pystr) (w : world) :
  let w' := snd (save_new_plan_and_profile self uid l plan w) in
  let closed := map (close_row uid (hd 0%Z (times w))) (plan_history (db w)) in
  plan_history (db w') = plan_history (db w) \/
  plan_history (db w') = closed \/
  plan_history (db w') = closed ++ [new_row uid l plan w].
Proof.
  cbv zeta.
  destruct (negb (supabase self) || is_empty (nth l (heap w) [])) eqn:E.
  - rewrite save_skip by exact E; left; reflexivity.
  - apply orb_false_iff in E; destruct E as [Es Ep].
    apply negb_false_iff in Es; apply is_empty_false in Ep.
    destruct (save_run self uid l plan w Es Ep)
      as (_ & _ & _ & [(H & _) | [(H & _) | (H & _)]]); rewrite H; auto.
Qed.

(** X1: a call of [save_new_plan_and_profile] for one user, whatever fails,
    leaves the plan rows of every other user exactly as they were, keeps
    every row that already had an [end_date] as it is, never removes a row,
    and every row found afterwards is an old row, an open row of the user
    with its [end_date] set, or the new row. *)
Theorem save_touches_open_rows_of_user_only
    (self : bot) (uid : Z) (l : nat) (plan : pystr) (w : world) :
  let w' := snd (save_new_plan_and_profile self uid l plan w) in
  (forall u, u <> uid ->
     rows_of u (plan_history (db w')) = rows_of u (plan_history (db w))) /\
  (forall r, In r (plan_history (db w)) -> end_date r <> None ->
     In r (plan_history (db w'))) /\
  length (plan_history (db w)) <= length (plan_history (db w')) /\
  (forall r', In r' (plan_history (db w')) ->
     In r' (plan_history (db w)) \/
     (exists r, In r (plan_history (db w)) /\ is_open uid r = true /\
                r' = close_row uid (hd 0%Z (times w)) r) \/
     r' = new_row uid l plan w).
Proof.
  intros w'.
  destruct (save_history self uid l plan w) as [H | [H | H]];
    fold w' in H; rewrite H; (split; [|split; [|split]]).
  - auto.
  - auto.
  - lia.
  - auto.
  - intros u Hne; apply rows_of_closed; exact Hne.
  - intros r; apply closed_row_kept.
  - rewrite length_map; lia.
  - intros r' Hin; destruct (closed_row_origin _ _ _ _ Hin); auto.
  - intros u Hne; unfold rows_of; rewrite filter_app.
    fold (rows_of u (map (close_row uid (hd 0%Z (times w)))
                       (plan_history (db w)))).
    rewrite rows_of_closed by exact Hne; cbn [filter new_row user_id].
    destruct (Z.eqb uid u) eqn:E; [apply Z.eqb_eq in E; congruence|].
    apply app_nil_r.
  - intros r Hin Hend; apply in_or_app; left.
    apply closed_row_kept; assumption.
  - rewrite length_app, length_map; simpl; lia.
  - intros r' Hin; apply in_app_or in Hin; destruct Hin as [Hin | [<- | []]].
    + destruct (closed_row_origin _ _ _ _ Hin); auto.
    + auto.
Qed.

Lemma save_touches_open_rows_of_user_only_witness :
  rows_of 8%Z
    (plan_history
       (db (snd (save_new_plan_and_profile store_only 7%Z 0 (py "Walk.")
                   two_profiles)))) =
  rows_of 8%Z (plan_history (db two_profiles)).
Proof.
  refine (proj1 (save_touches_open_rows_of_user_only store_only 7%Z 0
                   (py "Walk.") two_profiles) 8%Z _); discriminate.
Defined.

End SaveHistory.

(** ** A save that fails on the way *)

Section SaveFailure.

(** Unfolds a call that passes the guard, on a state given by its fields. *)
Ltac unfold_save Hs Hp :=
  unfold save_new_plan_and_profile, bind at 1, deref at 1;
  cbv beta iota; wsimpl;
  apply is_empty_false in Hp; rewrite Hs, Hp; cbn [negb orb];
  unfold bind, datetime_now, copy, setitem, try_except, deref, users_upsert,
    plan_history_close, plan_history_insert, db_call, logger_info,
    logger_error, upsert_user;
  wsimpl;
  rewrite update_nth_last, !nth_middle;
  unfold row_user_id; rewrite dict_get_set.

(** X2: when a request of [save_new_plan_and_profile] fails, the call still
    returns normally and logs one error.  If the upsert fails, no table is
    changed.  If the update fails, the profile is upserted and the plan
    history is as before.  If the insert fails, the profile is upserted, the
    open plans of the user are closed and no new row is there: the user is
    left without an open plan. *)
Theorem failed_save_stops_where_it_failed
    (self : bot) (uid : Z) (l : nat) (plan : pystr) (w : world)
    (rest : list bool) :
  supabase self = true -> nth l (heap w) [] <> [] ->
  let run := save_new_plan_and_profile self uid l plan in
  let payload := dict_set (nth l (heap w) []) (py "user_id") (JInt uid) in
  forall f,
    (f = true :: rest \/ f = false :: true :: rest \/
     f = false :: false :: true :: rest) ->
    let w' := snd (run (with_db_faults f w)) in
    fst (run (with_db_faults f w)) = Ok tt /\
    log w' = log w ++ [LogError AtSavePlan] /\
    db_faults w' = rest /\
    (f = true :: rest -> db w' = db w) /\
    (f = false :: true :: rest ->
     users (db w') = upsert_rows uid payload (users (db w)) /\
     plan_history (db w') = plan_history (db w)) /\
    (f = false :: false :: true :: rest ->
     users (db w') = upsert_rows uid payload (users (db w)) /\
     length (plan_history (db w')) = length (plan_history (db w)) /\
     open_rows uid (db w') = []).
Proof.
  intros Hs Hp run payload f Hf; subst run payload; cbv zeta.
  assert (Hp' : nth l (heap (with_db_faults f w)) [] <> []) by exact Hp.
  remember (save_new_plan_and_profile self uid l plan (with_db_faults f w))
    as r eqn:E.
  revert E.
  destruct w as [t h ud tr ob lg dbf nf ts].
  unfold_save Hs Hp'.
  destruct Hf as [-> | [-> | ->]];
    repeat (progress (cbn [next_fault option_map]; wsimpl));
    intros ->; wsimpl;
    (split; [reflexivity|]); (split; [reflexivity|]); (split; [reflexivity|]);
    (split; [|split]); intros Hf; try discriminate Hf;
    try (injection Hf as <-); repeat split; try apply length_map.
  unfold open_rows, close_plans; cbn [plan_history].
  rewrite filter_open_closed, Z.eqb_refl; reflexivity.
Qed.

Lemma failed_save_stops_where_it_failed_witness :
  open_rows 7%Z
    (db (snd (save_new_plan_and_profile store_only 7%Z 1 (py "Rest.")
                (with_db_faults [false; false; true]
                   (snd (save_new_plan_and_profile store_only 7%Z 0
                           (py "Walk.") two_profiles)))))) = [].
Proof.
  pose proof (failed_save_stops_where_it_failed store_only 7%Z 1 (py "Rest.")
                (snd (save_new_plan_and_profile store_only 7%Z 0 (py "Walk.")
                        two_profiles)) [] eq_refl) as H.
  cbv zeta in H.
  assert (Hp : nth 1 (heap (snd (save_new_plan_and_profile store_only 7%Z 0
                                   (py "Walk.") two_profiles))) [] <> [])
    by discriminate.
  destruct (H Hp [false; false; true] (or_intror (or_intror eq_refl)))
    as (_ & _ & _ & _ & _ & H').
  exact (proj2 (proj2 (H' eq_refl))).
Defined.

End SaveFailure.

(** ** Loading a profile *)

Section LoadProfile.

Lemma latest_spec (rows : list plan_row) :
  match latest rows with
  | Some r =>
      In r rows /\
      Forall (fun r' => (start_date r' <= start_date r)%Z) rows
  | None => rows = []
  end.
Proof.
  induction rows as [|r rows IH]; cbn [latest]; [reflexivity|].
  destruct (latest rows) as [r'|].
  - destruct IH as [Hin Hall].
    destruct (Z.ltb (start_date r) (start_date r')) eqn:E.
    + apply Z.ltb_lt in E; split; [right; exact Hin|].
      constructor; [lia | exact Hall].
    + apply Z.ltb_ge in E; split; [left; reflexivity|].
      constructor; [lia|].
      eapply Forall_impl; [|exact Hall]; cbv beta; intros; lia.
  - subst rows; split; [left; reflexivity | constructor; [lia | constructor]].
Qed.

(** [_load_profile] writes nothing. *)
Lemma load_profile_db (self : bot) (uid : Z) (w : world) :
  db (snd (_load_profile self uid w)) = db w.
Proof.
  unfold _load_profile.
  destruct (supabase self); cbn [negb]; [|reflexivity].
  unfold try_except, bind, users_select, plan_history_select_open, db_call,
    logger_error, ret.
  destruct w as [t h ud tr ob lg dbf nf ts]; wsimpl.
  destruct (select_user uid t) as [|row rest]; split_faults; reflexivity.
Qed.

(** X3: [_load_profile] never changes a table.  When it returns a profile,
    the profile is a row of [users] with the [user_id] asked for, and the
    plan text that comes with it is that of an open plan of the user with the
    latest [start_date], or the text "No previous plan found." when the user
    has no open plan. *)
Theorem load_profile_reads_latest_open_plan
    (self : bot) (uid : Z) (w : world) (ld : loaded) :
  fst (_load_profile self uid w) = Ok (Some ld) ->
  db (snd (_load_profile self uid w)) = db w /\
  In (profile ld) (users (db w)) /\
  row_user_id (profile ld) = Some uid /\
  ((open_rows uid (db w) = [] /\
    last_plan ld = py "No previous plan found.") \/
   (exists p,
      In p (open_rows uid (db w)) /\ last_plan ld = plan_text p /\
      Forall (fun p' => (start_date p' <= start_date p)%Z)
             (open_rows uid (db w)))).
Proof.
  intros Hr; split; [apply load_profile_db|].
  pose proof (load_profile_cases self uid w) as H; cbv zeta in H.
  destruct H as [_ H].
  destruct H as [(_ & K) | [(_ & _ & K & _) | [(_ & _ & _ & K & _) |
                [(_ & _ & _ & _ & K & _) |
                 (row & rest & _ & _ & Kr & _ & K & _)]]]];
    try (rewrite K in Hr; discriminate Hr).
  rewrite K in Hr; injection Hr as <-; cbn [profile last_plan].
  assert (Hin : In row (select_user uid (db w))) by (rewrite Kr; left; reflexivity).
  unfold select_user in Hin; apply filter_In in Hin; destruct Hin as [Hin Hid].
  split; [exact Hin|]. split.
  - unfold has_user_id in Hid; destruct (row_user_id row) as [z|]; [|discriminate].
    apply Z.eqb_eq in Hid; congruence.
  - unfold select_open_plan.
    pose proof (latest_spec (open_rows uid (db w))) as Hl.
    destruct (latest (open_rows uid (db w))) as [p|].
    + right; exists p; destruct Hl; auto.
    + left; auto.
Qed.

Lemma load_profile_reads_latest_open_plan_witness :
  In alex_row (users (db (fresh alex_stored))) /\
  row_user_id alex_row = Some 7%Z.
Proof.
  pose proof (load_profile_reads_latest_open_plan store_only 7%Z
                (fresh alex_stored)
                {| profile := alex_row;
                   last_plan := py "No previous plan found." |} eq_refl) as H.
  destruct H as (_ & H1 & H2 & _); split; [exact H1 | exact H2].
Defined.

End LoadProfile.

(** ** Saving, then loading *)

Section SaveThenLoad.

Lemma dict_get_set_other (d : dict) (k k' : pystr) (v : json) :
  k' <> k -> dict_get (dict_set d k' v) k = dict_get d k.
Proof.
  intros Hk.
  assert (Hkk : PyStr.eqb k' k = false).
  { destruct (PyStr.eqb k' k) eqn:E; [apply eqb_eq in E; contradiction | reflexivity]. }
  induction d as [|[k1 v1] d IH]; simpl.
  - rewrite Hkk; reflexivity.
  - destruct (PyStr.eqb k1 k') eqn:E1; simpl.
    + apply eqb_eq in E1; subst k1; rewrite Hkk; reflexivity.
    + rewrite IH; reflexivity.
Qed.

Lemma dict_set_keys (d : dict) (k : pystr) (v : json) (x : pystr) :
  In x (map fst (dict_set d k v)) -> In x (map fst d) \/ x = k.
Proof.
  induction d as [|[k1 v1] d IH]; simpl.
  - intros [<-|[]]; auto.
  - destruct (PyStr.eqb k1 k); simpl; intros [<-|H]; auto.
    destruct (IH H); auto.
Qed.

(** Setting a key keeps the keys of a [dict] distinct. *)
Lemma dict_set_nodup (d : dict) (k : pystr) (v : json) :
  NoDup (map fst d) -> NoDup (map fst (dict_set d k v)).
Proof.
  induction d as [|[k1 v1] d IH]; simpl; intros H.
  - constructor; [intros [] | constructor].
  - inversion H as [|? ? Hn Hd]; subst.
    destruct (PyStr.eqb k1 k) eqn:E; simpl.
    + constructor; assumption.
    + constructor; [|apply IH; exact Hd].
      intros Hin; apply dict_set_keys in Hin; destruct Hin as [Hin|Hin].
      * contradiction.
      * subst k1; rewrite eqb_refl in E; discriminate.
Qed.

Lemma merge_row_keeps (payload row : dict) (k : pystr) :
  ~ In k (map fst payload) ->
  dict_get (merge_row row payload) k = dict_get row k.
Proof.
  unfold merge_row; revert row.
  induction payload as [|[k1 v1] payload IH]; intros row Hn; simpl; [reflexivity|].
  rewrite IH by (intros H; apply Hn; right; exact H).
  apply dict_get_set_other; intros ->; apply Hn; left; reflexivity.
Qed.

(** A merged row holds every column of the payload. *)
Lemma merge_row_payload (payload row : dict) (k : pystr) (v : json) :
  NoDup (map fst payload) -> dict_get payload k = Some v ->
  dict_get (merge_row row payload) k = Some v.
Proof.
  revert row; induction payload as [|[k1 v1] payload IH]; intros row Hd Hg;
    [discriminate Hg|].
  inversion Hd as [|? ? Hn Hd']; subst.
  simpl in Hg; destruct (PyStr.eqb k1 k) eqn:E.
  - apply eqb_eq in E; subst k1; injection Hg as ->.
    change (merge_row row ((k, v) :: payload))
      with (merge_row (dict_set row k v) payload).
    rewrite merge_row_keeps by exact Hn.
    apply dict_get_set.
  - change (merge_row row ((k1, v1) :: payload))
      with (merge_row (dict_set row k1 v1) payload).
    apply IH; assumption.
Qed.

(** After an upsert the first row selected for the user holds the payload. *)
Lemma upsert_select (uid : Z) (payload : dict) (us : list dict) :
  NoDup (map fst payload) -> row_user_id payload = Some uid ->
  exists row rest,
    filter (has_user_id uid) (upsert_rows uid payload us) = row :: rest /\
    row_user_id row = Some uid /\
    forall k v, dict_get payload k = Some v -> dict_get row k = Some v.
Proof.
  intros Hd Hid.
  assert (Hp : has_user_id uid payload = true)
    by (unfold has_user_id; rewrite Hid; apply Z.eqb_refl).
  induction us as [|r us IH]; simpl.
  - rewrite Hp; exists payload, []; auto.
  - destruct (has_user_id uid r) eqn:E; simpl.
    + assert (Hm : row_user_id (merge_row r payload) = Some uid).
      { unfold row_user_id in *.
        destruct (dict_get payload (py "user_id")) as [[]|] eqn:G;
          try discriminate Hid.
        rewrite (merge_row_payload _ _ _ _ Hd G); exact Hid. }
      unfold has_user_id at 1; rewrite Hm, Z.eqb_refl.
      eexists; eexists; split; [reflexivity|]; split; [exact Hm|].
      intros k v G; apply merge_row_payload; assumption.
    + rewrite E; exact IH.
Qed.

Lemma store_up_five (f : list bool) :
  forallb negb (firstn 5 f) = true ->
  forallb negb (firstn 3 f) = true /\
  fst (next_fault (skipn 3 f)) = false /\
  fst (next_fault (snd (next_fault (skipn 3 f)))) = false.
Proof.
  destruct f as [|[|] [|[|] [|[|] [|[|] [|[|] f]]]]]; simpl;
    intros H; try discriminate H; auto.
Qed.

(** X4: round trip.  When a save is carried out and the store answers its
    three requests and the two of the lookup that follows, [_load_profile]
    for the same user returns the plan text just saved as the last plan, and
    a profile row keyed by the user that holds every field of the saved
    profile. *)
Theorem saved_plan_is_loaded_back
    (self : bot) (uid : Z) (l : nat) (plan : pystr) (w : world) :
  supabase self = true -> nth l (heap w) [] <> [] ->
  NoDup (map fst (nth l (heap w) [])) -> store_up 5 w ->
  let w' := snd (save_new_plan_and_profile self uid l plan w) in
  exists ld,
    fst (_load_profile self uid w') = Ok (Some ld) /\
    last_plan ld = plan /\
    row_user_id (profile ld) = Some uid /\
    forall k v, k <> py "user_id" ->
      dict_get (nth l (heap w) []) k = Some v ->
      dict_get (profile ld) k = Some v.
Proof.
  intros Hs Hp Hd Hup w'.
  apply store_up_five in Hup; destruct Hup as (Hup & Hf1 & Hf2).
  destruct (save_complete self uid l plan w Hs Hp Hup) as (_ & Hus & Hfl).
  destruct (save_exactly_one_open self uid l plan w Hs Hp Hup)
    as (_ & _ & _ & _ & Hopen).
  fold w' in Hus, Hfl, Hopen.
  set (payload := dict_set (nth l (heap w) []) (py "user_id") (JInt uid)) in *.
  destruct (upsert_select uid payload (users (db w)))
    as (row & rest & Hsel & Hid & Hcols).
  { apply dict_set_nodup; exact Hd. }
  { apply row_user_id_set. }
  pose proof (load_profile_cases self uid w') as H; cbv zeta in H.
  destruct H as [_ H]; rewrite Hfl, Hf1, Hf2 in H.
  assert (Hsel' : select_user uid (db w') = row :: rest)
    by (unfold select_user; rewrite Hus; exact Hsel).
  destruct H as [(K & _) | [(_ & K & _) | [(_ & _ & K & _) |
                [(_ & _ & _ & K & _) |
                 (row' & rest' & _ & _ & Kr & _ & K & _)]]]];
    try congruence.
  rewrite Hsel' in Kr; injection Kr as <- <-.
  eexists; split; [exact K|]; cbn [profile last_plan].
  split; [|split; [exact Hid|]].
  - unfold select_open_plan; rewrite Hopen; reflexivity.
  - intros k v Hk G; apply Hcols; unfold payload.
    rewrite dict_get_set_other by (intros E; apply Hk; symmetry; exact E).
    exact G.
Qed.

Lemma saved_plan_is_loaded_back_witness :
  exists ld,
    fst (_load_profile store_only 7%Z
           (snd (save_new_plan_and_profile store_only 7%Z 0
                   (py "1. Sleep well.") two_profiles))) = Ok (Some ld) /\
    last_plan ld = py "1. Sleep well." /\
    dict_get (profile ld) (py "name") = Some (JStr (py "Alex")).
Proof.
  assert (Hp : nth 0 (heap two_profiles) [] <> []) by discriminate.
  assert (Hd : NoDup (map fst (nth 0 (heap two_profiles) []))).
  { simpl; constructor; [|constructor; [intros [] | constructor]].
    intros [H|[]]; vm_compute in H; discriminate H. }
  destruct (saved_plan_is_loaded_back store_only 7%Z 0 (py "1. Sleep well.")
              two_profiles eq_refl Hp Hd eq_refl) as (ld & H1 & H2 & _ & H4).
  exists ld; split; [exact H1|]; split; [exact H2|].
  apply H4; [|reflexivity].
  intros H; vm_compute in H; discriminate H.
Defined.

End SaveThenLoad.

(** ** The keys of a decoded payload *)

Section DecodedKeys.

Lemma dict_of_pairs_distinct (ms : list (pystr * json)) :
  distinct_keys (dict_of_pairs ms).
Proof.
  unfold dict_of_pairs, distinct_keys.
  assert (H : forall d : dict, NoDup (map fst d) ->
            NoDup (map fst (fold_left
                              (fun d kv => dict_set d (fst kv) (snd kv)) ms d))).
  { induction ms as [|[k v] ms IH]; intros d Hd; simpl; [exact Hd|].
    apply IH, dict_set_nodup, Hd. }
  apply H; constructor.
Qed.

Lemma put_rooted_dict (st : list frame) (v : json) (ps : pstate) :
  obj_rooted st = true -> put st v = Some ps -> rooted_dict ps.
Proof.
  destruct st as [|[items|ms [k|]] st']; simpl; try discriminate;
    intros H E; injection E as <-; left; simpl; exact H.
Qed.

Lemma parse_token_rooted_dict (ps : pstate) (t : token) (ps' : pstate) :
  rooted_dict ps -> parse_token ps t = Some ps' -> rooted_dict ps'.
Proof.
  intros [H | [d ->]].
  - destruct ps as [st e]; cbn [fst] in H.
    assert (Hput : forall v ps', put st v = Some ps' -> rooted_dict ps')
      by (intros v q; apply put_rooted_dict; exact H).
    assert (Hval : forall t ps', parse_value st t = Some ps' -> rooted_dict ps').
    { intros [| | | | | |v] q; simpl; try discriminate; [| |apply Hput];
        intros E; injection E as <-; left; destruct st; [discriminate | exact H
                                                       | discriminate | exact H]. }
    assert (Harr : forall ps', close_array st = Some ps' -> rooted_dict ps').
    { intros q; destruct st as [|[items|ms k] st']; simpl; try discriminate.
      destruct st' as [|f st']; [discriminate|].
      apply put_rooted_dict; exact H. }
    assert (Hobj : forall ps', close_object st = Some ps' -> rooted_dict ps').
    { intros q; destruct st as [|[items|ms [k|]] st']; simpl; try discriminate.
      destruct st' as [|f st'].
      - intros E; injection E as <-; right; eauto.
      - apply put_rooted_dict; exact H. }
    assert (Hkey : forall k ps', set_key st k = Some ps' -> rooted_dict ps').
    { intros k q; destruct st as [|[items|ms [k'|]] st']; simpl; try discriminate.
      intros E; injection E as <-; left; exact H. }
    destruct e; simpl; destruct t as [| | | | | |tv]; try discriminate; eauto.
    + destruct tv; try discriminate; eauto.
    + destruct tv; try discriminate; eauto.
    + intros E; injection E as <-; left; exact H.
    + destruct st as [|[|] ?]; try discriminate;
        intros E; injection E as <-; left; exact H.
  - destruct t as [| | | | | |v]; simpl; discriminate.
Qed.

Lemma feed_rooted_dict (it : interpreter) (ts : list token) (n : lexmode)
    (ps ps' : pstate) :
  rooted_dict ps -> feed it n ps ts = inl ps' -> rooted_dict ps'.
Proof.
  revert n ps; induction ts as [|t ts IH]; intros n ps Hr; cbn [feed].
  - intros E; injection E as <-; exact Hr.
  - destruct (parse_token ps t) as [q|] eqn:E; [|discriminate].
    pose proof (parse_token_rooted_dict ps t q Hr E) as Hq.
    destruct t as [| | | | | |[]];
      repeat match goal with
             | |- context [if ?b then _ else _] => destruct b
             end;
      try discriminate; apply IH; exact Hq.
Qed.

Lemma scan_rooted_dict (it : interpreter) (s : pystr) (m : lexmode)
    (ps : pstate) (v : json) :
  rooted_dict ps -> scan it m ps s = Decoded v ->
  exists ms, v = JObj (dict_of_pairs ms).
Proof.
  revert m ps; induction s as [|c s IH]; intros m ps Hr; cbn [scan].
  - unfold finish.
    destruct (lex_end m) as [ts|]; [|discriminate].
    destruct (feed it m ps ts) as [q|e] eqn:E; [|discriminate].
    pose proof (feed_rooted_dict it ts _ ps q Hr E) as Hq.
    destruct q as [[|f st] e]; try discriminate.
    destruct e; try discriminate.
    intros H; injection H as <-.
    destruct Hq as [H | [ms H]]; [discriminate H|].
    injection H as ->; eauto.
  - destruct (lex_char m c) as [[ts m']|]; [|discriminate].
    destruct (feed it m ps ts) as [q|e] eqn:E; [|discriminate].
    apply IH; exact (feed_rooted_dict it ts _ ps q Hr E).
Qed.

(** The object a brace-delimited text decodes to has distinct keys. *)
Lemma loads_brace_distinct (it : interpreter) (s : pystr) (d : dict) :
  loads it (LBRACE :: s) = Decoded (JObj d) -> distinct_keys d.
Proof.
  rewrite loads_brace; intros E.
  assert (Hr : rooted_dict ([FObj [] None], EKeyOrEnd)) by (left; reflexivity).
  destruct (scan_rooted_dict it s _ _ _ Hr E) as [ms H].
  injection H as ->; apply dict_of_pairs_distinct.
Qed.

(** What [_extract_profile_json] returns, when it returns a payload. *)
Lemma extract_profile_json_origin (text : pystr) (d : dict) (w w' : world) :
  _extract_profile_json text w = (Ok (Some d), w') ->
  w' = w /\
  exists pre ws body post,
    text = pre ++ USER_DATA_JSON ++ ws ++ LBRACE :: body ++ RBRACE :: post /\
    forallb isspace ws = true /\ no_rbrace body = true /\
    loads (interp w) (LBRACE :: body ++ [RBRACE]) = Decoded (JObj d).
Proof.
  unfold _extract_profile_json.
  destruct (Re.search text) as [m|] eqn:Hs; [|discriminate].
  unfold bind at 1, get_interpreter; cbv beta iota.
  destruct (search_Some text m Hs) as (pre & rest & -> & Hm & _).
  destruct (match_here_Some rest m Hm)
    as (ws & body & post & -> & E0 & E1 & Hw & Hb).
  rewrite E1.
  destruct (loads (interp w) (LBRACE :: body ++ [RBRACE])) as [v|[]] eqn:Hl;
    try discriminate.
  destruct (loads_brace_object _ _ _ Hl) as [d' ->].
  unfold ret; cbn [as_dict]; intros E; injection E as <- <-.
  split; [reflexivity|].
  rewrite E0; exists pre, ws, body, post.
  split; [|auto].
  rewrite <- !app_assoc; cbn [app]; rewrite <- app_assoc; reflexivity.
Qed.

End DecodedKeys.

(** ** Relations that every step of a handler keeps *)

Section Invariant.

Variable R : world -> world -> Prop.
Hypothesis R_refl : forall w, R w w.
Hypothesis R_trans : forall w1 w2 w3, R w1 w2 -> R w2 w3 -> R w1 w3.

Lemma always_ret {A} (a : A) : always R (ret a).
Proof. intros w; apply R_refl. Qed.

Lemma always_bind {A B} (m : M A) (k : A -> M B) :
  always R m -> (forall a, always R (k a)) -> always R (bind m k).
Proof.
  intros Hm Hk w; unfold bind; specialize (Hm w).
  destruct (m w) as [[a|e] w1]; cbn [snd] in *; [|exact Hm].
  eapply R_trans; [exact Hm | apply Hk].
Qed.

Lemma always_try {A} (m : M A) (h : exn -> M A) :
  always R m -> (forall e, always R (h e)) -> always R (try_except m h).
Proof.
  intros Hm Hh w; unfold try_except; specialize (Hm w).
  destruct (m w) as [[a|e] w1]; cbn [snd] in *; [exact Hm|].
  eapply R_trans; [exact Hm | apply Hh].
Qed.

(** *** The handlers, from their steps *)

Variable self : bot.
Variable uid : Z.

Hypothesis R_log : forall l w, R w (with_log l w).
Hypothesis R_outbox : forall o w, R w (with_outbox o w).
Hypothesis R_session : forall u w, R w (with_user_data u w).
Hypothesis R_trace :
  forall c w, store_call c = false -> R w (with_trace (trace w ++ [c]) w).
Hypothesis R_net_faults : forall f w, R w (with_net_faults f w).
Hypothesis R_conv : forall who m, always R (_log_conversation self uid who m).
Hypothesis R_load : always R (_load_profile self uid).
Hypothesis R_save :
  forall d plan, distinct_keys d ->
    always R (bind (alloc d)
                (fun obj => save_new_plan_and_profile self uid obj plan)).

Lemma always_logger_info (site : log_site) : always R (logger_info site).
Proof. intros w; apply R_log. Qed.

Lemma always_logger_error (site : log_site) : always R (logger_error site).
Proof. intros w; apply R_log. Qed.

Lemma always_net_call (c : call) :
  store_call c = false -> always R (net_call c).
Proof.
  intros Hc w; unfold net_call.
  destruct (next_fault (net_faults w)) as [[|] rest]; cbn [snd];
    (eapply R_trans; [apply (R_trace c w Hc) | apply R_net_faults]).
Qed.

Lemma always_reply_text (text : pystr) : always R (reply_text text).
Proof.
  unfold reply_text; apply always_bind.
  - apply always_net_call; reflexivity.
  - intros _ w; apply R_outbox.
Qed.

Lemma always_start_chat : always R start_chat.
Proof.
  intros w; unfold start_chat; cbn [snd].
  eapply R_trans; [apply (R_trace StartChat w eq_refl) | apply R_session].
Qed.

Lemma always_send_message (e : engine) (text : pystr) :
  always R (send_message_async e text).
Proof.
  intros w; unfold send_message_async.
  destruct (e (history w) text) as [answer|]; cbn [snd].
  - eapply R_trans; [apply (R_trace (SendMessage text) w eq_refl) | apply R_session].
  - apply (R_trace (SendMessage text) w eq_refl).
Qed.

Lemma always_on_error : always R on_error.
Proof.
  unfold on_error; apply always_bind;
    [apply always_logger_error | intros _; apply always_reply_text].
Qed.

Lemma always_extract_profile_json (text : pystr) :
  always R (_extract_profile_json text).
Proof.
  unfold _extract_profile_json.
  destruct (Re.search text) as [m|]; [|apply always_ret].
  apply always_bind; [intros w; apply R_refl | intros it].
  destruct (loads it (Re.group1 m)) as [v|[]];
    [ apply always_ret
    | apply always_bind; [apply always_logger_error | intros _; apply always_ret]
    | intros w; apply R_refl
    | intros w; apply R_refl ].
Qed.

Lemma always_deliver (ai : pystr) : always R (deliver self uid ai).
Proof.
  unfold deliver.
  destruct (contains END_OF_PLAN ai); [|apply always_reply_text].
  intros w; unfold bind at 1.
  pose proof (always_extract_profile_json ai w) as Hx.
  destruct (_extract_profile_json ai w) as [[[d|]|e] w1] eqn:E; cbn [snd] in Hx.
  - destruct (extract_profile_json_origin ai d w w1 E)
      as (-> & pre & ws & body & post & _ & _ & _ & Hl).
    apply loads_brace_distinct in Hl.
    destruct d as [|kv d]; [apply always_reply_text|].
    pose proof (R_save (kv :: d) (_extract_plan_text ai) Hl w) as Hs.
    unfold bind at 1 in Hs; unfold bind at 1.
    unfold alloc at 1 in Hs; unfold alloc at 1.
    cbv beta iota in Hs |- *.
    unfold bind at 1; cbv zeta.
    match goal with
    | |- context [save_new_plan_and_profile ?a ?b ?c ?p ?x] =>
        change (save_new_plan_and_profile self uid (length (heap w))
                  (_extract_plan_text ai) (with_heap (heap w ++ [kv :: d]) w))
          with (save_new_plan_and_profile a b c p x) in Hs;
        destruct (save_new_plan_and_profile a b c p x) as [[[]|e] w2]
    end;
      cbn [snd] in Hs |- *; [|exact Hs].
    eapply R_trans; [exact Hs | apply always_reply_text].
  - eapply R_trans; [exact Hx | apply always_reply_text].
  - exact Hx.
Qed.

(** Whatever the engine answers and whatever fails, a turn is made of such
    steps only. *)
Lemma always_main_chat_handler (msg : pystr) :
  always R (main_chat_handler self uid msg).
Proof.
  unfold main_chat_handler.
  destruct (model self) as [e|]; [|apply always_reply_text].
  apply always_bind; [apply always_logger_info | intros _].
  apply always_bind; [apply R_conv | intros _].
  apply always_try; [|intros _; apply always_on_error].
  apply always_bind; [apply always_net_call; reflexivity | intros _].
  apply always_bind; [intros w; apply R_refl | intros [h|]].
  - apply always_bind; [apply always_send_message | intros ai].
    apply always_bind; [apply R_conv | intros _; apply always_deliver].
  - apply always_bind.
    + apply always_bind; [apply always_start_chat | intros _].
      apply always_bind; [apply R_load | intros _; apply always_send_message].
    + intros ai.
      apply always_bind; [apply R_conv | intros _; apply always_deliver].
Qed.

Lemma always_reset_chat : always R reset_chat.
Proof.
  unfold reset_chat; apply always_bind;
    [intros w; apply R_session | intros _; apply always_reply_text].
Qed.

End Invariant.

(** Unfolds a save that passes the guard, on a state given by its fields. *)
Ltac expand_save Hs Hp :=
  unfold save_new_plan_and_profile, bind at 1, deref at 1;
  cbv beta iota; wsimpl;
  apply is_empty_false in Hp; rewrite Hs, Hp; cbn [negb orb];
  unfold bind, datetime_now, copy, setitem, try_except, deref, users_upsert,
    plan_history_close, plan_history_insert, db_call, logger_info,
    logger_error, upsert_user;
  wsimpl;
  rewrite update_nth_last, !nth_middle;
  unfold row_user_id; rewrite dict_get_set.

(** ** A turn and the rows of other users *)

Section OtherUsers.

(** What a save does to the tables other than [plan_history]. *)
Lemma save_rest (self : bot) (uid : Z) (l : nat) (plan : pystr) (w : world) :
  let w' := snd (save_new_plan_and_profile self uid l plan w) in
  conversation_history (db w') = conversation_history (db w) /\
  (users (db w') = users (db w) \/
   users (db w') =
     upsert_rows uid (dict_set (nth l (heap w) []) (py "user_id") (JInt uid))
       (users (db w))).
Proof.
  cbv zeta.
  destruct (negb (supabase self) || is_empty (nth l (heap w) [])) eqn:E.
  - rewrite save_skip by exact E; auto.
  - apply orb_false_iff in E; destruct E as [Es Ep].
    apply negb_false_iff in Es; apply is_empty_false in Ep.
    remember (save_new_plan_and_profile self uid l plan w) as r eqn:Er.
    revert Er.
    destruct w as [t h ud tr ob lg dbf nf ts].
    expand_save Es Ep.
    split_faults; intros ->; wsimpl; auto.
Qed.

(** An upsert for one user leaves the rows selected for another as they
    were. *)
Lemma upsert_other (u uid : Z) (payload : dict) (us : list dict) :
  u <> uid -> distinct_keys payload -> row_user_id payload = Some uid ->
  filter (has_user_id u) (upsert_rows uid payload us) =
  filter (has_user_id u) us.
Proof.
  intros Hne Hd Hid.
  assert (Hno : forall r, row_user_id r = Some uid -> has_user_id u r = false).
  { intros r Hr; unfold has_user_id; rewrite Hr.
    destruct (Z.eqb uid u) eqn:E; [apply Z.eqb_eq in E; congruence | reflexivity]. }
  induction us as [|r us IH]; simpl.
  - rewrite (Hno payload Hid); reflexivity.
  - destruct (has_user_id uid r) eqn:E; simpl.
    + assert (Hm : row_user_id (merge_row r payload) = Some uid).
      { unfold row_user_id in *.
        destruct (dict_get payload (py "user_id")) as [[]|] eqn:G;
          try discriminate Hid.
        rewrite (merge_row_payload _ _ _ _ Hd G); exact Hid. }
      assert (Hr : row_user_id r = Some uid).
      { unfold has_user_id in E; destruct (row_user_id r) as [z|]; [|discriminate].
        apply Z.eqb_eq in E; congruence. }
      rewrite (Hno _ Hm), (Hno _ Hr); reflexivity.
    + rewrite IH; reflexivity.
Qed.

Lemma log_grew_refl (uid : Z) (w : world) : log_grew uid w w.
Proof. exists []; split; [symmetry; apply app_nil_r | constructor]. Qed.

Lemma turn_of_same_db (uid : Z) (w w' : world) :
  db w' = db w -> turn_of uid w w'.
Proof.
  intros H; split.
  - exists []; rewrite H; split; [symmetry; apply app_nil_r | constructor].
  - intros u _; rewrite H; auto.
Qed.

Lemma turn_of_trans (uid : Z) (w1 w2 w3 : world) :
  turn_of uid w1 w2 -> turn_of uid w2 w3 -> turn_of uid w1 w3.
Proof.
  intros [(r1 & E1 & F1) K1] [(r2 & E2 & F2) K2]; split.
  - exists (r1 ++ r2); split.
    + rewrite E2, E1, app_assoc; reflexivity.
    + apply Forall_app; auto.
  - intros u Hu; destruct (K1 u Hu) as [A1 B1], (K2 u Hu) as [A2 B2].
    split; congruence.
Qed.

Lemma log_conversation_turn_of
    (self : bot) (uid : Z) (who message : pystr) :
  always (turn_of uid) (_log_conversation self uid who message).
Proof.
  intros w; unfold _log_conversation.
  destruct (supabase self); cbn [negb]; [|apply turn_of_same_db; reflexivity].
  unfold try_except, conversation_history_insert, db_call, logger_error.
  destruct w as [t h ud tr ob lg dbf nf ts].
  destruct dbf as [|[|] dbf]; cbn [next_fault]; wsimpl;
    try (apply turn_of_same_db; reflexivity);
    (split; [eexists; split; [reflexivity | repeat constructor]
            | intros u _; split; reflexivity]).
Qed.

Lemma save_turn_of (self : bot) (uid : Z) (d : dict) (plan : pystr) :
  distinct_keys d ->
  always (turn_of uid)
    (bind (alloc d) (fun obj => save_new_plan_and_profile self uid obj plan)).
Proof.
  intros Hd w; unfold bind, alloc; cbv beta iota.
  set (w2 := with_heap (heap w ++ [d]) w).
  assert (Hn : nth (length (heap w)) (heap w2) [] = d)
    by (unfold w2; wsimpl; apply nth_middle).
  destruct (save_rest self uid (length (heap w)) plan w2) as [Hc Hu].
  pose proof (save_history self uid (length (heap w)) plan w2) as Hp.
  cbv zeta in Hp; rewrite Hn in Hu.
  change (db w2) with (db w) in *.
  change (times w2) with (times w) in *.
  split.
  - exists []; rewrite Hc; split; [symmetry; apply app_nil_r | constructor].
  - intros u Hne; split.
    + unfold select_user; destruct Hu as [-> | ->]; [reflexivity|].
      apply upsert_other;
        [exact Hne | apply dict_set_nodup; exact Hd | apply row_user_id_set].
    + destruct Hp as [-> | [-> | ->]]; [reflexivity | |].
      * apply rows_of_closed; exact Hne.
      * unfold rows_of; rewrite filter_app.
        fold (rows_of u (map (close_row uid (hd 0%Z (times w)))
                           (plan_history (db w)))).
        rewrite rows_of_closed by exact Hne; cbn [filter new_row user_id].
        destruct (Z.eqb uid u) eqn:E; [apply Z.eqb_eq in E; congruence|].
        apply app_nil_r.
Qed.

(** X5: a turn of one user, whatever the engine answers and whatever fails,
    only appends to the conversation log, and only rows of that user; the
    profile row and the plan rows of every other user are as they were. *)
Theorem turn_leaves_other_users_alone
    (self : bot) (uid : Z) (msg : pystr) (w : world) (u : Z) :
  u <> uid ->
  let w' := snd (main_chat_handler self uid msg w) in
  (exists rows,
     conversation_history (db w') = conversation_history (db w) ++ rows /\
     Forall (fun r => conv_user_id r = uid) rows) /\
  select_user u (db w') = select_user u (db w) /\
  rows_of u (plan_history (db w')) = rows_of u (plan_history (db w)).
Proof.
  intros Hne w'.
  assert (H : turn_of uid w w').
  { apply (always_main_chat_handler (turn_of uid)); intros;
      try (apply turn_of_same_db; reflexivity).
    - eapply turn_of_trans; eassumption.
    - apply log_conversation_turn_of.
    - intros w0; apply turn_of_same_db, load_profile_db.
    - apply save_turn_of; assumption. }
  destruct H as [Hl Ho]; split; [exact Hl | exact (Ho u Hne)].
Qed.

End OtherUsers.

Lemma turn_leaves_other_users_alone_witness :
  select_user 7%Z
    (db (snd (main_chat_handler (bot_answering alex_plan_answer) 8%Z
                (py "a plan please") (fresh alex_stored)))) = [alex_row].
Proof.
  refine (proj1 (proj2 (turn_leaves_other_users_alone
                          (bot_answering alex_plan_answer) 8%Z
                          (py "a plan please") (fresh alex_stored) 7%Z _)));
    discriminate.
Defined.

(** ** A bot without a store client *)

Section NoStoreClient.

Lemma store_untouched_trans (w1 w2 w3 : world) :
  store_untouched w1 w2 -> store_untouched w2 w3 -> store_untouched w1 w3.
Proof. unfold store_untouched; intros [A B] [C D]; split; congruence. Qed.

Lemma store_untouched_trace (c : call) (w : world) :
  store_call c = false ->
  store_untouched w (with_trace (trace w ++ [c]) w).
Proof.
  intros Hc; split; [reflexivity|].
  unfold store_calls; wsimpl; rewrite filter_app; cbn [filter]; rewrite Hc.
  apply app_nil_r.
Qed.

(** With no store client a turn asks nothing of the store. *)
Lemma handler_store_untouched (self : bot) (uid : Z) (msg : pystr) :
  supabase self = false ->
  always store_untouched (main_chat_handler self uid msg).
Proof.
  intros Hs.
  apply (always_main_chat_handler store_untouched);
    try (intros; split; reflexivity).
  - apply store_untouched_trans.
  - intros c w; apply store_untouched_trace.
  - intros who m w; unfold _log_conversation; rewrite Hs; split; reflexivity.
  - intros w; unfold _load_profile; rewrite Hs; split; reflexivity.
  - intros d plan _ w; unfold bind, alloc; cbv beta iota.
    rewrite save_skip by (rewrite Hs; reflexivity).
    split; reflexivity.
Qed.

(** X6: start-up.  The script starts polling exactly when both tokens are
    set and the model could be configured; the store settings play no part
    in that.  A bot that polls always has its model, and it has a store
    client exactly when both store settings are set and the client could be
    created.  A bot that polls without a store client handles its turns
    without asking anything of the store. *)
Theorem polling_needs_keys_and_model_not_store
    (env : Startup.environ) (lib : Startup.libraries) :
  let keys_set :=
    negb (Startup.unset (Startup.TELEGRAM_TOKEN env)) &&
    negb (Startup.unset (Startup.GEMINI_API_KEY env)) in
  let store_set :=
    negb (Startup.unset (Startup.SUPABASE_URL env)) &&
    negb (Startup.unset (Startup.SUPABASE_SERVICE_KEY env)) in
  ((exists b, fst (Startup.main env lib) = Some b) <->
   keys_set = true /\ Startup.generative_model lib <> None) /\
  (forall b, fst (Startup.main env lib) = Some b ->
     (exists e, model b = Some e /\ Startup.generative_model lib = Some e) /\
     supabase b = store_set && Startup.create_client lib /\
     (supabase b = false ->
      forall uid msg w,
        store_untouched w (snd (main_chat_handler b uid msg w)))).
Proof.
  cbv zeta; unfold Startup.main, Startup.__init__, Startup.run.
  destruct (Startup.unset (Startup.TELEGRAM_TOKEN env)),
           (Startup.unset (Startup.GEMINI_API_KEY env));
    cbn [orb andb negb fst snd];
    try (split; [split; [intros [b H]; discriminate H
                        | intros [H _]; discriminate H]
                | intros b H; discriminate H]).
  destruct (Startup.generative_model lib) as [e|]; cbn [fst snd model].
  - split.
    + split; [intros _; split; [reflexivity | discriminate] | eauto].
    + intros b H; injection H as <-; cbn [model supabase].
      split; [eauto|].
      split.
      * destruct (Startup.unset (Startup.SUPABASE_URL env)),
                 (Startup.unset (Startup.SUPABASE_SERVICE_KEY env)),
                 (Startup.create_client lib); reflexivity.
      * intros Hs uid msg w.
        apply (handler_store_untouched _ uid msg); exact Hs.
  - split.
    + split; [intros [b H]; discriminate H | intros [_ H]; congruence].
    + intros b H; discriminate H.
Qed.

Lemma polling_needs_keys_and_model_not_store_witness :
  exists b,
    fst (Startup.main
           {| Startup.TELEGRAM_TOKEN := Some (py "token");
              Startup.GEMINI_API_KEY := Some (py "key");
              Startup.SUPABASE_URL := None;
              Startup.SUPABASE_SERVICE_KEY := Some (py "service") |}
           {| Startup.create_client := true;
              Startup.generative_model := Some (fun _ _ => Some plain_answer) |})
      = Some b /\
    supabase b = false /\
    forall uid msg w, store_untouched w (snd (main_chat_handler b uid msg w)).
Proof.
  eexists; split; [reflexivity|]; split; [reflexivity|].
  exact (proj2 (proj2 (proj2 (polling_needs_keys_and_model_not_store
                                {| Startup.TELEGRAM_TOKEN := Some (py "token");
                                   Startup.GEMINI_API_KEY := Some (py "key");
                                   Startup.SUPABASE_URL := None;
                                   Startup.SUPABASE_SERVICE_KEY :=
                                     Some (py "service") |}
                                {| Startup.create_client := true;
                                   Startup.generative_model :=
                                     Some (fun _ _ => Some plain_answer) |})
                                _ eq_refl)) eq_refl).
Defined.

End NoStoreClient.

(** ** A turn that ends in a plan *)

Section PlanTurn.

(** A payload that is returned in one state is returned in every state
    with the same limits, and the state is left as it is. *)
Lemma extract_returns_run (text : pystr) (d : dict) (w w1 : world) :
  fst (_extract_profile_json text w) = Ok (Some d) ->
  interp w1 = interp w ->
  _extract_profile_json text w1 = (Ok (Some d), w1).
Proof.
  intros H Hi.
  rewrite extract_profile_json_fst, <- Hi, <- extract_profile_json_fst in H.
  pose proof (run_pair _ _ _ H) as E.
  destruct (extract_profile_json_origin text d w1 _ E) as (Hw & _).
  rewrite Hw in E; exact E.
Qed.

(** A reply that the platform accepts. *)
Lemma reply_text_ok (text : pystr) (w : world) :
  fst (next_fault (net_faults w)) = false ->
  exists w',
    reply_text text w = (Ok tt, w') /\
    outbox w' = outbox w ++ [text] /\ db w' = db w /\
    user_data w' = user_data w /\ log w' = log w /\ heap w' = heap w.
Proof.
  unfold reply_text, bind, net_call.
  destruct (next_fault (net_faults w)) as [[|] rest]; cbn [fst];
    [discriminate|].
  intros _; eexists; split; [reflexivity|]; wsimpl; repeat split.
Qed.

(** A save changes neither the chat nor the session nor the faults of the
    platform. *)
Lemma save_frame (self : bot) (uid : Z) (l : nat) (plan : pystr) (w : world) :
  let w' := snd (save_new_plan_and_profile self uid l plan w) in
  user_data w' = user_data w /\ outbox w' = outbox w /\
  net_faults w' = net_faults w.
Proof.
  cbv zeta.
  destruct (negb (supabase self) || is_empty (nth l (heap w) [])) eqn:E.
  - rewrite save_skip by exact E; auto.
  - apply orb_false_iff in E; destruct E as [Es Ep].
    apply negb_false_iff in Es; apply is_empty_false in Ep.
    exact (proj1 (proj2 (proj2 (save_run self uid l plan w Es Ep)))).
Qed.

(** The delivery of an answer that carries a plan and a payload: the payload
    becomes a [dict] object, the save runs on it, the plan text is replied. *)
Lemma deliver_plan (self : bot) (uid : Z) (ai : pystr) (d : dict) (w : world) :
  contains END_OF_PLAN ai = true ->
  fst (_extract_profile_json ai w) = Ok (Some d) -> d <> [] ->
  deliver self uid ai w =
  reply_text (_extract_plan_text ai)
    (snd (save_new_plan_and_profile self uid (length (heap w))
            (_extract_plan_text ai) (with_heap (heap w ++ [d]) w))).
Proof.
  intros Hc Hr Hd; unfold deliver; rewrite Hc.
  rewrite (bind_ok _ _ w w _ (extract_returns_run ai d w w Hr eq_refl)).
  destruct d as [|kv d]; [congruence|]; cbv zeta.
  unfold bind at 1, alloc at 1; cbv beta iota.
  rewrite (bind_ok _ _ _ _ tt (run_pair _ _ tt (save_ok self uid _ _ _))).
  assert (Hstrip : strip (_extract_plan_text ai) = _extract_plan_text ai)
    by (unfold _extract_plan_text; cbv zeta; apply strip_idem).
  rewrite Hstrip; reflexivity.
Qed.

(** X7: an answer with the terminal marker and a payload is answered with
    the plan text, whether or not there is a store client and whatever the
    store does.  When [_extract_profile_json] returns a non-empty payload
    for the answer under the limits of the interpreter (so [json.loads]
    raises nothing on the span) and the chat platform accepts the typing
    indicator and the reply, the turn returns normally and the user receives
    [_extract_plan_text] of the answer, once. *)
Theorem plan_is_replied_whatever_the_store_does
    (self : bot) (e : engine) (uid : Z) (msg : pystr) (w : world)
    (ai : pystr) (d : dict) :
  model self = Some e ->
  e (history w) (msg ++ reminder_for w) = Some ai ->
  contains END_OF_PLAN ai = true ->
  fst (_extract_profile_json ai w) = Ok (Some d) -> d <> [] ->
  net_up 2 w ->
  fst (main_chat_handler self uid msg w) = Ok tt /\
  outbox (snd (main_chat_handler self uid msg w)) =
    outbox w ++ [_extract_plan_text ai].
Proof.
  intros Hm He Hc Hr Hd Hup.
  apply net_up_two in Hup; destruct Hup as [Hup1 Hup2].
  destruct (handler_run self e uid msg w Hm)
    as (w1 & _ & Ho & Hn & Hi &
        [(Hf & _) | [(_ & _ & Hnone & _) | (ai' & _ & _ & Hai & ->)]]).
  - rewrite Hup1 in Hf; discriminate.
  - rewrite He in Hnone; discriminate.
  - rewrite He in Hai; injection Hai as <-.
    assert (Hr1 : fst (_extract_profile_json ai w1) = Ok (Some d))
      by (rewrite (extract_returns_run ai d w w1 Hr Hi); reflexivity).
    unfold try_except; rewrite (deliver_plan self uid ai d w1 Hc Hr1 Hd).
    set (w2 := with_heap (heap w1 ++ [d]) w1).
    destruct (save_frame self uid (length (heap w1)) (_extract_plan_text ai) w2)
      as (_ & Ho3 & Hn3).
    destruct (reply_text_ok (_extract_plan_text ai)
                (snd (save_new_plan_and_profile self uid (length (heap w1))
                        (_extract_plan_text ai) w2)))
      as (w4 & -> & Ho4 & _).
    { rewrite Hn3; unfold w2; wsimpl; rewrite Hn; exact Hup2. }
    cbn [fst snd]; split; [reflexivity|].
    rewrite Ho4, Ho3; unfold w2; wsimpl; rewrite Ho; reflexivity.
Qed.

Lemma plan_is_replied_whatever_the_store_does_witness :
  outbox (snd (main_chat_handler (bot_answering alex_plan_answer) 7%Z
                 (py "a plan please")
                 (with_db_faults [true; true; true; true]
                    (fresh alex_stored)))) =
  [py "1. Sleep well."].
Proof.
  assert (Hd : alex <> []) by discriminate.
  exact (proj2 (plan_is_replied_whatever_the_store_does
                  (bot_answering alex_plan_answer) (fun _ _ => Some alex_plan_answer)
                  7%Z (py "a plan please")
                  (with_db_faults [true; true; true; true] (fresh alex_stored))
                  alex_plan_answer alex eq_refl eq_refl eq_refl eq_refl Hd
                  eq_refl)).
Defined.

End PlanTurn.

(** ** A turn with the store and the platform up *)

Section StoredTurn.

(** With a store client, no store fault ahead and the typing indicator
    accepted, a turn reaches the delivery of the answer with both messages in
    the conversation log and the exchange in the session. *)
Lemma stored_turn_run
    (self : bot) (e : engine) (uid : Z) (msg : pystr) (w : world) (ai : pystr) :
  model self = Some e -> supabase self = true ->
  db_faults w = [] -> fst (next_fault (net_faults w)) = false ->
  e (history w) (msg ++ reminder_for w) = Some ai ->
  exists w1,
    main_chat_handler self uid msg w =
      try_except (deliver self uid ai) (fun _ => on_error) w1 /\
    users (db w1) = users (db w) /\
    plan_history (db w1) = plan_history (db w) /\
    conversation_history (db w1) =
      conversation_history (db w)
      ++ [{| conv_user_id := uid; sender := py "user"; message_text := msg |};
          {| conv_user_id := uid; sender := py "ai"; message_text := ai |}] /\
    user_data w1 = Some (history w ++ [(msg ++ reminder_for w, ai)]) /\
    outbox w1 = outbox w /\ log w1 = log w ++ [LogInfo AtChatHandler] /\
    db_faults w1 = [] /\ times w1 = times w /\
    net_faults w1 = snd (next_fault (net_faults w)) /\
    interp w1 = interp w.
Proof.
  intros Hm Hs Hdb Hnet He.
  unfold main_chat_handler; rewrite Hm.
  destruct w as [t h ud tr ob lg dbf nf ts].
  unfold history, reminder_for in *; wsimpl; subst dbf.
  unfold _log_conversation, _load_profile; rewrite Hs; cbn [negb].
  unfold logger_info, send_chat_action, net_call, get_chat_session,
    start_chat, users_select, plan_history_select_open,
    conversation_history_insert, db_call, send_message_async, logger_error,
    history, bind, try_except, ret.
  wsimpl; cbn [next_fault]; wsimpl.
  destruct (next_fault nf) as [[|] rest]; cbn [fst snd] in *;
    [discriminate Hnet|].
  wsimpl.
  destruct ud as [hist|]; wsimpl.
  - rewrite He; wsimpl; cbn [next_fault]; wsimpl.
    eexists; split; [reflexivity|]; wsimpl.
    rewrite <- app_assoc; repeat split.
  - repeat (progress (cbn [next_fault]; wsimpl)).
    unfold select_user; wsimpl.
    destruct (filter (has_user_id uid) (users t)) as [|row rows];
      repeat (progress (cbn [next_fault]; wsimpl));
      rewrite He; repeat (progress (cbn [next_fault]; wsimpl));
      (eexists; split; [reflexivity|]); wsimpl;
      rewrite <- !app_assoc; repeat split.
Qed.

(** X8: the whole of a plan turn.  With a store client, no store fault
    ahead and the chat platform accepting the typing indicator and the reply,
    an answer with the terminal marker for which [_extract_profile_json]
    returns a non-empty payload under the limits of the interpreter has these
    effects, and the turn returns normally: the user receives the plan text;
    the user message and then the answer are appended to the conversation
    log; the one open plan of the user is a new row with that same plan text,
    the decoded payload and the time of the clock; the profile row selected
    for the user holds every field of the payload; the exchange is added to
    the session. *)
Theorem plan_turn_stores_what_it_replies
    (self : bot) (e : engine) (uid : Z) (msg : pystr) (w : world)
    (ai : pystr) (d : dict) :
  model self = Some e -> supabase self = true ->
  db_faults w = [] -> net_up 2 w ->
  e (history w) (msg ++ reminder_for w) = Some ai ->
  contains END_OF_PLAN ai = true ->
  fst (_extract_profile_json ai w) = Ok (Some d) -> d <> [] ->
  let w' := snd (main_chat_handler self uid msg w) in
  let plan := _extract_plan_text ai in
  fst (main_chat_handler self uid msg w) = Ok tt /\
  outbox w' = outbox w ++ [plan] /\
  conversation_history (db w') =
    conversation_history (db w)
    ++ [{| conv_user_id := uid; sender := py "user"; message_text := msg |};
        {| conv_user_id := uid; sender := py "ai"; message_text := ai |}] /\
  open_rows uid (db w') =
    [{| user_id := uid; plan_text := plan; profile_json := d;
        start_date := hd 0%Z (times w); end_date := None |}] /\
  (exists row rest,
     select_user uid (db w') = row :: rest /\
     row_user_id row = Some uid /\
     forall k v, k <> py "user_id" -> dict_get d k = Some v ->
                 dict_get row k = Some v) /\
  user_data w' = Some (history w ++ [(msg ++ reminder_for w, ai)]).
Proof.
  intros Hm Hs Hdb Hup He Hc Hr Hd; cbv zeta.
  apply net_up_two in Hup; destruct Hup as [Hup1 Hup2].
  destruct (stored_turn_run self e uid msg w ai Hm Hs Hdb Hup1 He)
    as (w1 & -> & Hu1 & Hp1 & Hc1 & Hs1 & Ho1 & _ & Hf1 & Ht1 & Hn1 & Hi1).
  pose proof (extract_returns_run ai d w w1 Hr Hi1) as Hx1.
  assert (Hr1 : fst (_extract_profile_json ai w1) = Ok (Some d))
    by (rewrite Hx1; reflexivity).
  unfold try_except; rewrite (deliver_plan self uid ai d w1 Hc Hr1 Hd).
  set (plan := _extract_plan_text ai).
  set (w2 := with_heap (heap w1 ++ [d]) w1).
  assert (Hnth : nth (length (heap w1)) (heap w2) [] = d)
    by (unfold w2; wsimpl; apply nth_middle).
  assert (Hp2 : nth (length (heap w1)) (heap w2) [] <> [])
    by (rewrite Hnth; exact Hd).
  assert (Hup3 : store_up 3 w2)
    by (unfold store_up, w2; wsimpl; rewrite Hf1; reflexivity).
  destruct (save_complete self uid _ plan w2 Hs Hp2 Hup3) as (_ & Hus & _).
  destruct (save_exactly_one_open self uid _ plan w2 Hs Hp2 Hup3)
    as (_ & _ & _ & _ & Hopen).
  destruct (save_rest self uid (length (heap w1)) plan w2) as [Hconv _].
  destruct (save_frame self uid (length (heap w1)) plan w2)
    as (Hs3 & Ho3 & Hn3).
  cbv zeta in Hus, Hopen.
  set (w3 := snd (save_new_plan_and_profile self uid (length (heap w1)) plan w2))
    in *.
  destruct (reply_text_ok plan w3) as (w4 & -> & Ho4 & Hd4 & Hs4 & _).
  { rewrite Hn3; unfold w2; wsimpl; rewrite Hn1; exact Hup2. }
  cbn [fst snd]; rewrite Hd4.
  split; [reflexivity|].
  split; [rewrite Ho4, Ho3; unfold w2; wsimpl; rewrite Ho1; reflexivity|].
  split; [rewrite Hconv; unfold w2; wsimpl; exact Hc1|].
  split.
  { rewrite Hopen; unfold new_row; rewrite Hnth.
    unfold w2; wsimpl; rewrite Ht1; reflexivity. }
  split.
  { rewrite Hnth in Hus.
    destruct (upsert_select uid (dict_set d (py "user_id") (JInt uid))
                (users (db w2))) as (row & rest & Hsel & Hid & Hcols).
    - apply dict_set_nodup.
      destruct (extract_profile_json_origin ai d w1 w1 Hx1)
        as (_ & pre & ws & body & post & _ & _ & _ & Hl).
      exact (loads_brace_distinct _ _ _ Hl).
    - apply row_user_id_set.
    - exists row, rest; split; [|split; [exact Hid|]].
      + unfold select_user; rewrite Hus; exact Hsel.
      + intros k v Hk G; apply Hcols.
        rewrite dict_get_set_other by (intros E; apply Hk; symmetry; exact E).
        exact G. }
  rewrite Hs4, Hs3; unfold w2; wsimpl; exact Hs1.
Qed.

Lemma plan_turn_stores_what_it_replies_witness :
  open_rows 7%Z
    (db (snd (main_chat_handler (bot_answering alex_plan_answer) 7%Z
                (py "a plan please") (with_times [100%Z] (fresh no_tables))))) =
  [{| user_id := 7%Z; plan_text := py "1. Sleep well."; profile_json := alex;
      start_date := 100%Z; end_date := None |}].
Proof.
  assert (Hd : alex <> []) by discriminate.
  pose proof (plan_turn_stores_what_it_replies
                (bot_answering alex_plan_answer)
                (fun _ _ => Some alex_plan_answer) 7%Z (py "a plan please")
                (with_times [100%Z] (fresh no_tables)) alex_plan_answer alex
                eq_refl eq_refl eq_refl eq_refl eq_refl eq_refl eq_refl Hd)
    as H.
  cbv zeta in H; destruct H as (_ & _ & _ & H & _); exact H.
Defined.

End StoredTurn.

(** ** A turn that fails *)

Section FailedTurn.

(** The [except] branch when the platform accepts the reply. *)
Lemma on_error_ok (w : world) :
  fst (next_fault (net_faults w)) = false ->
  exists w',
    on_error w = (Ok tt, w') /\
    outbox w' = outbox w ++ [apology] /\ db w' = db w /\
    user_data w' = user_data w /\
    log w' = log w ++ [LogError AtChatHandler] /\ sent w' = sent w.
Proof.
  unfold on_error, reply_text, bind, net_call, logger_error, apology.
  wsimpl.
  destruct (next_fault (net_faults w)) as [[|] rest]; cbn [fst];
    [discriminate|].
  intros _; eexists; split; [reflexivity|]; wsimpl.
  unfold sent, sent_in; wsimpl; rewrite flat_map_app; cbn [flat_map app].
  rewrite app_nil_r; repeat split.
Qed.

(** A turn in which the typing indicator is refused, or the engine fails:
    how it reaches the [except] branch. *)
Lemma failed_turn_run
    (self : bot) (e : engine) (uid : Z) (msg : pystr) (w : world) :
  model self = Some e ->
  (fst (next_fault (net_faults w)) = true \/
   e (history w) (msg ++ reminder_for w) = None) ->
  exists w1,
    main_chat_handler self uid msg w = on_error w1 /\
    users (db w1) = users (db w) /\
    plan_history (db w1) = plan_history (db w) /\
    (conversation_history (db w1) = conversation_history (db w) \/
     conversation_history (db w1) =
       conversation_history (db w)
       ++ [{| conv_user_id := uid; sender := py "user"; message_text := msg |}]) /\
    outbox w1 = outbox w /\
    net_faults w1 = snd (next_fault (net_faults w)) /\
    (fst (next_fault (net_faults w)) = true ->
     user_data w1 = user_data w /\ sent w1 = sent w) /\
    (fst (next_fault (net_faults w)) = false ->
     user_data w1 = Some (history w) /\
     sent w1 = sent w ++ [msg ++ reminder_for w]).
Proof.
  intros Hm Hfail.
  unfold main_chat_handler; rewrite Hm.
  destruct w as [t h ud tr ob lg dbf nf ts].
  unfold history, reminder_for in *; wsimpl.
  unfold _log_conversation, _load_profile.
  unfold logger_info, send_chat_action, net_call, get_chat_session,
    start_chat, users_select, plan_history_select_open,
    conversation_history_insert, db_call, send_message_async, logger_error,
    history, bind, try_except, ret, sent, sent_in, select_user.
  wsimpl.
  assert (Hcase :
    fst (next_fault nf) = true \/
    (fst (next_fault nf) = false /\
     e match ud with Some h0 => h0 | None => [] end
       (msg ++ match ud with Some _ => reminder | None => reminder_first_turn end)
     = None)).
  { destruct (fst (next_fault nf)); [left; reflexivity|].
    destruct Hfail as [Hf | He]; [discriminate Hf | right; auto]. }
  clear Hfail.
  destruct (supabase self); cbn [negb]; wsimpl;
    destruct nf as [|[|] nf]; cbn [next_fault fst snd] in Hcase;
    destruct Hcase as [Hf | [_ He]]; try discriminate Hf;
    try (destruct ud as [hist|]; wsimpl);
    repeat first
      [ progress (cbn [next_fault fst snd]; wsimpl)
      | rewrite He
      | match goal with
        | |- context [next_fault ?f] => is_var f; destruct f as [|[|] ?]
        | |- context [match filter ?p ?l with _ => _ end] =>
            destruct (filter p l)
        end ];
    (eexists; split; [reflexivity|]); wsimpl;
    rewrite ?flat_map_app; cbn [flat_map app]; rewrite ?app_nil_r;
    repeat split; auto; try congruence.
Qed.

(** X9: a turn that cannot be answered.  When the chat platform refuses the
    typing indicator, or the engine fails on the message, and the platform
    then accepts a reply, the turn returns normally, the user receives the
    apology and nothing else, an error is logged last, and neither a profile
    nor a plan is touched; of the conversation only the user message may have
    been logged.  If it was the typing indicator, the engine was not asked
    and the session is as before; if it was the engine, the session exists
    afterwards and holds the dialogue as it was, without the failed
    message. *)
Theorem failed_turn_apologises
    (self : bot) (e : engine) (uid : Z) (msg : pystr) (w : world) :
  model self = Some e ->
  (fst (next_fault (net_faults w)) = true \/
   e (history w) (msg ++ reminder_for w) = None) ->
  fst (next_fault (snd (next_fault (net_faults w)))) = false ->
  let w' := snd (main_chat_handler self uid msg w) in
  fst (main_chat_handler self uid msg w) = Ok tt /\
  outbox w' = outbox w ++ [apology] /\
  (exists l, log w' = l ++ [LogError AtChatHandler]) /\
  users (db w') = users (db w) /\
  plan_history (db w') = plan_history (db w) /\
  (conversation_history (db w') = conversation_history (db w) \/
   conversation_history (db w') =
     conversation_history (db w)
     ++ [{| conv_user_id := uid; sender := py "user"; message_text := msg |}]) /\
  (fst (next_fault (net_faults w)) = true ->
   user_data w' = user_data w /\ sent w' = sent w) /\
  (fst (next_fault (net_faults w)) = false ->
   user_data w' = Some (history w) /\
   sent w' = sent w ++ [msg ++ reminder_for w]).
Proof.
  intros Hm Hfail Hup; cbv zeta.
  destruct (failed_turn_run self e uid msg w Hm Hfail)
    as (w1 & -> & Hu & Hp & Hc & Ho & Hn & H1 & H2).
  destruct (on_error_ok w1) as (w2 & -> & Ho2 & Hd2 & Hs2 & Hl2 & Hsent2).
  { rewrite Hn; exact Hup. }
  cbn [fst snd]; rewrite Hd2, Ho2, Hs2, Hsent2, Ho.
  repeat split; eauto; try (apply H1; assumption); try (apply H2; assumption).
Qed.

Lemma failed_turn_apologises_witness :
  outbox (snd (main_chat_handler
                 {| supabase := true; model := Some (fun _ _ => None) |}
                 7%Z (py "hi") (fresh alex_stored))) = [apology] /\
  user_data (snd (main_chat_handler
                    {| supabase := true; model := Some (fun _ _ => None) |}
                    7%Z (py "hi") (fresh alex_stored))) = Some [].
Proof.
  pose proof (failed_turn_apologises
                {| supabase := true; model := Some (fun _ _ => None) |}
                (fun _ _ => None) 7%Z (py "hi") (fresh alex_stored)
                eq_refl (or_intror eq_refl) eq_refl) as H.
  cbv zeta in H; destruct H as (_ & Ho & _ & _ & _ & _ & _ & Hs).
  split; [exact Ho | exact (proj1 (Hs eq_refl))].
Defined.

End FailedTurn.

(** ** The chat session from turn to turn *)

Section Session.

(** A turn in which the engine answers: how it reaches the delivery,
    whatever the store does. *)
Lemma answered_turn_run
    (self : bot) (e : engine) (uid : Z) (msg : pystr) (w : world) (ai : pystr) :
  model self = Some e ->
  fst (next_fault (net_faults w)) = false ->
  e (history w) (msg ++ reminder_for w) = Some ai ->
  exists w1,
    main_chat_handler self uid msg w =
      try_except (deliver self uid ai) (fun _ => on_error) w1 /\
    user_data w1 = Some (history w ++ [(msg ++ reminder_for w, ai)]).
Proof.
  intros Hm Hnet He.
  unfold main_chat_handler; rewrite Hm.
  destruct w as [t h ud tr ob lg dbf nf ts].
  unfold history, reminder_for in *; wsimpl.
  unfold _log_conversation, _load_profile.
  unfold logger_info, send_chat_action, net_call, get_chat_session,
    start_chat, users_select, plan_history_select_open,
    conversation_history_insert, db_call, send_message_async, logger_error,
    history, bind, try_except, ret, select_user.
  wsimpl.
  destruct (supabase self); cbn [negb]; wsimpl;
    destruct nf as [|[|] nf]; cbn [next_fault fst snd] in Hnet;
    try discriminate Hnet;
    destruct ud as [hist|]; wsimpl;
    repeat first
      [ progress (cbn [next_fault fst snd]; wsimpl)
      | rewrite He
      | match goal with
        | |- context [next_fault ?f] => is_var f; destruct f as [|[|] ?]
        | |- context [match filter ?p ?l with _ => _ end] =>
            destruct (filter p l)
        end ];
    (eexists; split; [reflexivity|]); wsimpl; reflexivity.
Qed.

(** The delivery of an answer, and the apology if it fails, leave the
    session alone. *)
Lemma delivery_keeps_session (self : bot) (uid : Z) (ai : pystr) :
  always session_kept (try_except (deliver self uid ai) (fun _ => on_error)).
Proof.
  assert (Ht : forall w1 w2 w3 : world,
            session_kept w1 w2 -> session_kept w2 w3 -> session_kept w1 w3)
    by (unfold session_kept; intros; congruence).
  apply always_try; [exact Ht | |].
  - apply always_deliver; try (intros; reflexivity); [exact Ht|].
    intros d plan _ w; unfold bind, alloc; cbv beta iota.
    unfold session_kept.
    rewrite (proj1 (save_frame self uid (length (heap w)) plan
                      (with_heap (heap w ++ [d]) w))).
    reflexivity.
  - intros _; apply always_on_error; try (intros; reflexivity); exact Ht.
Qed.

(** X10: the session remembers the dialogue.  Whenever the typing indicator
    is accepted and the engine answers, the session holds afterwards the
    dialogue it held before (none on a first message) followed by this
    exchange, whatever the store does and whatever becomes of the reply; so
    the next message goes to the engine with that dialogue and with the
    follow-up reminder. *)
Theorem session_remembers_the_dialogue
    (self : bot) (e : engine) (uid : Z) (msg : pystr) (w : world) (ai : pystr) :
  model self = Some e ->
  fst (next_fault (net_faults w)) = false ->
  e (history w) (msg ++ reminder_for w) = Some ai ->
  let w' := snd (main_chat_handler self uid msg w) in
  user_data w' = Some (history w ++ [(msg ++ reminder_for w, ai)]) /\
  history w' = history w ++ [(msg ++ reminder_for w, ai)] /\
  reminder_for w' = reminder.
Proof.
  intros Hm Hnet He; cbv zeta.
  destruct (answered_turn_run self e uid msg w ai Hm Hnet He) as (w1 & -> & Hu).
  pose proof (delivery_keeps_session self uid ai w1) as Hk.
  unfold session_kept in Hk; rewrite Hu in Hk.
  split; [exact Hk|].
  split; [unfold history at 1 | unfold reminder_for at 1];
    rewrite Hk; reflexivity.
Qed.

Lemma session_remembers_the_dialogue_witness :
  history (snd (main_chat_handler (bot_answering plain_answer) 7%Z (py "more")
                  (snd (main_chat_handler (bot_answering plain_answer) 7%Z
                          (py "hi") (fresh no_tables))))) =
  [(py "hi" ++ reminder_first_turn, plain_answer);
   (py "more" ++ reminder, plain_answer)].
Proof.
  exact (proj1 (proj2 (session_remembers_the_dialogue
                         (bot_answering plain_answer)
                         (fun _ _ => Some plain_answer) 7%Z (py "more")
                         (snd (main_chat_handler (bot_answering plain_answer)
                                 7%Z (py "hi") (fresh no_tables)))
                         plain_answer eq_refl eq_refl eq_refl))).
Defined.

(** X11: the reset command.  [reset_chat] clears the session and asks
    nothing of the store; the confirmation is delivered when the platform
    accepts it, and when it does not the error is not caught, yet the session
    is cleared all the same.  The message that follows is handled as the
    first of a session: it goes to the engine with the first-turn reminder
    and an empty dialogue, and the session then holds that one exchange. *)
Theorem reset_starts_a_new_session
    (self : bot) (e : engine) (uid : Z) (msg : pystr) (w : world) :
  let w1 := snd (reset_chat w) in
  let w2 := snd (main_chat_handler self uid msg w1) in
  user_data w1 = None /\ store_untouched w w1 /\
  (fst (next_fault (net_faults w)) = false ->
   fst (reset_chat w) = Ok tt /\ outbox w1 = outbox w ++ [cleared]) /\
  (fst (next_fault (net_faults w)) = true ->
   fst (reset_chat w) = Raise NetworkError /\ outbox w1 = outbox w) /\
  (model self = Some e ->
   fst (next_fault (snd (next_fault (net_faults w)))) = false ->
   forall ai, e [] (msg ++ reminder_first_turn) = Some ai ->
     sent w2 = sent w ++ [msg ++ reminder_first_turn] /\
     user_data w2 = Some [(msg ++ reminder_first_turn, ai)]).
Proof.
  cbv zeta.
  assert (Hrun :
    exists w1, snd (reset_chat w) = w1 /\
      user_data w1 = None /\ db w1 = db w /\
      trace w1 = trace w ++ [ReplyText cleared] /\
      net_faults w1 = snd (next_fault (net_faults w)) /\
      (fst (next_fault (net_faults w)) = false ->
       fst (reset_chat w) = Ok tt /\ outbox w1 = outbox w ++ [cleared]) /\
      (fst (next_fault (net_faults w)) = true ->
       fst (reset_chat w) = Raise NetworkError /\ outbox w1 = outbox w)).
  { unfold reset_chat, reply_text, bind, net_call, cleared; wsimpl.
    destruct (next_fault (net_faults w)) as [[|] rest]; cbn [fst snd];
      (eexists; split; [reflexivity|]); wsimpl;
      repeat split; auto; discriminate. }
  destruct Hrun as (w1 & -> & Hu & Hd & Ht & Hn & Hok & Hko).
  split; [exact Hu|].
  split.
  { split; [exact Hd|].
    unfold store_calls; rewrite Ht, filter_app; cbn [filter store_call].
    apply app_nil_r. }
  split; [exact Hok|]. split; [exact Hko|].
  intros Hm Hup ai He.
  assert (Hh : history w1 = []) by (unfold history; rewrite Hu; reflexivity).
  assert (Hr : reminder_for w1 = reminder_first_turn)
    by (unfold reminder_for; rewrite Hu; reflexivity).
  assert (Hs1 : sent w1 = sent w).
  { unfold sent, sent_in; rewrite Ht, flat_map_app; cbn [flat_map app].
    apply app_nil_r. }
  rewrite <- Hn in Hup.
  split.
  - destruct (handler_sent self e uid msg w1 Hm) as [(Hf & _) | (_ & Hs)];
      [congruence|].
    cbv zeta in Hs; rewrite Hs, Hr, Hs1; reflexivity.
  - rewrite <- Hh, <- Hr in He.
    destruct (answered_turn_run self e uid msg w1 ai Hm Hup He) as (w2 & -> & Hu2).
    pose proof (delivery_keeps_session self uid ai w2) as Hk.
    unfold session_kept in Hk; rewrite Hk, Hu2, Hh, Hr; reflexivity.
Qed.

Lemma reset_starts_a_new_session_witness :
  user_data
    (snd (main_chat_handler (bot_answering plain_answer) 7%Z (py "again")
            (snd (reset_chat
                    (snd (main_chat_handler (bot_answering plain_answer) 7%Z
                            (py "hi") (fresh no_tables))))))) =
  Some [(py "again" ++ reminder_first_turn, plain_answer)].
Proof.
  pose proof (reset_starts_a_new_session (bot_answering plain_answer)
                (fun _ _ => Some plain_answer) 7%Z (py "again")
                (snd (main_chat_handler (bot_answering plain_answer) 7%Z
                        (py "hi") (fresh no_tables)))) as H.
  cbv zeta in H; destruct H as (_ & _ & _ & _ & H).
  exact (proj2 (H eq_refl eq_refl plain_answer eq_refl)).
Defined.

End Session.

(** ** One open plan, turn after turn *)

Section OneOpenPlan.

Lemma keeps_one_open_same (u : Z) (w w' : world) :
  plan_history (db w') = plan_history (db w) -> keeps_one_open u w w'.
Proof.
  unfold keeps_one_open, at_most_one_open, open_rows; intros ->; auto.
Qed.

(** X12: a turn keeps the invariant of the plan history.  If a user has at
    most one open plan before a message of any user is handled, the same
    holds afterwards, whatever the engine answers and whichever requests
    fail; the reset command changes no table at all. *)
Theorem turn_keeps_one_open_plan
    (self : bot) (uid : Z) (msg : pystr) (w : world) (u : Z) :
  at_most_one_open u (db w) ->
  at_most_one_open u (db (snd (main_chat_handler self uid msg w))) /\
  db (snd (reset_chat w)) = db w.
Proof.
  intros H; split.
  - revert H; apply (always_main_chat_handler (keeps_one_open u));
      try (intros; apply keeps_one_open_same; reflexivity).
    + unfold keeps_one_open; auto.
    + intros who m w0; apply keeps_one_open_same.
      unfold _log_conversation.
      destruct (supabase self); cbn [negb]; [|reflexivity].
      unfold try_except, conversation_history_insert, db_call, logger_error.
      destruct w0 as [t h ud tr ob lg dbf nf ts].
      destruct dbf as [|[|] dbf]; cbn [next_fault]; wsimpl; reflexivity.
    + intros w0; apply keeps_one_open_same; rewrite load_profile_db; reflexivity.
    + intros d plan _ w0; unfold bind, alloc; cbv beta iota.
      intros H0; apply save_at_most_one_open; exact H0.
  - unfold reset_chat, reply_text, bind, net_call; wsimpl.
    destruct (next_fault (net_faults w)) as [[|] rest]; reflexivity.
Qed.

Lemma turn_keeps_one_open_plan_witness :
  at_most_one_open 7%Z
    (db (snd (main_chat_handler (bot_answering alex_plan_answer) 7%Z
                (py "another plan")
                (snd (main_chat_handler (bot_answering alex_plan_answer) 7%Z
                        (py "a plan please") (fresh alex_stored)))))).
Proof.
  refine (proj1 (turn_keeps_one_open_plan _ _ _ _ 7%Z _)).
  refine (proj1 (turn_keeps_one_open_plan _ _ _ _ 7%Z _)).
  unfold at_most_one_open; simpl; lia.
Defined.

End OneOpenPlan.

(** ** The plan text of a well-formed answer *)

Section PlanText.

Lemma replace_nonempty (s old new : pystr) :
  old <> [] -> replace s old new = replace_from old new s 0.
Proof. destruct old; [congruence | reflexivity]. Qed.

Lemma end_no_overlap (p2 rest : pystr) :
  p2 <> [] -> length p2 < length END_OF_PLAN ->
  startswith (p2 ++ END_OF_PLAN ++ rest) END_OF_PLAN = false.
Proof.
  intros Hne Hlen.
  destruct (startswith _ _) eqn:E; [exfalso|reflexivity].
  pose proof (startswith_nth_error _ _ (length p2) E Hlen) as Hn.
  rewrite nth_error_app2, Nat.sub_diag in Hn by lia.
  destruct p2 as [|c p2]; [congruence|].
  change (nth_error (END_OF_PLAN ++ rest) 0) with (Some 91%N) in Hn.
  change (nth_error END_OF_PLAN (length (c :: p2)))
    with (nth_error (tl END_OF_PLAN) (length p2)) in Hn.
  symmetry in Hn; apply nth_error_In in Hn.
  assert (Hb : forallb (fun c => negb (N.eqb c 91)) (tl END_OF_PLAN) = true)
    by reflexivity.
  rewrite forallb_forall in Hb.
  specialize (Hb _ Hn); rewrite N.eqb_refl in Hb; discriminate.
Qed.

(** Blanks hold no terminal marker. *)
Lemma blanks_no_end (trail : pystr) :
  forallb isspace trail = true -> contains END_OF_PLAN trail = false.
Proof.
  induction trail as [|c trail IH]; [reflexivity|].
  cbn [forallb]; intros H; apply andb_true_iff in H; destruct H as [Hc Ht].
  cbn [contains]; rewrite (IH Ht), orb_false_r.
  change END_OF_PLAN with (91%N :: tl END_OF_PLAN); cbn [startswith].
  destruct (N.eqb 91 c) eqn:E; [|reflexivity].
  apply N.eqb_eq in E; subst c; discriminate Hc.
Qed.

(** The terminal marker at the end of a text that has no other. *)
Lemma replace_end (head trail : pystr) :
  contains END_OF_PLAN head = false -> forallb isspace trail = true ->
  replace (head ++ END_OF_PLAN ++ trail) END_OF_PLAN [] = head ++ trail.
Proof.
  intros Hc Ht.
  rewrite replace_nonempty by discriminate.
  rewrite replace_from_pre.
  - rewrite replace_from_hit by discriminate.
    rewrite replace_from_absent by (apply blanks_no_end; exact Ht).
    reflexivity.
  - intros p1 p2 -> Hne.
    destruct (Nat.lt_ge_cases (length p2) (length END_OF_PLAN)) as [Hl|Hl].
    + apply end_no_overlap; assumption.
    + rewrite startswith_app_long by exact Hl.
      exact (contains_false_suffix _ p1 p2 Hc).
Qed.

Lemma dropwhile_app_all (p : N -> bool) (a b : pystr) :
  forallb p a = true -> dropwhile p (a ++ b) = dropwhile p b.
Proof.
  induction a as [|x a IH]; [reflexivity|].
  cbn [forallb]; intros H; apply andb_true_iff in H; destruct H as [Hx Ha].
  cbn [app dropwhile]; rewrite Hx; auto.
Qed.

Lemma dropwhile_app_keep (p : N -> bool) (a : pystr) (c : N) (b : pystr) :
  p c = false -> dropwhile p (a ++ c :: b) = dropwhile p a ++ c :: b.
Proof.
  intros Hc; induction a as [|x a IH]; cbn [app dropwhile].
  - rewrite Hc; reflexivity.
  - destruct (p x); [exact IH | reflexivity].
Qed.

Lemma rstrip_app_keep (x : pystr) (c : N) (s : pystr) :
  isspace c = false -> rstrip (x ++ c :: s) = x ++ c :: rstrip s.
Proof.
  intros Hc; unfold rstrip.
  rewrite rev_app_distr; cbn [rev]; rewrite <- app_assoc; cbn [app].
  rewrite dropwhile_app_keep by exact Hc.
  rewrite rev_app_distr; cbn [rev]; rewrite rev_involutive, <- app_assoc.
  reflexivity.
Qed.

Lemma rstrip_app_blanks (s t : pystr) :
  forallb isspace t = true -> rstrip (s ++ t) = rstrip s.
Proof.
  intros Ht; unfold rstrip; rewrite rev_app_distr, dropwhile_app_all;
    [reflexivity|].
  apply forallb_forall; intros c Hin; apply in_rev in Hin.
  rewrite forallb_forall in Ht; auto.
Qed.

Lemma strip_rstrip (s : pystr) : strip (rstrip s) = strip s.
Proof.
  assert (Hcomm : lstrip (rstrip s) = rstrip (lstrip s)).
  { unfold lstrip at 2.
    pose proof (takewhile_dropwhile isspace s) as Hs.
    pose proof (takewhile_forallb isspace s) as Ha.
    destruct (dropwhile isspace s) as [|c b] eqn:Ed.
    - rewrite app_nil_r in Hs; rewrite <- Hs.
      rewrite <- (app_nil_l (takewhile isspace s)) at 1.
      rewrite rstrip_app_blanks by exact Ha; reflexivity.
    - pose proof (dropwhile_head _ _ _ _ Ed) as Hc.
      rewrite <- Hs at 1.
      rewrite rstrip_app_keep by exact Hc.
      unfold lstrip; rewrite dropwhile_app_stop by assumption.
      rewrite <- (app_nil_l (c :: b)), rstrip_app_keep by exact Hc.
      reflexivity. }
  unfold strip; rewrite Hcomm; apply rstrip_idem.
Qed.

(** What [rstrip] leaves is the beginning of the text. *)
Lemma rstrip_prefix (s : pystr) : exists t, s = rstrip s ++ t.
Proof.
  unfold rstrip; exists (rev (takewhile isspace (rev s))).
  rewrite <- rev_app_distr, takewhile_dropwhile, rev_involutive; reflexivity.
Qed.

Lemma startswith_prefix (s a b : pystr) :
  startswith s (a ++ b) = true -> startswith s a = true.
Proof.
  intros H; apply startswith_true in H; destruct H as [r ->].
  rewrite <- app_assoc; apply startswith_app.
Qed.

Lemma contains_prefix (a b s : pystr) :
  contains (a ++ b) s = true -> contains a s = true.
Proof.
  induction s as [|c s IH]; cbn [contains]; intros H;
    apply orb_true_iff in H; destruct H as [H|H].
  - rewrite (startswith_prefix _ _ _ H); reflexivity.
  - discriminate H.
  - rewrite (startswith_prefix _ _ _ H); reflexivity.
  - rewrite (IH H); apply orb_true_r.
Qed.

(** X13: the plan text of an answer written as asked.  Take an answer that
    begins with the payload marker, blanks and a brace-delimited payload with
    no closing brace inside, goes on with the points and ends with the
    terminal marker, followed by blanks at most.  If the terminal marker
    occurs nowhere before and the payload marker nowhere in the points,
    [_extract_plan_text] returns the points, trimmed at both ends. *)
Theorem plan_text_of_well_formed_answer
    (ws body points trail : pystr) :
  forallb isspace ws = true -> no_rbrace body = true ->
  forallb isspace trail = true ->
  contains END_OF_PLAN
    (USER_DATA_JSON ++ ws ++ LBRACE :: body ++ RBRACE :: points) = false ->
  contains USER_DATA_JSON points = false ->
  _extract_plan_text
    (USER_DATA_JSON ++ ws ++ LBRACE :: body ++ RBRACE :: points
     ++ END_OF_PLAN ++ trail) = strip points.
Proof.
  intros Hws Hb Ht Hend Hm.
  set (span := USER_DATA_JSON ++ ws ++ LBRACE :: body ++ [RBRACE]).
  assert (Htext :
    USER_DATA_JSON ++ ws ++ LBRACE :: body ++ RBRACE :: points
    ++ END_OF_PLAN ++ trail =
    (USER_DATA_JSON ++ ws ++ LBRACE :: body ++ RBRACE :: points)
    ++ END_OF_PLAN ++ trail).
  { repeat (rewrite <- app_assoc; cbn [app]); reflexivity. }
  rewrite extract_plan_text_eq, Htext, (replace_end _ trail Hend Ht).
  assert (Hstrip :
    strip ((USER_DATA_JSON ++ ws ++ LBRACE :: body ++ RBRACE :: points) ++ trail)
    = USER_DATA_JSON ++ ws ++ LBRACE :: body ++ RBRACE :: rstrip points).
  { unfold strip, lstrip.
    rewrite dropwhile_fix by reflexivity.
    replace ((USER_DATA_JSON ++ ws ++ LBRACE :: body ++ RBRACE :: points) ++ trail)
      with ((USER_DATA_JSON ++ ws ++ LBRACE :: body) ++ RBRACE :: (points ++ trail))
      by (repeat (rewrite <- app_assoc; cbn [app]); reflexivity).
    rewrite rstrip_app_keep by reflexivity.
    rewrite rstrip_app_blanks by exact Ht.
    repeat (rewrite <- app_assoc; cbn [app]); reflexivity. }
  rewrite Hstrip.
  pose proof (search_first_marker [] ws body (rstrip points) eq_refl Hws Hb)
    as Hs.
  cbn [app] in Hs; rewrite Hs; cbn [Re.group0]; fold span.
  replace (USER_DATA_JSON ++ ws ++ LBRACE :: body ++ RBRACE :: rstrip points)
    with (span ++ rstrip points)
    by (unfold span; repeat (rewrite <- app_assoc; cbn [app]); reflexivity).
  assert (Hspan : span <> []) by discriminate.
  rewrite replace_nonempty, replace_from_hit by exact Hspan.
  rewrite replace_from_absent; [apply strip_rstrip|].
  destruct (contains span (rstrip points)) eqn:E; [exfalso|reflexivity].
  apply contains_prefix in E.
  destruct (rstrip_prefix points) as [t Hp].
  rewrite Hp, (contains_app_l _ _ t E) in Hm; discriminate.
Qed.

Lemma plan_text_of_well_formed_answer_witness :
  _extract_plan_text alex_plan_answer = py "1. Sleep well.".
Proof.
  exact (plan_text_of_well_formed_answer (py " ")
           (quoted (py "name") ++ py ": " ++ quoted (py "Alex") ++ py ", "
            ++ quoted (py "age") ++ py ": 30")
           ([LF] ++ py "1. Sleep well." ++ [LF]) []
           eq_refl eq_refl eq_refl eq_refl eq_refl).
Defined.

End PlanText.

(** ** Where an extracted payload comes from *)

Section PayloadOrigin.

(** X14: [_extract_profile_json] invents nothing.  A payload it returns in
    a state is what [json.loads] gives, under the limits of the interpreter
    in that state, for a span of the text that stands after a payload marker
    and blanks, begins with an opening brace and ends at the first closing
    brace after it; its keys are distinct; and returning it leaves the state,
    the log included, as it was. *)
Theorem extracted_payload_is_decoded_from_the_text
    (text : pystr) (d : dict) (w : world) :
  fst (_extract_profile_json text w) = Ok (Some d) ->
  (exists pre ws body post,
     text = pre ++ USER_DATA_JSON ++ ws ++ LBRACE :: body ++ RBRACE :: post /\
     forallb isspace ws = true /\ no_rbrace body = true /\
     loads (interp w) (LBRACE :: body ++ [RBRACE]) = Decoded (JObj d)) /\
  distinct_keys d /\
  contains USER_DATA_JSON text = true /\
  snd (_extract_profile_json text w) = w.
Proof.
  intros Hr.
  pose proof (extract_returns_run text d w w Hr eq_refl) as E.
  destruct (extract_profile_json_origin text d _ _ E)
    as (_ & pre & ws & body & post & Ht & Hw & Hb & Hl).
  pose proof (loads_brace_distinct _ _ _ Hl) as Hd.
  split; [|split; [exact Hd|split]].
  - exists pre, ws, body, post; auto.
  - rewrite Ht; apply contains_app_r, contains_startswith, startswith_app.
  - rewrite E; reflexivity.
Qed.

Lemma extracted_payload_is_decoded_from_the_text_witness :
  (exists pre ws body post,
     alex_plan_answer =
       pre ++ USER_DATA_JSON ++ ws ++ LBRACE :: body ++ RBRACE :: post /\
     forallb isspace ws = true /\ no_rbrace body = true /\
     loads cpython (LBRACE :: body ++ [RBRACE]) = Decoded (JObj alex)) /\
  snd (_extract_profile_json alex_plan_answer (fresh alex_stored)) =
    fresh alex_stored.
Proof.
  destruct (extracted_payload_is_decoded_from_the_text alex_plan_answer alex
              (fresh alex_stored) eq_refl) as (H1 & _ & _ & H2).
  split; [exact H1 | exact H2].
Defined.

End PayloadOrigin.

(** ** What is stored when the reply is lost *)

Section LostReply.

(** A reply that the platform refuses. *)
Lemma reply_text_refused (text : pystr) (w : world) :
  fst (next_fault (net_faults w)) = true ->
  exists w',
    reply_text text w = (Raise NetworkError, w') /\
    outbox w' = outbox w /\ db w' = db w /\
    net_faults w' = snd (next_fault (net_faults w)).
Proof.
  unfold reply_text, bind, net_call.
  destruct (next_fault (net_faults w)) as [[|] rest]; cbn [fst];
    [|discriminate].
  intros _; eexists; split; [reflexivity|]; wsimpl; repeat split.
Qed.

Lemma delivery_keeps_conversation (self : bot) (uid : Z) (ai : pystr) :
  always conversation_kept
    (try_except (deliver self uid ai) (fun _ => on_error)).
Proof.
  assert (Ht : forall w1 w2 w3 : world,
            conversation_kept w1 w2 -> conversation_kept w2 w3 ->
            conversation_kept w1 w3)
    by (unfold conversation_kept; intros; congruence).
  apply always_try; [exact Ht | |].
  - apply always_deliver; try (intros; reflexivity); [exact Ht|].
    intros d plan _ w; unfold bind, alloc; cbv beta iota.
    exact (proj1 (save_rest self uid (length (heap w)) plan
                    (with_heap (heap w ++ [d]) w))).
  - intros _; apply always_on_error; try (intros; reflexivity); exact Ht.
Qed.

(** X15: both sides of an exchange are logged.  With a store client, no
    store fault ahead and the typing indicator accepted, a turn that the
    engine answers appends to the conversation log the user message and then
    the answer as it came from the engine, markers and payload included,
    whatever the answer holds and whether or not a reply reaches the user. *)
Theorem answered_turn_logs_both_messages
    (self : bot) (e : engine) (uid : Z) (msg : pystr) (w : world) (ai : pystr) :
  model self = Some e -> supabase self = true ->
  db_faults w = [] -> fst (next_fault (net_faults w)) = false ->
  e (history w) (msg ++ reminder_for w) = Some ai ->
  conversation_history (db (snd (main_chat_handler self uid msg w))) =
  conversation_history (db w)
  ++ [{| conv_user_id := uid; sender := py "user"; message_text := msg |};
      {| conv_user_id := uid; sender := py "ai"; message_text := ai |}].
Proof.
  intros Hm Hs Hdb Hnet He.
  destruct (stored_turn_run self e uid msg w ai Hm Hs Hdb Hnet He)
    as (w1 & -> & _ & _ & Hc & _).
  rewrite (delivery_keeps_conversation self uid ai w1); exact Hc.
Qed.

Lemma answered_turn_logs_both_messages_witness :
  conversation_history
    (db (snd (main_chat_handler (bot_answering alex_plan_answer) 7%Z
                (py "a plan please")
                (with_net_faults [false; true; true] (fresh no_tables))))) =
  [{| conv_user_id := 7%Z; sender := py "user";
      message_text := py "a plan please" |};
   {| conv_user_id := 7%Z; sender := py "ai";
      message_text := alex_plan_answer |}].
Proof.
  exact (answered_turn_logs_both_messages (bot_answering alex_plan_answer)
           (fun _ _ => Some alex_plan_answer) 7%Z (py "a plan please")
           (with_net_faults [false; true; true] (fresh no_tables))
           alex_plan_answer eq_refl eq_refl eq_refl eq_refl eq_refl).
Defined.

(** X16: no roll-back.  In a plan turn the save comes before the reply.
    When [_extract_profile_json] returns a non-empty payload for the answer
    under the limits of the interpreter, the store accepts the save and the
    platform then refuses the reply, the user receives the apology (when the
    platform accepts that one) and not the plan, yet the plan is stored: it
    is the open plan of the user. *)
Theorem refused_reply_leaves_the_plan_stored
    (self : bot) (e : engine) (uid : Z) (msg : pystr) (w : world)
    (ai : pystr) (d : dict) (rest : list bool) :
  model self = Some e -> supabase self = true ->
  db_faults w = [] -> net_faults w = false :: true :: false :: rest ->
  e (history w) (msg ++ reminder_for w) = Some ai ->
  contains END_OF_PLAN ai = true ->
  fst (_extract_profile_json ai w) = Ok (Some d) -> d <> [] ->
  let w' := snd (main_chat_handler self uid msg w) in
  fst (main_chat_handler self uid msg w) = Ok tt /\
  outbox w' = outbox w ++ [apology] /\
  open_rows uid (db w') =
    [{| user_id := uid; plan_text := _extract_plan_text ai; profile_json := d;
        start_date := hd 0%Z (times w); end_date := None |}].
Proof.
  intros Hm Hs Hdb Hnf He Hc Hr Hd; cbv zeta.
  assert (Hnet : fst (next_fault (net_faults w)) = false)
    by (rewrite Hnf; reflexivity).
  destruct (stored_turn_run self e uid msg w ai Hm Hs Hdb Hnet He)
    as (w1 & -> & _ & _ & _ & _ & Ho1 & _ & Hf1 & Ht1 & Hn1 & Hi1).
  rewrite Hnf in Hn1; cbn [next_fault snd] in Hn1.
  assert (Hr1 : fst (_extract_profile_json ai w1) = Ok (Some d))
    by (rewrite (extract_returns_run ai d w w1 Hr Hi1); reflexivity).
  unfold try_except; rewrite (deliver_plan self uid ai d w1 Hc Hr1 Hd).
  set (plan := _extract_plan_text ai).
  set (w2 := with_heap (heap w1 ++ [d]) w1).
  assert (Hnth : nth (length (heap w1)) (heap w2) [] = d)
    by (unfold w2; wsimpl; apply nth_middle).
  assert (Hp2 : nth (length (heap w1)) (heap w2) [] <> [])
    by (rewrite Hnth; exact Hd).
  assert (Hup3 : store_up 3 w2)
    by (unfold store_up, w2; wsimpl; rewrite Hf1; reflexivity).
  destruct (save_exactly_one_open self uid _ plan w2 Hs Hp2 Hup3)
    as (_ & _ & _ & _ & Hopen).
  destruct (save_frame self uid (length (heap w1)) plan w2)
    as (_ & Ho3 & Hn3).
  cbv zeta in Hopen.
  set (w3 := snd (save_new_plan_and_profile self uid (length (heap w1)) plan w2))
    in *.
  assert (Hn3' : net_faults w3 = true :: false :: rest)
    by (rewrite Hn3; unfold w2; wsimpl; exact Hn1).
  destruct (reply_text_refused plan w3) as (w4 & -> & Ho4 & Hd4 & Hn4).
  { rewrite Hn3'; reflexivity. }
  rewrite Hn3' in Hn4; cbn [next_fault snd] in Hn4.
  destruct (on_error_ok w4) as (w5 & -> & Ho5 & Hd5 & _).
  { rewrite Hn4; reflexivity. }
  cbn [fst snd]; split; [reflexivity|].
  split.
  - rewrite Ho5, Ho4, Ho3; unfold w2; wsimpl; rewrite Ho1; reflexivity.
  - rewrite Hd5, Hd4, Hopen; unfold new_row; rewrite Hnth.
    unfold w2; wsimpl; rewrite Ht1; reflexivity.
Qed.

Lemma refused_reply_leaves_the_plan_stored_witness :
  outbox (snd (main_chat_handler (bot_answering alex_plan_answer) 7%Z
                 (py "a plan please")
                 (with_net_faults [false; true; false] (fresh no_tables)))) =
  [apology] /\
  map plan_text
    (open_rows 7%Z
       (db (snd (main_chat_handler (bot_answering alex_plan_answer) 7%Z
                   (py "a plan please")
                   (with_net_faults [false; true; false] (fresh no_tables)))))) =
  [py "1. Sleep well."].
Proof.
  assert (Hd : alex <> []) by discriminate.
  pose proof (refused_reply_leaves_the_plan_stored
                (bot_answering alex_plan_answer)
                (fun _ _ => Some alex_plan_answer) 7%Z (py "a plan please")
                (with_net_faults [false; true; false] (fresh no_tables))
                alex_plan_answer alex [] eq_refl eq_refl eq_refl eq_refl eq_refl
                eq_refl eq_refl Hd) as H.
  cbv zeta in H; destruct H as (_ & H1 & H2).
  split; [exact H1 | rewrite H2; reflexivity].
Defined.

End LostReply.
